(** * cuenta: a shallow embedding of the expense bot core

    The model comes first, in the layout of the Python package:
    - [PyStr]       the methods of [str] the code relies on;
    - the dataclasses of [expense_bot/graph/state.py], one module each;
    - [Nodes]       [expense_bot/graph/nodes.py]: confirmation, cancellation;
    - [Builder]     [expense_bot/graph/builder.py]: entry gate, confirm node;
    - [Iso], [Json] the texts [datetime] and [json] write and read;
    - [RetryQueue]  [expense_bot/integrations/retry_queue.py], over a model
                    of the SQLite table [retry_jobs];
    - [Posting]     [expense_bot/graph/posting.py];
    - [Regex], [Parsing]  [expense_bot/parsing/expense.py]: the message
                    parser over a backtracking matcher, and the ranker;
    - [Drafting], [Flow]  the rest of [nodes.py] and [builder.py]: drafting
                    and account selection, the parse and resolve nodes, one
                    run of the graph;
    - [Telegram], [TelegramAuth]  [expense_bot/integrations/telegram.py] and
                    [telegram_auth.py]: the reply to a turn, the middlewares.
    The properties follow, grouped by the part of the program they speak of.

    A Python object that is mutated in place is modelled by explicit state
    passing; a function that may raise returns a [result], and when it
    mutates as well, the state (or table) as the call leaves it, also when
    it raises. *)

From Stdlib Require Import ZArith QArith Qround Strings.String Strings.Ascii Lists.List Lia Bool.
From Stdlib Require Import DecimalString Lqa Sorting.Sorted.
From stdpp Require Import base tactics option list strings gmap fin_maps sorting.

Local Open Scope string_scope.
#[local] Set Warnings "-clear-no-such-hyp,-register-all".

(** ** Exceptions and results *)

Inductive exn : Type :=
  | ValueError (msg : string)
  | TypeError (msg : string)
  | PermissionError (msg : string)
  | RetryQueueError (msg : string)
  | ExpensePostingError (msg : string)
  | ERPNextClientError (msg : string).

Inductive result (A : Type) : Type :=
  | Ok (a : A)
  | Raise (e : exn).
Arguments Ok {A} a.
Arguments Raise {A} e.

Definition is_ok {A} (r : result A) : bool :=
  match r with Ok _ => true | Raise _ => false end.


(** ** Python string methods

    Text is a string over Rocq's 8-bit characters. The methods below agree
    with those of [str] on ASCII text (code points below 128); the messages,
    commands and patterns of the program are of that kind. *)

Module PyStr.

Definition chars := list ascii.

Definition of_string (s : string) : chars := list_ascii_of_string s.
Definition to_string (l : chars) : string := string_of_list_ascii l.

Definition between (lo hi : nat) (c : ascii) : bool :=
  let n := nat_of_ascii c in (lo <=? n)%nat && (n <=? hi)%nat.

(** [str.isspace] on the characters below 128: TAB..CR, FS..US and space. *)
Definition is_space (c : ascii) : bool := between 9 13 c || between 28 32 c.
Definition is_upper (c : ascii) : bool := between 65 90 c.
Definition is_lower (c : ascii) : bool := between 97 122 c.
Definition is_digit (c : ascii) : bool := between 48 57 c.

Definition lower_char (c : ascii) : ascii :=
  if is_upper c then ascii_of_nat (nat_of_ascii c + 32) else c.
Definition upper_char (c : ascii) : ascii :=
  if is_lower c then ascii_of_nat (nat_of_ascii c - 32) else c.

Fixpoint drop_while (p : ascii -> bool) (l : chars) : chars :=
  match l with
  | [] => []
  | c :: t => if p c then drop_while p t else l
  end.

Definition lstrip_with (p : ascii -> bool) (l : chars) : chars := drop_while p l.
Definition rstrip_with (p : ascii -> bool) (l : chars) : chars :=
  rev (drop_while p (rev l)).
Definition strip_with (p : ascii -> bool) (l : chars) : chars :=
  rstrip_with p (lstrip_with p l).

(** [s.split()] without argument: maximal runs of non-space characters. *)
Fixpoint split_go (cur : chars) (l : chars) : list chars :=
  match l with
  | [] => match cur with [] => [] | _ => [rev cur] end
  | c :: t =>
      if is_space c
      then match cur with [] => split_go [] t | _ => rev cur :: split_go [] t end
      else split_go (c :: cur) t
  end.

Fixpoint join_chars (sep : chars) (l : list chars) : chars :=
  match l with
  | [] => []
  | [x] => x
  | x :: t => (x ++ sep ++ join_chars sep t)%list
  end.

Fixpoint is_prefix (p l : chars) : bool :=
  match p, l with
  | [], _ => true
  | a :: p', b :: l' => Ascii.eqb a b && is_prefix p' l'
  | _ :: _, [] => false
  end.

(** [s.replace(old, new)] for a non-empty [old]: left to right, without
    overlap. [skip] counts the characters of a match still to be dropped. *)
Fixpoint replace_go (old new : chars) (skip : nat) (l : chars) : chars :=
  match l with
  | [] => []
  | c :: t =>
      match skip with
      | S k => replace_go old new k t
      | O =>
          if is_prefix old l
          then (new ++ replace_go old new (length old - 1) t)%list
          else c :: replace_go old new 0 t
      end
  end.

Definition strip (s : string) : string :=
  to_string (strip_with is_space (of_string s)).
Definition lower (s : string) : string :=
  to_string (map lower_char (of_string s)).
Definition upper (s : string) : string :=
  to_string (map upper_char (of_string s)).
Definition split (s : string) : list string :=
  map to_string (split_go [] (of_string s)).
Definition join (sep : string) (l : list string) : string :=
  to_string (join_chars (of_string sep) (map of_string l)).
Definition replace (old new s : string) : string :=
  to_string (replace_go (of_string old) (of_string new) 0 (of_string s)).

(** Truthiness of a [str]: the empty string is falsy. *)
Definition truthy (s : string) : bool := negb (String.eqb s "").

End PyStr.

(** ** Dataclasses of [graph/state.py] *)

Definition MAX_RECENT_MESSAGES : nat := 6.
Definition MAX_RETRY_ATTEMPTS : Z := 5.

(** [datetime.date]. *)
Record date := mk_date { d_year : Z; d_month : Z; d_day : Z }.

(** [datetime.datetime]; [tzinfo] is the UTC offset in whole seconds of an
    aware value, [None] for a naive one. *)
Record datetime := mk_datetime {
  dt_year : Z; dt_month : Z; dt_day : Z;
  dt_hour : Z; dt_minute : Z; dt_second : Z;
  dt_microsecond : Z;
  dt_tzinfo : option Z }.

(** A finite [decimal.Decimal]: [dec_coefficient * 10 ^ dec_exponent]. *)
Record Decimal := mk_Decimal { dec_coefficient : Z; dec_exponent : Z }.

Definition Decimal_le_zero (d : Decimal) : bool := (dec_coefficient d <=? 0)%Z.

(** [0.0 <= c <= 1.0] *)
Definition unit_interval (c : Q) : bool := Qle_bool 0 c && Qle_bool c 1.

Module AttachmentRef.
Record t := mk { file_url : string; caption : option string }.
End AttachmentRef.

Module AccountMatch.
Record t := mk { account_code : string; display_name : string; confidence : Q }.

Definition post_init (x : t) : result t :=
  if negb (unit_interval (confidence x))
  then Raise (ValueError "AccountMatch confidence must be between 0 and 1.")
  else Ok x.

Definition make (code name : string) (c : Q) : result t := post_init (mk code name c).
End AccountMatch.

Module AccountCandidate.
Record t := mk {
  account_name : string;
  account_code : string;
  confidence : Q;
  reason : string }.

Definition post_init (x : t) : result t :=
  if negb (unit_interval (confidence x))
  then Raise (ValueError "AccountCandidate confidence must be between 0 and 1.")
  else Ok x.

Definition make (name code : string) (c : Q) (why : string) : result t :=
  post_init (mk name code c why).
End AccountCandidate.

Module JournalEntryResult.
Record t := mk {
  journal_entry_id : string;
  posting_date : date;
  voucher_no : string;
  link : option string }.
End JournalEntryResult.

Module ExpenseDraft.
Record t := mk {
  amount : Decimal;
  currency : string;
  debit_account : AccountMatch.t;
  credit_account : AccountMatch.t;
  posting_date : date;
  narration : string;
  attachments : list AttachmentRef.t;
  source_message_id : option string }.

Definition post_init (x : t) : result t :=
  if Decimal_le_zero (amount x)
  then Raise (ValueError "Expense amount must be greater than zero.")
  else if (500 <? String.length (narration x))%nat
  then Raise (ValueError "Narration cannot exceed 500 characters.")
  else Ok x.
End ExpenseDraft.

(** [HumanMessage(content=..., additional_kwargs=metadata)]: the two keys the
    code puts in the metadata are kept as optional fields. *)
Module HumanMessage.
Record t := mk {
  content : string;
  telegram_message_id : option string;
  telegram_user_id : option Z }.
End HumanMessage.

(** A chart-of-accounts row: the keys of the dictionary the code reads. *)
Inductive alias_value : Type :=
  | AliasStr (s : string)
  | AliasList (l : list string).

Module AccountRow.
Record t := mk {
  account_name : option string;
  name : option string;
  account_code : option string;
  aliases : option alias_value;
  alias : option alias_value }.
End AccountRow.

Inductive ConfirmationStatus : Type := pending | approved | rejected.

Module ConversationState.
Record t := mk {
  thread_id : string;
  messages : list HumanMessage.t;
  conversation_summary : option string;
  expense_draft : option ExpenseDraft.t;
  clarifications_needed : list string;
  account_candidates : list AccountCandidate.t;
  confirmation_status : ConfirmationStatus;
  erpnext_submission : option JournalEntryResult.t;
  error_log : list string;
  pending_message : option string;
  pending_message_id : option string;
  pending_user_id : option Z;
  chart_of_accounts_override : option (list AccountRow.t) }.

(** Attribute assignments [state.f = v]. *)
Definition set_messages (v : list HumanMessage.t) (s : t) : t :=
  mk (thread_id s) v (conversation_summary s) (expense_draft s)
     (clarifications_needed s) (account_candidates s) (confirmation_status s)
     (erpnext_submission s) (error_log s) (pending_message s)
     (pending_message_id s) (pending_user_id s) (chart_of_accounts_override s).

Definition set_expense_draft (v : option ExpenseDraft.t) (s : t) : t :=
  mk (thread_id s) (messages s) (conversation_summary s) v
     (clarifications_needed s) (account_candidates s) (confirmation_status s)
     (erpnext_submission s) (error_log s) (pending_message s)
     (pending_message_id s) (pending_user_id s) (chart_of_accounts_override s).

Definition set_clarifications_needed (v : list string) (s : t) : t :=
  mk (thread_id s) (messages s) (conversation_summary s) (expense_draft s)
     v (account_candidates s) (confirmation_status s)
     (erpnext_submission s) (error_log s) (pending_message s)
     (pending_message_id s) (pending_user_id s) (chart_of_accounts_override s).

Definition set_account_candidates (v : list AccountCandidate.t) (s : t) : t :=
  mk (thread_id s) (messages s) (conversation_summary s) (expense_draft s)
     (clarifications_needed s) v (confirmation_status s)
     (erpnext_submission s) (error_log s) (pending_message s)
     (pending_message_id s) (pending_user_id s) (chart_of_accounts_override s).

Definition set_confirmation_status (v : ConfirmationStatus) (s : t) : t :=
  mk (thread_id s) (messages s) (conversation_summary s) (expense_draft s)
     (clarifications_needed s) (account_candidates s) v
     (erpnext_submission s) (error_log s) (pending_message s)
     (pending_message_id s) (pending_user_id s) (chart_of_accounts_override s).

Definition set_erpnext_submission (v : option JournalEntryResult.t) (s : t) : t :=
  mk (thread_id s) (messages s) (conversation_summary s) (expense_draft s)
     (clarifications_needed s) (account_candidates s) (confirmation_status s)
     v (error_log s) (pending_message s)
     (pending_message_id s) (pending_user_id s) (chart_of_accounts_override s).

Definition set_error_log (v : list string) (s : t) : t :=
  mk (thread_id s) (messages s) (conversation_summary s) (expense_draft s)
     (clarifications_needed s) (account_candidates s) (confirmation_status s)
     (erpnext_submission s) v (pending_message s)
     (pending_message_id s) (pending_user_id s) (chart_of_accounts_override s).

Definition set_pending_message (v : option string) (s : t) : t :=
  mk (thread_id s) (messages s) (conversation_summary s) (expense_draft s)
     (clarifications_needed s) (account_candidates s) (confirmation_status s)
     (erpnext_submission s) (error_log s) v
     (pending_message_id s) (pending_user_id s) (chart_of_accounts_override s).

Definition set_pending_message_id (v : option string) (s : t) : t :=
  mk (thread_id s) (messages s) (conversation_summary s) (expense_draft s)
     (clarifications_needed s) (account_candidates s) (confirmation_status s)
     (erpnext_submission s) (error_log s) (pending_message s)
     v (pending_user_id s) (chart_of_accounts_override s).

(** [self.messages[-MAX_RECENT_MESSAGES:]] *)
Definition last_messages (l : list HumanMessage.t) : list HumanMessage.t :=
  drop (length l - MAX_RECENT_MESSAGES) l.

Definition append_message (message : HumanMessage.t) (s : t) : t :=
  let appended := (messages s ++ [message])%list in
  if (MAX_RECENT_MESSAGES <? length appended)%nat
  then set_messages (last_messages appended) s
  else set_messages appended s.

Definition record_error (message : string) (s : t) : t :=
  if PyStr.truthy message
  then set_error_log (error_log s ++ [message])%list s
  else s.
End ConversationState.

(** ** [graph/nodes.py]: confirmation and cancellation *)

Module Nodes.
Import ConversationState.

Definition CONFIRM_COMMANDS : gset string :=
  {[ "confirm"; "confirmed"; "approve"; "approved"; "yes"; "y" ]}.
Definition CANCEL_COMMANDS : gset string :=
  {[ "cancel"; "cancelled"; "reject"; "rejected"; "stop"; "no"; "n" ]}.
Definition EDIT_COMMANDS : gset string :=
  {[ "edit"; "change"; "update"; "revise" ]}.

(** The value [apply_confirmation_decision] returns:
    [Literal["approved", "rejected", "edit", "invalid"]]. *)
Inductive Decision : Type :=
  | decision_approved
  | decision_rejected
  | decision_edit
  | decision_invalid.

(** [(user_input or "").strip().lower()] *)
Definition normalize_reply (user_input : string) : string :=
  PyStr.lower (PyStr.strip user_input).

Definition invalid_command_message (user_input : string) : string :=
  "'" ++ user_input ++ "' is not a valid confirmation command. "
      ++ "Reply with confirm, edit, or cancel.".

Definition apply_confirmation_decision (user_input : string) (state : t)
  : Decision * t :=
  let normalized := normalize_reply user_input in
  if negb (PyStr.truthy normalized)
  then (decision_invalid, record_error "Confirmation input is required." state)
  else if bool_decide (normalized ∈ CONFIRM_COMMANDS)
  then match expense_draft state with
       | None =>
           (decision_invalid,
            record_error "There is no expense draft to approve." state)
       | Some _ => (decision_approved, set_confirmation_status approved state)
       end
  else if bool_decide (normalized ∈ CANCEL_COMMANDS)
  then (decision_rejected, set_confirmation_status rejected state)
  else if bool_decide (normalized ∈ EDIT_COMMANDS)
  then (decision_edit, set_confirmation_status pending state)
  else (decision_invalid,
        set_confirmation_status pending
          (record_error (invalid_command_message user_input) state)).

Definition cancel_expense_attempt (reason : option string) (state : t) : t :=
  let state := set_expense_draft None state in
  let state := set_account_candidates [] state in
  let state := set_clarifications_needed [] state in
  let state := set_confirmation_status rejected state in
  let state := set_erpnext_submission None state in
  match reason with
  | Some r => if PyStr.truthy r then record_error r state else state
  | None => state
  end.
End Nodes.

(** ** [graph/builder.py]: the entry gate and the confirmation node *)

Module Settings.
Record t := mk {
  telegram_allowed_users : list Z;
  default_currency : string }.
End Settings.

Module Builder.
Import ConversationState.

Inductive Route : Type := route_parse | route_confirm.

Definition _append_user_message (message_text : string)
    (message_id : option string) (user_id : option Z) (state : t) : t :=
  let mid := match message_id with
             | Some m => if PyStr.truthy m then Some m else None
             | None => None
             end in
  append_message (HumanMessage.mk message_text mid user_id) state.

(** [(state.pending_message or "").strip()] *)
Definition pending_text (state : t) : string :=
  PyStr.strip (default "" (pending_message state)).

(** [user_id is None or user_id not in allowed_users] *)
Definition not_allowed (allowed_users : gset Z) (user_id : option Z) : bool :=
  match user_id with
  | None => true
  | Some u => bool_decide (u ∉ allowed_users)
  end.

(** The node built by [_create_entry_node(settings)]. The result pairs what
    the call returns or raises with the state object as the call leaves it. *)
Definition _create_entry_node (settings : Settings.t) (state : t)
  : result unit * t :=
  let allowed_users : gset Z :=
    list_to_set (Settings.telegram_allowed_users settings) in
  let message_text := pending_text state in
  if negb (PyStr.truthy message_text)
  then (Raise (ValueError "pending_message is required for graph execution."),
        state)
  else
    let user_id := pending_user_id state in
    if bool_decide (allowed_users ≠ ∅) && not_allowed allowed_users user_id
    then (Raise (PermissionError
                   "Telegram user is not authorized to capture expenses."),
          state)
    else (Ok tt,
          _append_user_message message_text (pending_message_id state) user_id
            state).

Definition _handle_confirmation (state : t) : t :=
  let user_input := pending_text state in
  if negb (PyStr.truthy user_input)
  then record_error "Confirmation input is required." state
  else
    let '(decision, state) := Nodes.apply_confirmation_decision user_input state in
    let state := set_pending_message None state in
    let state := set_pending_message_id None state in
    match decision with
    | Nodes.decision_rejected =>
        Nodes.cancel_expense_attempt (Some "User cancelled the expense.") state
    | Nodes.decision_edit =>
        set_confirmation_status pending
          (Nodes.cancel_expense_attempt (Some "User requested edits.") state)
    | _ => state
    end.

Definition _route_from_entry (state : t) : Route :=
  match expense_draft state, clarifications_needed state, confirmation_status state with
  | Some _, [], pending => route_confirm
  | _, _, _ => route_parse
  end.
End Builder.


(** ** ISO 8601 text of dates and times ([isoformat], [fromisoformat]) *)

Module Iso.
Import PyStr.
Local Open Scope Z_scope.

Definition digit_char (d : Z) : ascii := ascii_of_nat (48 + Z.to_nat d).

Definition digit_val (c : ascii) : option Z :=
  if is_digit c then Some (Z.of_nat (nat_of_ascii c) - 48) else None.

(** ["%0<width>d" % n], written in front of [suffix]. *)
Fixpoint pad_go (width : nat) (n : Z) (suffix : chars) : chars :=
  match width with
  | O => suffix
  | S w => pad_go w (n / 10) (digit_char (n mod 10) :: suffix)
  end.

Definition pad (width : nat) (n : Z) : chars := pad_go width n [].

(** Exactly [width] decimal digits, most significant first. *)
Fixpoint digits (width : nat) (acc : Z) (l : chars) : option (Z * chars) :=
  match width with
  | O => Some (acc, l)
  | S w =>
      match l with
      | c :: t => d ← digit_val c; digits w (10 * acc + d) t
      | [] => None
      end
  end.

Definition expect (c : ascii) (l : chars) : option chars :=
  match l with
  | c' :: t => if Ascii.eqb c c' then Some t else None
  | [] => None
  end.

Definition is_leap (y : Z) : bool :=
  (y mod 4 =? 0) && (negb (y mod 100 =? 0) || (y mod 400 =? 0)).

Definition days_in_month (y m : Z) : Z :=
  if m =? 2 then (if is_leap y then 29 else 28)
  else if (m =? 4) || (m =? 6) || (m =? 9) || (m =? 11) then 30
  else 31.

Definition valid_date (y m d : Z) : bool :=
  (1 <=? y) && (y <=? 9999) && (1 <=? m) && (m <=? 12)
  && (1 <=? d) && (d <=? days_in_month y m).

Definition valid_offset (off : Z) : bool := (-86400 <? off) && (off <? 86400).

Definition valid_datetime (v : datetime) : bool :=
  valid_date (dt_year v) (dt_month v) (dt_day v)
  && (0 <=? dt_hour v) && (dt_hour v <? 24)
  && (0 <=? dt_minute v) && (dt_minute v <? 60)
  && (0 <=? dt_second v) && (dt_second v <? 60)
  && (0 <=? dt_microsecond v) && (dt_microsecond v <? 1000000)
  && match dt_tzinfo v with None => true | Some off => valid_offset off end.

(** [value.replace(microsecond=0)] *)
Definition replace_microsecond0 (v : datetime) : datetime :=
  mk_datetime (dt_year v) (dt_month v) (dt_day v) (dt_hour v) (dt_minute v)
    (dt_second v) 0 (dt_tzinfo v).

Definition colon : ascii := ":"%char.

(** The UTC offset as [isoformat] prints it: [+HH:MM], with [:SS] when the
    offset has seconds. *)
Definition offset_chars (off : Z) : chars :=
  let a := Z.abs off in
  ((if off <? 0 then "-"%char else "+"%char)
     :: pad 2 (a / 3600) ++ colon :: pad 2 (a / 60 mod 60)
     ++ (if a mod 60 =? 0 then [] else colon :: pad 2 (a mod 60)))%list.

Definition date_chars (y m d : Z) : chars :=
  (pad 4 y ++ "-"%char :: pad 2 m ++ "-"%char :: pad 2 d)%list.

(** [date.isoformat()] *)
Definition date_isoformat (d : date) : string :=
  to_string (date_chars (d_year d) (d_month d) (d_day d)).

(** [datetime.isoformat()]: the fraction is printed only when the
    microsecond is not zero. *)
Definition datetime_chars (v : datetime) : chars :=
  (date_chars (dt_year v) (dt_month v) (dt_day v)
     ++ "T"%char :: pad 2 (dt_hour v) ++ colon :: pad 2 (dt_minute v)
     ++ colon :: pad 2 (dt_second v)
     ++ (if dt_microsecond v =? 0 then []
         else "."%char :: pad 6 (dt_microsecond v))
     ++ match dt_tzinfo v with None => [] | Some off => offset_chars off end)%list.

Definition isoformat (v : datetime) : string := to_string (datetime_chars v).

(** The offset part read back: nothing for a naive value, else a sign,
    [HH:MM] and an optional [:SS]. *)
Definition parse_offset (l : chars) : option (option Z) :=
  match l with
  | [] => Some None
  | s :: t =>
      sign ← (if Ascii.eqb s "+"%char then Some 1
              else if Ascii.eqb s "-"%char then Some (-1) else None);
      '(h, t) ← digits 2 0 t;
      t ← expect colon t;
      '(m, t) ← digits 2 0 t;
      match t with
      | [] => Some (Some (sign * (h * 3600 + m * 60)))
      | _ =>
          t ← expect colon t;
          '(sec, t) ← digits 2 0 t;
          match t with
          | [] => Some (Some (sign * (h * 3600 + m * 60 + sec)))
          | _ => None
          end
      end
  end.

Definition parse_datetime (l : chars) : option datetime :=
  '(y, l) ← digits 4 0 l;
  l ← expect "-"%char l;
  '(mo, l) ← digits 2 0 l;
  l ← expect "-"%char l;
  '(d, l) ← digits 2 0 l;
  l ← expect "T"%char l;
  '(h, l) ← digits 2 0 l;
  l ← expect colon l;
  '(mi, l) ← digits 2 0 l;
  l ← expect colon l;
  '(sec, l) ← digits 2 0 l;
  '(us, l) ← match l with
             | c :: t => if Ascii.eqb c "."%char then digits 6 0 t else Some (0, l)
             | [] => Some (0, l)
             end;
  tz ← parse_offset l;
  Some (mk_datetime y mo d h mi sec us tz).

(** [datetime.fromisoformat] on the texts [isoformat] writes. Python 3.11
    reads further ISO 8601 forms as well; no text of that kind is ever stored
    by the repository. *)
Definition fromisoformat (s : string) : result datetime :=
  match parse_datetime (of_string s) with
  | Some v =>
      if valid_datetime v then Ok v
      else Raise (ValueError "Invalid isoformat string")
  | None => Raise (ValueError "Invalid isoformat string")
  end.
End Iso.

(** ** Python values and the JSON documents of the [json] module

    The [payload] column holds the text [json.dumps] writes. The text is
    modelled by the document it denotes ([json]): [json_dumps] builds the
    document of a Python value, with the repository's [default] hook for the
    values [json] does not know, and [json_loads] reads a document back.
    Dictionary keys are strings, floats are finite. *)

Inductive pyval : Type :=
  | PyNone
  | PyBool (b : bool)
  | PyInt (z : Z)
  | PyFloat (q : Q)
  | PyStr (s : string)
  | PyList (l : list pyval)
  | PyTuple (l : list pyval)
  | PyDict (items : list (string * pyval))
  | PyDatetime (v : datetime)
  | PyDate (d : date)
  | PyDecimal (d : Decimal)
  | PyObject (type_name : string).

Inductive json : Type :=
  | JNull
  | JBool (b : bool)
  | JInt (z : Z)
  | JFloat (q : Q)
  | JStr (s : string)
  | JArr (l : list json)
  | JObj (items : list (string * json)).

(** [str(n)] for an [int]. *)
Definition str_int (z : Z) : string := NilZero.string_of_int (Z.to_int z).

Module Json.

(** [str(d)] for a [Decimal] ([Decimal.__str__] with the default context). *)
Definition Decimal_str (d : Decimal) : string :=
  let digits := str_int (Z.abs (dec_coefficient d)) in
  let n := Z.of_nat (String.length digits) in
  let leftdigits := (dec_exponent d + n)%Z in
  let dotplace :=
    if (dec_exponent d <=? 0)%Z && (-6 <? leftdigits)%Z then leftdigits else 1%Z in
  let zeros (k : Z) := PyStr.to_string (repeat "0"%char (Z.to_nat k)) in
  let intpart :=
    if (dotplace <=? 0)%Z then "0"
    else if (n <=? dotplace)%Z then digits ++ zeros (dotplace - n)%Z
    else String.substring 0 (Z.to_nat dotplace) digits in
  let fracpart :=
    if (dotplace <=? 0)%Z then "." ++ zeros (- dotplace)%Z ++ digits
    else if (n <=? dotplace)%Z then ""
    else "." ++ String.substring (Z.to_nat dotplace)
                  (Z.to_nat (n - dotplace)) digits in
  let exp :=
    if (leftdigits =? dotplace)%Z then ""
    else "E" ++ (if (0 <=? leftdigits - dotplace)%Z then "+" else "")
             ++ str_int (leftdigits - dotplace) in
  (if (dec_coefficient d <? 0)%Z then "-" else "") ++ intpart ++ fracpart ++ exp.

(** [repr(type(value))] *)
Definition type_repr (v : pyval) : string :=
  match v with
  | PyNone => "<class 'NoneType'>"
  | PyBool _ => "<class 'bool'>"
  | PyInt _ => "<class 'int'>"
  | PyFloat _ => "<class 'float'>"
  | PyStr _ => "<class 'str'>"
  | PyList _ => "<class 'list'>"
  | PyTuple _ => "<class 'tuple'>"
  | PyDict _ => "<class 'dict'>"
  | PyDatetime _ => "<class 'datetime.datetime'>"
  | PyDate _ => "<class 'datetime.date'>"
  | PyDecimal _ => "<class 'decimal.Decimal'>"
  | PyObject type_name => type_name
  end.

(** [RetryQueueRepository._json_default]: the text written for a value the
    [json] module does not know. *)
Definition _json_default (v : pyval) : result string :=
  match v with
  | PyDatetime t => Ok (Iso.isoformat t)
  | PyDate d => Ok (Iso.date_isoformat d)
  | PyDecimal d => Ok (Decimal_str d)
  | other =>
      Raise (TypeError ("Object of type " ++ type_repr other
                          ++ " is not JSON serializable"))
  end.

(** [json.dumps(payload, ensure_ascii=False, default=_json_default)] *)
Fixpoint json_dumps (v : pyval) : result json :=
  let dump_list :=
    fix dump_list (l : list pyval) : result (list json) :=
      match l with
      | [] => Ok []
      | x :: t =>
          match json_dumps x with
          | Raise e => Raise e
          | Ok j =>
              match dump_list t with
              | Raise e => Raise e
              | Ok js => Ok (j :: js)
              end
          end
      end in
  match v with
  | PyNone => Ok JNull
  | PyBool b => Ok (JBool b)
  | PyInt z => Ok (JInt z)
  | PyFloat q => Ok (JFloat q)
  | PyStr s => Ok (JStr s)
  | PyList l | PyTuple l =>
      match dump_list l with
      | Raise e => Raise e
      | Ok js => Ok (JArr js)
      end
  | PyDict items =>
      let dump_items :=
        fix dump_items (l : list (string * pyval)) : result (list (string * json)) :=
          match l with
          | [] => Ok []
          | (k, x) :: t =>
              match json_dumps x with
              | Raise e => Raise e
              | Ok j =>
                  match dump_items t with
                  | Raise e => Raise e
                  | Ok js => Ok ((k, j) :: js)
                  end
              end
          end in
      match dump_items items with
      | Raise e => Raise e
      | Ok js => Ok (JObj js)
      end
  | PyDatetime _ | PyDate _ | PyDecimal _ | PyObject _ =>
      match _json_default v with
      | Raise e => Raise e
      | Ok s => Ok (JStr s)
      end
  end.

(** [json.loads] *)
Fixpoint json_loads (j : json) : pyval :=
  match j with
  | JNull => PyNone
  | JBool b => PyBool b
  | JInt z => PyInt z
  | JFloat q => PyFloat q
  | JStr s => PyStr s
  | JArr l => PyList (map json_loads l)
  | JObj items => PyDict (map (λ kv, (fst kv, json_loads (snd kv))) items)
  end.

End Json.

(** ** [RetryJob] of [graph/state.py] *)

Module RetryJob.
Record t := mk {
  thread_id : string;
  payload : pyval;
  next_run_at : datetime;
  attempts : Z;
  id : option Z;
  error : option string }.

Definition post_init (j : t) : result t :=
  if (attempts j <? 0)%Z
  then Raise (ValueError "Retry attempts cannot be negative.")
  else if (MAX_RETRY_ATTEMPTS <? attempts j)%Z
  then Raise (ValueError "Retry attempts cannot exceed 5 per policy.")
  else Ok j.

(** [RetryJob(thread_id=..., payload=..., ...)] *)
Definition make (thread_id : string) (payload : pyval) (next_run_at : datetime)
    (attempts : Z) (id : option Z) (error : option string) : result t :=
  post_init (mk thread_id payload next_run_at attempts id error).

Definition is_exhausted (j : t) : bool := (MAX_RETRY_ATTEMPTS <=? attempts j)%Z.

(** [dataclasses.replace(job, id=job_id)]: builds a new object, so
    [__post_init__] runs again. *)
Definition replace_id (j : t) (job_id : Z) : result t :=
  make (thread_id j) (payload j) (next_run_at j) (attempts j) (Some job_id) (error j).
End RetryJob.

(** ** [integrations/retry_queue.py] over a model of the SQLite table

    The table [retry_jobs] is a finite map from the primary key [id] to the
    other columns, with the counter SQLite keeps for an [AUTOINCREMENT] key.
    [TEXT] columns hold strings and compare byte-wise, as SQLite compares
    them. Each SQL statement is one atomic function on the table; a
    repository method is the sequence of its statements, and returns what the
    Python method returns or raises together with the table it leaves. *)

Module Row.
Record t := mk {
  thread_id : string;
  payload : json;
  attempts : Z;
  next_run_at : string;
  error : option string;
  locked_by : option string;
  locked_at : option string }.

Definition set_lock (by_ at_ : option string) (r : t) : t :=
  mk (thread_id r) (payload r) (attempts r) (next_run_at r) (error r) by_ at_.
End Row.

Record retry_jobs := mk_table {
  rows : gmap Z Row.t;
  sqlite_sequence : Z }.

Module RetryQueue.
Local Open Scope Z_scope.

Definition empty_table : retry_jobs := mk_table ∅ 0.

Definition _serialize_payload (payload : pyval) : result json :=
  Json.json_dumps payload.

Definition _serialize_datetime (value : datetime) : string :=
  Iso.isoformat (Iso.replace_microsecond0 value).

Definition _row_to_job (job_id : Z) (r : Row.t) : result RetryJob.t :=
  let payload := Json.json_loads (Row.payload r) in
  match Iso.fromisoformat (Row.next_run_at r) with
  | Raise e => Raise e
  | Ok next_run_at =>
      RetryJob.make (Row.thread_id r) payload next_run_at (Row.attempts r)
        (Some job_id) (Row.error r)
  end.

(** *** The SQL statements *)

Definition max_rowid (m : gmap Z Row.t) : Z :=
  map_fold (λ k _ acc, Z.max k acc) 0 m.

(** The key an [INTEGER PRIMARY KEY AUTOINCREMENT] column gives the next
    row: one more than the largest key the table ever held. *)
Definition next_rowid (db : retry_jobs) : Z :=
  Z.max (sqlite_sequence db) (max_rowid (rows db)) + 1.

(** [INSERT INTO retry_jobs (thread_id, payload, attempts, next_run_at, error)
    VALUES (?, ?, ?, ?, ?)]; returns [cursor.lastrowid]. *)
Definition sql_insert (thread_id : string) (payload : json) (attempts : Z)
    (next_run_at : string) (error : option string) (db : retry_jobs)
  : Z * retry_jobs :=
  let job_id := next_rowid db in
  (job_id,
   mk_table
     (<[job_id := Row.mk thread_id payload attempts next_run_at error None None]>
        (rows db))
     job_id).

(** [WHERE locked_by IS NULL AND next_run_at <= ?] *)
Definition is_due (current : string) (r : Row.t) : bool :=
  match Row.locked_by r with
  | None => String.leb (Row.next_run_at r) current
  | Some _ => false
  end.

(** [ORDER BY next_run_at ASC, id ASC]: [a] comes strictly before [b]. *)
Definition before (a b : Z * Row.t) : bool :=
  match String.compare (Row.next_run_at (snd a)) (Row.next_run_at (snd b)) with
  | Lt => true
  | Gt => false
  | Eq => fst a <? fst b
  end.

Definition first_of (l : list (Z * Row.t)) : option (Z * Row.t) :=
  foldr (λ x best,
           match best with
           | None => Some x
           | Some b => if before x b then Some x else Some b
           end) None l.

(** [SELECT id FROM retry_jobs WHERE locked_by IS NULL AND next_run_at <= ?
    ORDER BY next_run_at ASC, id ASC LIMIT 1] *)
Definition sql_select_due (current : string) (db : retry_jobs) : option Z :=
  fst <$> first_of (List.filter (λ x, is_due current (snd x))
                      (map_to_list (rows db))).

(** [UPDATE retry_jobs SET locked_by = ?, locked_at = ?
    WHERE id = ? AND locked_by IS NULL]; returns [rowcount]. *)
Definition sql_claim (lock_id current : string) (job_id : Z) (db : retry_jobs)
  : Z * retry_jobs :=
  match rows db !! job_id with
  | Some r =>
      match Row.locked_by r with
      | None =>
          (1, mk_table
                (<[job_id := Row.set_lock (Some lock_id) (Some current) r]> (rows db))
                (sqlite_sequence db))
      | Some _ => (0, db)
      end
  | None => (0, db)
  end.

(** [SELECT * FROM retry_jobs WHERE id = ?] *)
Definition sql_select_by_id (job_id : Z) (db : retry_jobs) : option Row.t :=
  rows db !! job_id.

(** [UPDATE retry_jobs SET attempts = attempts + 1, next_run_at = ?, error = ?,
    locked_by = NULL, locked_at = NULL WHERE id = ? AND locked_by = ?] *)
Definition sql_record_failure (next_run error : string) (job_id : Z)
    (lock_id : string) (db : retry_jobs) : Z * retry_jobs :=
  match rows db !! job_id with
  | Some r =>
      if bool_decide (Row.locked_by r = Some lock_id)
      then (1, mk_table
                 (<[job_id := Row.mk (Row.thread_id r) (Row.payload r)
                                (Row.attempts r + 1) next_run (Some error)
                                None None]> (rows db))
                 (sqlite_sequence db))
      else (0, db)
  | None => (0, db)
  end.

(** [DELETE FROM retry_jobs WHERE id = ? AND locked_by = ?] *)
Definition sql_delete_locked (job_id : Z) (lock_id : string) (db : retry_jobs)
  : Z * retry_jobs :=
  match rows db !! job_id with
  | Some r =>
      if bool_decide (Row.locked_by r = Some lock_id)
      then (1, mk_table (delete job_id (rows db)) (sqlite_sequence db))
      else (0, db)
  | None => (0, db)
  end.

(** [UPDATE retry_jobs SET locked_by = NULL, locked_at = NULL WHERE id = ?] *)
Definition sql_reset_lock (job_id : Z) (db : retry_jobs) : retry_jobs :=
  match rows db !! job_id with
  | Some r =>
      mk_table (<[job_id := Row.set_lock None None r]> (rows db))
        (sqlite_sequence db)
  | None => db
  end.

(** [DELETE FROM retry_jobs WHERE id = ?] *)
Definition sql_delete (job_id : Z) (db : retry_jobs) : retry_jobs :=
  mk_table (delete job_id (rows db)) (sqlite_sequence db).

(** *** The repository methods *)

Definition enqueue (job : RetryJob.t) (db : retry_jobs)
  : result RetryJob.t * retry_jobs :=
  match _serialize_payload (RetryJob.payload job) with
  | Raise e => (Raise e, db)
  | Ok payload_json =>
      let next_run := _serialize_datetime (RetryJob.next_run_at job) in
      let '(job_id, db) :=
        sql_insert (RetryJob.thread_id job) payload_json (RetryJob.attempts job)
          next_run (RetryJob.error job) db in
      (RetryJob.replace_id job job_id, db)
  end.

Definition get (job_id : Z) (db : retry_jobs)
  : result (option RetryJob.t) * retry_jobs :=
  match sql_select_by_id job_id db with
  | None => (Ok None, db)
  | Some row =>
      match _row_to_job job_id row with
      | Raise e => (Raise e, db)
      | Ok job => (Ok (Some job), db)
      end
  end.

(** [now] is the optional argument, [clock] what [datetime.now(UTC)] reads. *)
Definition acquire_due_job (lock_id : string) (now : option datetime)
    (clock : datetime) (db : retry_jobs)
  : result (option RetryJob.t) * retry_jobs :=
  if negb (PyStr.truthy lock_id)
  then (Raise (ValueError "lock_id is required to acquire a job."), db)
  else
    let current := _serialize_datetime (default clock now) in
    match sql_select_due current db with
    | None => (Ok None, db)
    | Some job_id =>
        let '(rowcount, db) := sql_claim lock_id current job_id db in
        if rowcount =? 0 then (Ok None, db)
        else
          match sql_select_by_id job_id db with
          | None => (Raise (TypeError "'NoneType' object is not subscriptable"), db)
          | Some row =>
              match _row_to_job job_id row with
              | Raise e => (Raise e, db)
              | Ok job => (Ok (Some job), db)
              end
          end
    end.

Definition lock_mismatch_failure (job_id : Z) (lock_id : string) : exn :=
  RetryQueueError ("Retry job " ++ str_int job_id ++ " is not locked by "
                     ++ lock_id ++ " or does not exist.").

Definition lock_mismatch_success (job_id : Z) (lock_id : string) : exn :=
  RetryQueueError ("Retry job " ++ str_int job_id
                     ++ " cannot be deleted; lock not owned by " ++ lock_id ++ ".").

Definition mark_failure (job_id : Z) (lock_id : string) (error : string)
    (next_run_at : datetime) (db : retry_jobs)
  : result RetryJob.t * retry_jobs :=
  if negb (PyStr.truthy lock_id)
  then (Raise (ValueError "lock_id is required to mark failure."), db)
  else
    let next_run := _serialize_datetime next_run_at in
    let '(rowcount, db) := sql_record_failure next_run error job_id lock_id db in
    if rowcount =? 0 then (Raise (lock_mismatch_failure job_id lock_id), db)
    else
      match sql_select_by_id job_id db with
      | None => (Raise (TypeError "'NoneType' object is not subscriptable"), db)
      | Some row => (_row_to_job job_id row, db)
      end.

Definition mark_success (job_id : Z) (lock_id : string) (db : retry_jobs)
  : result unit * retry_jobs :=
  if negb (PyStr.truthy lock_id)
  then (Raise (ValueError "lock_id is required to mark success."), db)
  else
    let '(rowcount, db) := sql_delete_locked job_id lock_id db in
    if rowcount =? 0 then (Raise (lock_mismatch_success job_id lock_id), db)
    else (Ok tt, db).

Definition reset_lock (job_id : Z) (db : retry_jobs) : result unit * retry_jobs :=
  (Ok tt, sql_reset_lock job_id db).

Definition delete (job_id : Z) (db : retry_jobs) : result unit * retry_jobs :=
  (Ok tt, sql_delete job_id db).

(** *** Histories

    What workers can do to the table between two moments: whole repository
    calls, and the conditional [UPDATE] of an [acquire_due_job] whose
    [SELECT] ran earlier (a racing claim). *)

Inductive op : Type :=
  | OpEnqueue (job : RetryJob.t)
  | OpGet (job_id : Z)
  | OpAcquire (lock_id : string) (now : option datetime) (clock : datetime)
  | OpClaim (lock_id current : string) (job_id : Z)
  | OpMarkFailure (job_id : Z) (lock_id error : string) (next_run_at : datetime)
  | OpMarkSuccess (job_id : Z) (lock_id : string)
  | OpResetLock (job_id : Z)
  | OpDelete (job_id : Z).

Definition run_op (o : op) (db : retry_jobs) : retry_jobs :=
  match o with
  | OpEnqueue job => snd (enqueue job db)
  | OpGet job_id => snd (get job_id db)
  | OpAcquire lock_id now clock => snd (acquire_due_job lock_id now clock db)
  | OpClaim lock_id current job_id => snd (sql_claim lock_id current job_id db)
  | OpMarkFailure job_id lock_id error next_run_at =>
      snd (mark_failure job_id lock_id error next_run_at db)
  | OpMarkSuccess job_id lock_id => snd (mark_success job_id lock_id db)
  | OpResetLock job_id => snd (reset_lock job_id db)
  | OpDelete job_id => snd (delete job_id db)
  end.

Definition run (ops : list op) (db : retry_jobs) : retry_jobs :=
  foldl (λ db o, run_op o db) db ops.

(** The calls that release the lock [holder] has on [job_id]. *)
Definition releases (job_id : Z) (holder : string) (o : op) : bool :=
  match o with
  | OpMarkFailure j l _ _ | OpMarkSuccess j l =>
      bool_decide (j = job_id) && bool_decide (l = holder)
  | OpResetLock j => bool_decide (j = job_id)
  | _ => false
  end.

(** Every key is covered by the [AUTOINCREMENT] counter: true of the empty
    table and kept by every statement. *)
Definition well_formed (db : retry_jobs) : Prop :=
  ∀ k r, rows db !! k = Some r → k <= sqlite_sequence db.

(** [holder] has not lost [job_id]: the key was issued, and its row, while it
    exists, is locked by [holder]. *)
Definition held (job_id : Z) (holder : string) (db : retry_jobs) : Prop :=
  job_id <= sqlite_sequence db
  ∧ ∀ r, rows db !! job_id = Some r → Row.locked_by r = Some holder.
End RetryQueue.

(** ** [graph/posting.py] *)

Module Posting.

(** The calls a posting attempt makes on its collaborators, in order: the
    ledger client, and the retry queue. *)
Inductive call : Type :=
  | call_post_journal_entry (payload : pyval)
  | call_enqueue (job : RetryJob.t).

(** The value of a [Decimal] as a rational; [float(draft.amount)] is the
    float next to it. *)
Definition Decimal_value (d : Decimal) : Q :=
  if (0 <=? dec_exponent d)%Z
  then inject_Z (dec_coefficient d * 10 ^ dec_exponent d)
  else Qmake (dec_coefficient d) (Z.to_pos (10 ^ (- dec_exponent d))).

(** [d[k] = v] on a dictionary kept in insertion order. *)
Fixpoint dict_set (k : string) (v : pyval) (d : list (string * pyval))
  : list (string * pyval) :=
  match d with
  | [] => [(k, v)]
  | (k', v') :: t =>
      if String.eqb k k' then (k', v) :: t else (k', v') :: dict_set k v t
  end.

(** [d.update(extra)] *)
Definition dict_update (d extra : list (string * pyval)) : list (string * pyval) :=
  foldl (λ d kv, dict_set (fst kv) (snd kv) d) d extra.

Definition _build_journal_entry_payload (draft : ExpenseDraft.t)
    (extra_payload : option (list (string * pyval))) : pyval :=
  let amount_value := PyFloat (Decimal_value (ExpenseDraft.amount draft)) in
  let payload :=
    [("posting_date", PyStr (Iso.date_isoformat (ExpenseDraft.posting_date draft)));
     ("user_remark", PyStr (ExpenseDraft.narration draft));
     ("accounts",
      PyList
        [PyDict [("account",
                  PyStr (AccountMatch.account_code (ExpenseDraft.debit_account draft)));
                 ("debit_in_account_currency", amount_value);
                 ("credit_in_account_currency", PyFloat 0)];
         PyDict [("account",
                  PyStr (AccountMatch.account_code (ExpenseDraft.credit_account draft)));
                 ("debit_in_account_currency", PyFloat 0);
                 ("credit_in_account_currency", amount_value)]])] in
  match extra_payload with
  | Some ((_ :: _) as extra) => PyDict (dict_update payload extra)
  | _ => PyDict payload
  end.

(** [post_journal_entry] stands for [erp_client.post_journal_entry]: what the
    ledger client returns or raises for a payload. The result is what the
    function returns or raises, the state as it leaves it, and the calls it
    made. *)
Definition post_confirmed_expense
    (post_journal_entry : pyval → result JournalEntryResult.t)
    (extra_payload : option (list (string * pyval)))
    (state : ConversationState.t)
  : result JournalEntryResult.t * ConversationState.t * list call :=
  match ConversationState.expense_draft state with
  | None =>
      (Raise (ExpensePostingError "ConversationState is missing an expense draft."),
       state, [])
  | Some draft =>
      match ConversationState.confirmation_status state with
      | approved =>
          let payload := _build_journal_entry_payload draft extra_payload in
          match post_journal_entry payload with
          | Raise e => (Raise e, state, [call_post_journal_entry payload])
          | Ok result =>
              (Ok result,
               ConversationState.set_erpnext_submission (Some result) state,
               [call_post_journal_entry payload])
          end
      | _ =>
          (Raise (ExpensePostingError
                    "Expense cannot be posted before the user approves the summary."),
           state, [])
      end
  end.
End Posting.

(** ** Regular expressions ([re]): a backtracking matcher

    The patterns of [parsing/expense.py] use literals, character classes,
    sequence, ordered alternation, greedy repetition, named groups and the
    word boundary. [exec] explores the alternatives in Python's order
    (leftmost alternative first, longest repetition first) and stops at the
    first that lets the rest of the pattern match, as [re] does. *)

Module Regex.
Import PyStr.

Inductive re : Type :=
  | Eps
  | Chr (p : ascii → bool)
  | Seq (a b : re)
  | Alt (a b : re)
  | Star (a : re)
  | Group (name : string) (a : re)
  | WordBoundary.

Definition Opt (a : re) : re := Alt a Eps.
Definition Plus (a : re) : re := Seq a (Star a).

Definition captures := list (string * (nat * nat)).

(** [\w] on the characters below 128. *)
Definition is_word (c : ascii) : bool :=
  is_lower c || is_upper c || is_digit c || Ascii.eqb c "_"%char.

Definition word_at (txt : chars) (i : nat) : bool :=
  match nth_error txt i with
  | Some c => is_word c
  | None => false
  end.

Definition at_boundary (txt : chars) (i : nat) : bool :=
  xorb (match i with O => false | S j => word_at txt j end) (word_at txt i).

(** [exec r txt i caps k]: match [r] in [txt] from position [i], then go on
    with [k] from the position reached; [None] when no alternative works. *)
Fixpoint exec {R : Type} (r : re) (txt : chars) (i : nat) (caps : captures)
    (k : nat → captures → option R) {struct r} : option R :=
  match r with
  | Eps => k i caps
  | Chr p =>
      match nth_error txt i with
      | Some c => if p c then k (S i) caps else None
      | None => None
      end
  | Seq a b => exec a txt i caps (λ j caps', exec b txt j caps' k)
  | Alt a b =>
      match exec a txt i caps k with
      | Some x => Some x
      | None => exec b txt i caps k
      end
  | Star a =>
      (fix loop (fuel : nat) (i : nat) (caps : captures) : option R :=
         match fuel with
         | O => k i caps
         | S fuel' =>
             match exec a txt i caps
                     (λ j caps', if (j <=? i)%nat then None else loop fuel' j caps')
             with
             | Some x => Some x
             | None => k i caps
             end
         end) (S (length txt)) i caps
  | Group name a =>
      exec a txt i caps (λ j caps', k j ((name, (i, j)) :: caps'))
  | WordBoundary => if at_boundary txt i then k i caps else None
  end.

Record found := mk_found {
  m_start : nat;
  m_end : nat;
  m_groups : captures }.

Definition match_at (r : re) (txt : chars) (i : nat) : option found :=
  exec r txt i [] (λ j caps, Some (mk_found i j caps)).

(** [pattern.search(text)]: the match at the leftmost position that has one. *)
Fixpoint search_from (r : re) (txt : chars) (i : nat) (tries : nat) : option found :=
  match match_at r txt i with
  | Some m => Some m
  | None =>
      match tries with
      | O => None
      | S n => search_from r txt (S i) n
      end
  end.

Definition search (r : re) (txt : chars) : option found :=
  search_from r txt 0 (length txt).

(** [text[start:stop]] for [0 <= start]. *)
Definition slice (txt : chars) (start stop : nat) : chars :=
  take (stop - start) (drop start txt).

(** [match.span()] *)
Definition span (m : found) : nat * nat := (m_start m, m_end m).

(** [match.group(name)]: [None] for a group that took no part in the match. *)
Definition group (name : string) (txt : chars) (m : found) : option chars :=
  match List.find (λ c, String.eqb (fst c) name) (m_groups m) with
  | Some (_, (a, b)) => Some (slice txt a b)
  | None => None
  end.

(** A literal, character by character; [ignore_case] stands for
    [re.IGNORECASE]. *)
Definition chr_is (ignore_case : bool) (c : ascii) : re :=
  Chr (λ x, if ignore_case then Ascii.eqb (lower_char x) (lower_char c)
            else Ascii.eqb x c).

Fixpoint lit_chars (ignore_case : bool) (l : chars) : re :=
  match l with
  | [] => Eps
  | [c] => chr_is ignore_case c
  | c :: t => Seq (chr_is ignore_case c) (lit_chars ignore_case t)
  end.

Definition lit (ignore_case : bool) (s : string) : re :=
  lit_chars ignore_case (of_string s).

(** [a|b|...] *)
Fixpoint alts (l : list re) : re :=
  match l with
  | [] => Chr (λ _, false)
  | [a] => a
  | a :: t => Alt a (alts t)
  end.

(** [re.split(pattern, s, maxsplit=1)[0]] for a pattern that matches no
    empty string: the text before the first match, or all of it. *)
Definition before_first (r : re) (txt : chars) : chars :=
  match search r txt with
  | Some m => take (m_start m) txt
  | None => txt
  end.

(** [re.sub(r"\s+", " ", s)] *)
Fixpoint collapse_spaces (in_run : bool) (l : chars) : chars :=
  match l with
  | [] => []
  | c :: t =>
      if is_space c
      then (if in_run then collapse_spaces true t
            else " "%char :: collapse_spaces true t)
      else c :: collapse_spaces false t
  end.

(** [pattern.findall(text)] for a pattern [class+]: the maximal runs. *)
Fixpoint runs_go (p : ascii → bool) (cur : chars) (l : chars) : list chars :=
  match l with
  | [] => match cur with [] => [] | _ => [rev cur] end
  | c :: t =>
      if p c then runs_go p (c :: cur) t
      else match cur with
           | [] => runs_go p [] t
           | _ => rev cur :: runs_go p [] t
           end
  end.

Definition runs (p : ascii → bool) (l : chars) : list chars := runs_go p [] l.
End Regex.

(** ** [parsing/expense.py]: the message parser *)

Module ParsedExpense.
Record t := mk {
  amount : option Decimal;
  currency : option string;
  narration : string;
  debit_hint : option string;
  credit_hint : option string;
  keywords : list string;
  missing_fields : gset string;
  source_message_id : option string }.
End ParsedExpense.

(** The value of a span variable of the parser: [None], or a 2-tuple whose
    items are ints ([match.span()]) or [None]. *)
Inductive span_value : Type :=
  | span_none
  | span_pair (start stop : option nat).

Module Parsing.
Import PyStr Regex.

Definition digit : re := Chr is_digit.
Definition space : re := Chr is_space.

(** [usd|eur|gbp|cad|aud|mxn|cop|clp|pen|ars|brl] under [re.IGNORECASE] *)
Definition currency_codes : list re :=
  map (lit true)
    ["usd"; "eur"; "gbp"; "cad"; "aud"; "mxn"; "cop"; "clp"; "pen"; "ars"; "brl"].

(** [\d{1,3}(?:,\d{3})*(?:\.\d+)?|\d+(?:\.\d+)?] *)
Definition amount_re : re :=
  let fraction := Opt (Seq (lit false ".") (Plus digit)) in
  Alt (Seq (Seq digit (Opt (Seq digit (Opt digit))))
         (Seq (Star (Seq (lit false ",") (Seq digit (Seq digit digit)))) fraction))
      (Seq (Plus digit) fraction).

(** [_AMOUNT_PATTERN]. The symbols [€] and [£] of the prefix alternation lie
    outside the alphabet of the model and match nothing in it. *)
Definition _AMOUNT_PATTERN : re :=
  Seq (Opt (Group "prefix_currency" (alts (lit false "$" :: currency_codes))))
    (Seq (Star space)
       (Seq (Group "amount" amount_re)
          (Seq (Star space)
             (Opt (Group "suffix_currency" (alts currency_codes)))))).

(** [[a-z0-9]] and [[a-z0-9\s:/&-]] under [re.IGNORECASE] *)
Definition account_first (c : ascii) : bool :=
  is_lower c || is_upper c || is_digit c.
Definition account_rest (c : ascii) : bool :=
  account_first c || is_space c || Ascii.eqb c ":"%char || Ascii.eqb c "/"%char
  || Ascii.eqb c "&"%char || Ascii.eqb c "-"%char.

(** [(?P<account>[a-z0-9][a-z0-9\s:/&-]* )] *)
Definition account_re : re :=
  Group "account" (Seq (Chr account_first) (Star (Chr account_rest))).

(** [(?:for|to|on)\s+(?P<account>...)], the group being [account_re] *)
Definition _DEBIT_PATTERN : re :=
  Seq (alts (map (lit true) ["for"; "to"; "on"])) (Seq (Plus space) account_re).

(** [(?:from|using|with|via)\s+(?P<account>...)], the same group *)
Definition _CREDIT_PATTERN : re :=
  Seq (alts (map (lit true) ["from"; "using"; "with"; "via"]))
    (Seq (Plus space) account_re).

(** [[a-z0-9]] of [_TOKEN_PATTERN], without flag *)
Definition token_char (c : ascii) : bool := is_lower c || is_digit c.

Definition _STOPWORDS : gset string :=
  {[ "a"; "an"; "and"; "for"; "from"; "of"; "on"; "paid"; "the"; "to"; "using";
     "with"; "via" ]}.

(** [\b(?:and|but|then)\b] and [[.,;]] of [_clean_hint] *)
Definition conjunction_re : re :=
  Seq WordBoundary (Seq (alts (map (lit false) ["and"; "but"; "then"])) WordBoundary).
Definition sentence_punctuation (c : ascii) : bool :=
  Ascii.eqb c "."%char || Ascii.eqb c ","%char || Ascii.eqb c ";"%char.
(** the characters of [value.strip(" .,:;")] *)
Definition hint_trim (c : ascii) : bool :=
  Ascii.eqb c " "%char || sentence_punctuation c || Ascii.eqb c ":"%char.

Definition _clean_hint (value : chars) : option string :=
  match value with
  | [] => None
  | _ =>
      let cleaned := strip_with hint_trim value in
      let cleaned := before_first conjunction_re cleaned in
      let cleaned := before_first (Chr sentence_punctuation) cleaned in
      let cleaned :=
        strip_with is_space (replace_go (of_string " account") [] 0 cleaned) in
      let cleaned := collapse_spaces false cleaned in
      match cleaned with
      | [] => None
      | _ => Some (to_string cleaned)
      end
  end.

(** [Decimal(raw_amount)] on digits with an optional fraction. *)
Fixpoint digits_value (acc : Z) (l : chars) : option Z :=
  match l with
  | [] => Some acc
  | c :: t =>
      if is_digit c
      then digits_value (10 * acc + (Z.of_nat (nat_of_ascii c) - 48))%Z t
      else None
  end.

Definition Decimal_of_chars (raw : chars) : option Decimal :=
  let whole := List.filter (λ c, negb (Ascii.eqb c "."%char)) raw in
  let after_dot := drop_while (λ c, negb (Ascii.eqb c "."%char)) raw in
  match raw, digits_value 0 whole with
  | _ :: _, Some n =>
      Some (mk_Decimal n (- Z.of_nat (length after_dot - 1)))
  | _, _ => None
  end.

Definition _CURRENCY_SYMBOLS (cleaned : string) : string :=
  if String.eqb cleaned "$" then "USD" else cleaned.

Definition _normalize_currency (token : option chars) (fallback : option string)
  : option string :=
  match token with
  | None | Some [] => fallback
  | Some t =>
      Some (_CURRENCY_SYMBOLS
              (to_string (map upper_char (strip_with is_space t))))
  end.

Definition _extract_amount_and_currency (text : chars) (default_currency : option string)
  : option Decimal * option string * span_value :=
  match search _AMOUNT_PATTERN text with
  | None => (None, default_currency, span_none)
  | Some m =>
      let raw_amount :=
        List.filter (λ c, negb (Ascii.eqb c ","%char))
          (default [] (group "amount" text m)) in
      match Decimal_of_chars raw_amount with
      | None => (None, default_currency, span_none)
      | Some amount =>
          let currency_token :=
            match group "prefix_currency" text m with
            | Some ((_ :: _) as t) => Some t
            | _ => group "suffix_currency" text m
            end in
          (Some amount, _normalize_currency currency_token default_currency,
           span_pair (Some (m_start m)) (Some (m_end m)))
      end
  end.

(** [return hint, match.span() if hint else (None, None)]: the conditional
    binds tighter than the comma, so an empty hint comes with the tuple
    [(None, None)] as its span. *)
Definition _extract_debit_hint (text : chars) : option string * span_value :=
  match search _DEBIT_PATTERN text with
  | None => (None, span_none)
  | Some m =>
      let hint := _clean_hint (default [] (group "account" text m)) in
      (hint,
       match hint with
       | Some _ => span_pair (Some (m_start m)) (Some (m_end m))
       | None => span_pair None None
       end)
  end.

(** [a < b] on an int or [None] each side. *)
Definition py_lt (a b : option nat) : result bool :=
  match a, b with
  | Some x, Some y => Ok (x <? y)%nat
  | Some _, None =>
      Raise (TypeError "'<' not supported between instances of 'int' and 'NoneType'")
  | None, Some _ =>
      Raise (TypeError "'<' not supported between instances of 'NoneType' and 'int'")
  | None, None =>
      Raise (TypeError
               "'<' not supported between instances of 'NoneType' and 'NoneType'")
  end.

(** The last step of [_extract_credit_hint]: the text trailing the amount. *)
Definition trailing_hint (text : chars) (amount_span : span_value)
    (debit_hint : option string) : option string :=
  match amount_span with
  | span_pair _ (Some stop) =>
      match _clean_hint (drop stop text) with
      | Some hint =>
          if bool_decide (Some hint = debit_hint) then None else Some hint
      | None => None
      end
  | _ => None
  end.

Definition _extract_credit_hint (text : chars) (amount_span debit_span : span_value)
    (debit_hint : option string) : result (option string) :=
  match search _CREDIT_PATTERN text with
  | Some m => Ok (_clean_hint (default [] (group "account" text m)))
  | None =>
      match amount_span, debit_span with
      | span_pair _ amount_stop, span_pair debit_start _ =>
          match py_lt amount_stop debit_start with
          | Raise e => Raise e
          | Ok true =>
              match _clean_hint
                      (slice text (default 0%nat amount_stop)
                         (default 0%nat debit_start)) with
              | Some hint => Ok (Some hint)
              | None => Ok (trailing_hint text amount_span debit_hint)
              end
          | Ok false => Ok (trailing_hint text amount_span debit_hint)
          end
      | _, _ => Ok (trailing_hint text amount_span debit_hint)
      end
  end.

Fixpoint dedup_keywords (seen : list string) (l : list string) : list string :=
  match l with
  | [] => []
  | token :: t =>
      if bool_decide (token ∈ _STOPWORDS) || bool_decide (token ∈ seen)
      then dedup_keywords seen t
      else token :: dedup_keywords (seen ++ [token])%list t
  end.

Definition _extract_keywords (text : chars) : list string :=
  dedup_keywords [] (map to_string (runs token_char text)).

Definition missing_if {A} (value : option A) (field : string) : gset string :=
  match value with
  | None => {[ field ]}
  | Some _ => ∅
  end.

(** [" ".join(narration.lower().split())] *)
Definition working_text_of (narration : string) : chars :=
  of_string (join " " (split (lower narration))).

Definition parse_expense_text (message : string) (default_currency : option string)
    (source_message_id : option string) : result ParsedExpense.t :=
  let narration := strip message in
  let working_text := working_text_of narration in
  let '(amount, currency, amount_span) :=
    _extract_amount_and_currency working_text default_currency in
  let '(debit_hint, debit_span) := _extract_debit_hint working_text in
  match _extract_credit_hint working_text amount_span debit_span debit_hint with
  | Raise e => Raise e
  | Ok credit_hint =>
      let keywords := _extract_keywords working_text in
      let missing_fields :=
        missing_if amount "amount" ∪ missing_if debit_hint "debit_account"
        ∪ missing_if credit_hint "credit_account" in
      Ok (ParsedExpense.mk amount currency narration debit_hint credit_hint
            keywords missing_fields source_message_id)
  end.

(** *** The account ranker

    [rapidfuzz] is outside the repository: the two similarity functions are
    an interface, with the range their documentation gives. Scores are
    rationals. *)

Class Fuzz : Type := {
  token_set_ratio : string → string → Q;
  partial_ratio : string → string → Q;
  token_set_ratio_range : ∀ a b, (0 <= token_set_ratio a b <= 100)%Q;
  partial_ratio_range : ∀ a b, (0 <= partial_ratio a b <= 100)%Q }.

Inductive query : Type :=
  | query_str (s : string)
  | query_terms (terms : list string).

Definition tokens_of (s : string) : list string :=
  map to_string (runs token_char (of_string (lower s))).

Fixpoint add_new (tokens : list string) (l : list string) : list string :=
  match l with
  | [] => tokens
  | token :: t =>
      if truthy token && negb (bool_decide (token ∈ tokens))
      then add_new (tokens ++ [token])%list t
      else add_new tokens t
  end.

Definition _normalize_query_terms (q : query) : list string :=
  match q with
  | query_str s => List.filter truthy (tokens_of s)
  | query_terms terms =>
      foldl (λ tokens term,
               if truthy term then add_new tokens (tokens_of term) else tokens)
        [] terms
  end.

(** [max(a, b)] *)
Definition py_max (a b : Q) : Q := if Qle_bool b a then a else b.

(** [round(x, 4)]: to the nearest multiple of 1/10000, ties to even. *)
Definition round4 (x : Q) : Q :=
  let y := (x * 10000)%Q in
  let f := Qfloor y in
  let d := (y - inject_Z f)%Q in
  let n := if Qle_bool d (1 # 2)
           then (if Qeq_bool d (1 # 2) then (if Z.even f then f else f + 1)%Z else f)
           else (f + 1)%Z in
  Qmake n 10000.

Section Ranker.
Context `{Fuzz}.

(** [max(0.2, 1.0 - index * 0.15)] *)
Definition token_weight (index : nat) : Q :=
  py_max (2 # 10) (1 - inject_Z (Z.of_nat index) * (15 # 100))%Q.

Fixpoint weighted_from (index : nat) (label : string) (tokens : list string)
    (score : Q) : Q :=
  match tokens with
  | [] => score
  | token :: t =>
      weighted_from (S index) label t
        (py_max score (token_weight index * (partial_ratio token label / 100))%Q)
  end.

Definition _weighted_token_max (label : string) (tokens : list string) : Q :=
  weighted_from 0 label tokens 0.

Definition _score_label (label : string) (tokens : list string)
    (combined_query : string) : Q :=
  if negb (truthy label) then 0
  else py_max (token_set_ratio combined_query label / 100)%Q
         (_weighted_token_max label tokens).

Definition _score_alias (alias : string) (tokens : list string) : Q :=
  _weighted_token_max alias tokens.

(** [record.get(a) or record.get(b) or ""] *)
Definition first_truthy (a b : option string) : string :=
  match a with
  | Some x => if truthy x then x else
                match b with Some y => if truthy y then y else "" | None => "" end
  | None => match b with Some y => if truthy y then y else "" | None => "" end
  end.

Definition alias_truthy (v : option alias_value) : bool :=
  match v with
  | Some (AliasStr s) => truthy s
  | Some (AliasList (_ :: _)) => true
  | _ => false
  end.

(** [record.get("aliases") or record.get("alias") or []], as a list *)
Definition aliases_of (record : AccountRow.t) : list string :=
  let chosen := if alias_truthy (AccountRow.aliases record)
                then AccountRow.aliases record else AccountRow.alias record in
  match chosen with
  | Some (AliasStr s) => if truthy s then [s] else []
  | Some (AliasList l) => List.filter truthy l
  | None => []
  end.

Definition reason_for (account_name : string) (confidence : Q) : string :=
  if Qle_bool (95 # 100) confidence
  then "Matched '" ++ account_name ++ "'"
  else "Similar to '" ++ account_name ++ "'".

(** [str(record.get("account_name") or record.get("name") or "").strip()] *)
Definition row_name (record : AccountRow.t) : string :=
  strip (first_truthy (AccountRow.account_name record) (AccountRow.name record)).

(** [str(record.get("account_code") or record.get("name") or "").strip()] *)
Definition row_code (record : AccountRow.t) : string :=
  strip (first_truthy (AccountRow.account_code record) (AccountRow.name record)).

(** The loop over [accounts]: the candidates in the order of the rows. *)
Fixpoint score_accounts (tokens : list string) (combined_query : string)
    (min_confidence : Q) (seen_codes : gset string) (accounts : list AccountRow.t)
  : result (list AccountCandidate.t) :=
  match accounts with
  | [] => Ok []
  | record :: rest =>
      let account_name := row_name record in
      let account_code := row_code record in
      if negb (truthy account_name) || negb (truthy account_code)
         || bool_decide (account_code ∈ seen_codes)
      then score_accounts tokens combined_query min_confidence seen_codes rest
      else
        let cleaned_name := lower account_name in
        let best_score :=
          foldl (λ best alias, py_max best (_score_alias (lower alias) tokens))
            (_score_label cleaned_name tokens combined_query)
            (aliases_of record) in
        let confidence := round4 best_score in
        if negb (Qle_bool min_confidence confidence)
        then score_accounts tokens combined_query min_confidence seen_codes rest
        else
          match AccountCandidate.make account_name account_code confidence
                  (reason_for account_name confidence) with
          | Raise e => Raise e
          | Ok candidate =>
              match score_accounts tokens combined_query min_confidence
                      ({[ account_code ]} ∪ seen_codes) rest with
              | Raise e => Raise e
              | Ok scored => Ok (candidate :: scored)
              end
          end
  end.

(** [scored.sort(key=lambda candidate: candidate.confidence, reverse=True)]:
    the stable sort by decreasing confidence. *)
Fixpoint insert_desc (x : AccountCandidate.t) (l : list AccountCandidate.t)
  : list AccountCandidate.t :=
  match l with
  | [] => [x]
  | y :: t =>
      if Qle_bool (AccountCandidate.confidence y) (AccountCandidate.confidence x)
      then x :: l
      else y :: insert_desc x t
  end.

Definition sort_desc (l : list AccountCandidate.t) : list AccountCandidate.t :=
  foldr insert_desc [] l.

(** [scored[:limit] if limit and len(scored) > limit else scored] *)
Definition truncate (limit : Z) (scored : list AccountCandidate.t)
  : list AccountCandidate.t :=
  if negb (limit =? 0)%Z && (limit <? Z.of_nat (length scored))%Z
  then (if (0 <=? limit)%Z then take (Z.to_nat limit) scored
        else take (Z.to_nat (Z.of_nat (length scored) + limit)) scored)
  else scored.

(** The candidates before sorting, [scored] of the source. *)
Definition scored_candidates (q : query) (accounts : list AccountRow.t)
    (min_confidence : Q) : result (list AccountCandidate.t) :=
  let tokens := _normalize_query_terms q in
  score_accounts tokens (join " " tokens) min_confidence ∅ accounts.

Definition rank_account_candidates (q : query) (accounts : list AccountRow.t)
    (limit : Z) (min_confidence : Q) : result (list AccountCandidate.t) :=
  let tokens := _normalize_query_terms q in
  match tokens with
  | [] => Ok []
  | _ =>
      match scored_candidates q accounts min_confidence with
      | Raise e => Raise e
      | Ok scored => Ok (truncate limit (sort_desc scored))
      end
  end.
End Ranker.



End Parsing.

(** ** Concrete values used by the examples *)

Module Samples.
Definition taxi : AccountMatch.t := AccountMatch.mk "5110" "Taxi Expense - HQ" (99 # 100).
Definition cash : AccountMatch.t := AccountMatch.mk "1000" "Cash - HQ" (98 # 100).

Definition draft : ExpenseDraft.t :=
  ExpenseDraft.mk (mk_Decimal 1000 (-2)) "USD" taxi cash (mk_date 2025 11 7)
    "Paid $10 cash for taxi" [] None.

Definition submission : JournalEntryResult.t :=
  JournalEntryResult.mk "JE-4242" (mk_date 2025 11 7) "VCH-4242" None.

Definition earlier_message : HumanMessage.t :=
  HumanMessage.mk "Paid $10 cash for taxi" (Some "99") (Some 111%Z).

(** A thread with a pending draft and the reply [reply] waiting. *)
Definition confirming (reply : option string) : ConversationState.t :=
  ConversationState.mk "chat:confirm" [earlier_message] None (Some draft) [] []
    pending None [] reply (Some "100") (Some 111%Z) None.

(** The same thread without a draft. *)
Definition collecting (reply : option string) : ConversationState.t :=
  ConversationState.mk "chat:confirm" [earlier_message] None None [] []
    pending None [] reply (Some "100") (Some 111%Z) None.

(** A state that still carries a ledger submission next to its draft. *)
Definition with_submission (reply : option string) : ConversationState.t :=
  ConversationState.mk "chat:confirm" [earlier_message] None (Some draft) [] []
    pending (Some submission) [] reply (Some "100") (Some 111%Z) None.

(** Instants of 2025-11-07, UTC, [minute] minutes and [us] microseconds
    after 09:00. *)
Definition at_minute (minute us : Z) : datetime :=
  mk_datetime 2025 11 7 9 minute 0 us (Some 0%Z).

Definition job (thread : string) (minute : Z) (tries : Z) : RetryJob.t :=
  RetryJob.mk thread (PyDict [("journal_entry", PyStr thread)])
    (at_minute minute 0) tries None None.

(** The table after [enqueue] of a job due at 09:00 and one due at 09:15. *)
Definition two_jobs : retry_jobs :=
  RetryQueue.run
    [RetryQueue.OpEnqueue (job "thread-due" 0 0);
     RetryQueue.OpEnqueue (job "thread-future" 15 0)]
    RetryQueue.empty_table.

(** One round of a worker: acquire at minute [m], fail, retry a minute later. *)
Definition failed_round (m : Z) : list RetryQueue.op :=
  [RetryQueue.OpAcquire "worker-a" (Some (at_minute m 0)) (at_minute m 0);
   RetryQueue.OpMarkFailure 1 "worker-a" "503" (at_minute (m + 1) 0)].

(** The table holding one job that was enqueued and has failed five times. *)
Definition exhausted_job : retry_jobs :=
  RetryQueue.run
    (RetryQueue.OpEnqueue (job "thread-due" 0 0)
       :: failed_round 1 ++ failed_round 3 ++ failed_round 5 ++ failed_round 7
       ++ failed_round 9)%list
    RetryQueue.empty_table.

(** The thread after the user approved the draft. *)
Definition approved_state : ConversationState.t :=
  ConversationState.mk "chat:481516" [earlier_message] None (Some draft) [] []
    approved None [] None None (Some 111%Z) None.

(** A ledger that answers every request with a 503. *)
Definition ledger_down (payload : pyval) : result JournalEntryResult.t :=
  Raise (ERPNextClientError "503 Service Unavailable").

Definition ledger_up (payload : pyval) : result JournalEntryResult.t :=
  Ok submission.

(** A stand-in for [rapidfuzz] in the examples: identical strings score
    100, as they do there, and all others 0. *)
Definition same_text (a b : string) : Q := if String.eqb a b then 100 else 0.

Lemma same_text_range (a b : string) : (0 <= same_text a b <= 100)%Q.
Proof. unfold same_text. destruct (String.eqb a b); split; discriminate. Qed.

Definition exact_fuzz : Parsing.Fuzz :=
  Parsing.Build_Fuzz same_text same_text same_text_range same_text_range.

Definition chart : list AccountRow.t :=
  [AccountRow.mk (Some "Cash") None (Some "1000") None None;
   AccountRow.mk (Some "Taxi") None (Some "5110") None None].

Definition settings_open : Settings.t := Settings.mk [] "USD".
End Samples.

(** ** Notions used to state further properties of the retry queue *)

Module Calendar.
Local Open Scope Z_scope.

(** Two comparisons combined lexicographically. *)
Definition lex (c1 c2 : comparison) : comparison :=
  match c1 with Eq => c2 | _ => c1 end.

(** The calendar order of two instants, down to the second: year, month,
    day, hour, minute, second, in this order. For two instants at the same
    UTC offset it is the order in time. *)
Definition civil_compare (a b : datetime) : comparison :=
  lex (dt_year a ?= dt_year b)
    (lex (dt_month a ?= dt_month b)
       (lex (dt_day a ?= dt_day b)
          (lex (dt_hour a ?= dt_hour b)
             (lex (dt_minute a ?= dt_minute b) (dt_second a ?= dt_second b))))).

(** The order of two texts, as SQLite compares [TEXT] values. *)
Definition text_compare (l1 l2 : PyStr.chars) : comparison :=
  String.compare (PyStr.to_string l1) (PyStr.to_string l2).
End Calendar.



(** The key [job_id] was issued and its row is gone. *)
Definition retired (job_id : Z) (db : retry_jobs) : Prop :=
  (job_id <= sqlite_sequence db)%Z ∧ rows db !! job_id = None.

(** ** [graph/state.py], continued: the message window *)

Module Window.
Import ConversationState.

(** [ConversationState.__post_init__] *)
Definition post_init (s : t) : t := set_messages (last_messages (messages s)) s.

(** [state.append_message(m)] for each [m] of [ms], in order. *)
Definition append_messages (ms : list HumanMessage.t) (s : t) : t :=
  foldl (λ s m, append_message m s) s ms.
End Window.

(** ** Shapes of the parser's and the ranker's results *)

Module Shape.
Import PyStr Parsing.

(** A match of [_TOKEN_PATTERN]: one or more characters of [a-z0-9]. *)
Definition is_token (s : string) : Prop :=
  s ≠ "" ∧ Forall (λ c, token_char c = true) (of_string s).

(** The candidate was made from the row: the row's name and code, both
    non-empty. *)
Definition made_from (row : AccountRow.t) (c : AccountCandidate.t) : Prop :=
  AccountCandidate.account_name c = row_name row
  ∧ AccountCandidate.account_code c = row_code row
  ∧ row_name row ≠ "" ∧ row_code row ≠ "".
End Shape.

(** ** [graph/nodes.py], continued: drafting and account selection *)

Module Drafting.
Import ConversationState.

(** [AccountRole = Literal["debit_account", "credit_account"]] *)
Inductive AccountRole : Type := debit_account | credit_account.

(** The role as the string it is in the source. *)
Definition role_key (role : AccountRole) : string :=
  match role with
  | debit_account => "debit_account"
  | credit_account => "credit_account"
  end.

Definition AUTO_SELECTION_THRESHOLD : Q := 85 # 100.
Definition MAX_ACCOUNT_SUGGESTIONS : Z := 5.
Definition MIN_CANDIDATE_CONFIDENCE : Q := 5 # 10.

Definition ROLE_LABELS (role : AccountRole) : string :=
  match role with
  | debit_account => "Debit account"
  | credit_account => "Credit account"
  end.

(** [a or b] for an optional string [a] *)
Definition or_else (a : option string) (b : string) : string :=
  match a with
  | Some x => if PyStr.truthy x then x else b
  | None => b
  end.

Definition _placeholder_account (hint : option string) (role : AccountRole)
  : result AccountMatch.t :=
  let label :=
    match hint with
    | Some h => if PyStr.truthy h then PyStr.strip h else ROLE_LABELS role
    | None => ROLE_LABELS role
    end in
  let code :=
    PyStr.replace " " "_"
      (PyStr.lower (PyStr.strip (or_else hint ("unresolved_" ++ role_key role)))) in
  AccountMatch.make
    (if PyStr.truthy code then code else "unresolved_" ++ role_key role)
    (if PyStr.truthy label then label else ROLE_LABELS role)
    0.

(** [sorted(s)] for a set of strings *)
Fixpoint insert_sorted (x : string) (l : list string) : list string :=
  match l with
  | [] => [x]
  | y :: t => if String.leb x y then x :: l else y :: insert_sorted x t
  end.

Definition sorted (s : gset string) : list string :=
  foldr insert_sorted [] (elements s).

(** [today] is what [date.today()] reads. The result pairs what the call
    returns or raises with the state as the call leaves it. *)
Definition parse_expense_message (today : date) (message default_currency : string)
    (source_message_id : option string) (state : t)
  : result ParsedExpense.t * t :=
  match Parsing.parse_expense_text message (Some default_currency)
          source_message_id with
  | Raise e => (Raise e, state)
  | Ok parsed =>
      let state := set_account_candidates [] state in
      let state := set_erpnext_submission None state in
      let state :=
        set_clarifications_needed (sorted (ParsedExpense.missing_fields parsed))
          state in
      if bool_decide (ParsedExpense.missing_fields parsed ≠ ∅)
      then (Ok parsed, set_expense_draft None state)
      else
        match ParsedExpense.amount parsed, ParsedExpense.debit_hint parsed,
              ParsedExpense.credit_hint parsed with
        | Some amount, Some debit_hint, Some credit_hint =>
            let resolved_currency :=
              or_else (ParsedExpense.currency parsed) default_currency in
            match _placeholder_account (Some debit_hint) debit_account with
            | Raise e => (Raise e, state)
            | Ok debit =>
                match _placeholder_account (Some credit_hint) credit_account with
                | Raise e => (Raise e, state)
                | Ok credit =>
                    match ExpenseDraft.post_init
                            (ExpenseDraft.mk amount resolved_currency debit credit
                               today (ParsedExpense.narration parsed) []
                               (ParsedExpense.source_message_id parsed)) with
                    | Raise e => (Raise e, state)
                    | Ok draft =>
                        (Ok parsed,
                         set_confirmation_status pending
                           (set_expense_draft (Some draft) state))
                    end
                end
            end
        | _, _, _ =>
            (Ok parsed,
             set_expense_draft None
               (set_clarifications_needed
                  ["amount"; "debit_account"; "credit_account"] state))
        end
  end.

(** [str.isdigit] and [int] on a string of decimal digits *)
Definition isdigit (s : string) : bool :=
  PyStr.truthy s && forallb PyStr.is_digit (PyStr.of_string s).

Definition int_of_digits (s : string) : Z :=
  default 0%Z (Parsing.digits_value 0 (PyStr.of_string s)).

Definition _match_user_choice (candidates : list AccountCandidate.t)
    (choice : option string) : option AccountCandidate.t :=
  match choice with
  | None => None
  | Some choice =>
      if negb (PyStr.truthy choice) then None
      else
        let normalized := PyStr.lower (PyStr.strip choice) in
        if negb (PyStr.truthy normalized) then None
        else
          let by_index :=
            if isdigit normalized
            then
              let index := (int_of_digits normalized - 1)%Z in
              if (0 <=? index)%Z && (index <? Z.of_nat (length candidates))%Z
              then candidates !! Z.to_nat index
              else None
            else None in
          match by_index with
          | Some candidate => Some candidate
          | None =>
              List.find
                (λ candidate,
                   String.eqb normalized
                     (PyStr.lower (AccountCandidate.account_code candidate))
                   || String.eqb normalized
                        (PyStr.lower (AccountCandidate.account_name candidate)))
                candidates
          end
  end.

(** [state.expense_draft.<role> = account_match] *)
Definition set_role (role : AccountRole) (account_match : AccountMatch.t)
    (draft : ExpenseDraft.t) : ExpenseDraft.t :=
  match role with
  | debit_account =>
      ExpenseDraft.mk (ExpenseDraft.amount draft) (ExpenseDraft.currency draft)
        account_match (ExpenseDraft.credit_account draft)
        (ExpenseDraft.posting_date draft) (ExpenseDraft.narration draft)
        (ExpenseDraft.attachments draft) (ExpenseDraft.source_message_id draft)
  | credit_account =>
      ExpenseDraft.mk (ExpenseDraft.amount draft) (ExpenseDraft.currency draft)
        (ExpenseDraft.debit_account draft) account_match
        (ExpenseDraft.posting_date draft) (ExpenseDraft.narration draft)
        (ExpenseDraft.attachments draft) (ExpenseDraft.source_message_id draft)
  end.

Definition _resolve_account (role : AccountRole)
    (candidates : list AccountCandidate.t) (auto_threshold : Q)
    (user_choice : option string) (state : t) : result bool * t :=
  let matched :=
    if PyStr.truthy (default "" user_choice)
    then _match_user_choice candidates user_choice
    else
      match candidates with
      | first :: _ =>
          if Qle_bool auto_threshold (AccountCandidate.confidence first)
          then Some first else None
      | [] => None
      end in
  match matched with
  | None => (Ok false, state)
  | Some chosen =>
      match AccountMatch.make (AccountCandidate.account_code chosen)
              (AccountCandidate.account_name chosen)
              (AccountCandidate.confidence chosen) with
      | Raise e => (Raise e, state)
      | Ok account_match =>
          match expense_draft state with
          | None => (Ok false, state)
          | Some draft =>
              (Ok true, set_expense_draft (Some (set_role role account_match draft)) state)
          end
      end
  end.

Section Selection.
Context `{Parsing.Fuzz}.

Definition _rank_candidates (hint : option string) (keywords : list string)
    (accounts : list AccountRow.t) (limit : Z) (min_confidence : Q)
  : result (list AccountCandidate.t) :=
  let query_terms :=
    ((if PyStr.truthy (default "" hint) then [default "" hint] else [])
       ++ keywords)%list in
  let query_terms :=
    match query_terms with
    | [] => ["expense"]
    | _ => query_terms
    end in
  Parsing.rank_account_candidates (Parsing.query_terms query_terms) accounts
    limit min_confidence.

(** The returned dictionary [{"debit": ..., "credit": ...}] is the pair of
    its two values. *)
Definition select_accounts_for_draft
    (chart_of_accounts : option (list AccountRow.t))
    (auto_select_threshold min_candidate_confidence : Q) (max_suggestions : Z)
    (debit_choice credit_choice : option string) (state : t)
  : result (list AccountCandidate.t * list AccountCandidate.t) * t :=
  match expense_draft state with
  | None =>
      (Raise (ValueError "Cannot resolve accounts without an expense draft."),
       state)
  | Some draft =>
      if negb (negb (Qle_bool auto_select_threshold 0)
               && Qle_bool auto_select_threshold 1)
      then (Raise (ValueError "auto_select_threshold must be between 0 and 1."),
            state)
      else if negb (Qle_bool 0 min_candidate_confidence
                    && Qle_bool min_candidate_confidence 1)
      then (Raise (ValueError "min_candidate_confidence must be between 0 and 1."),
            state)
      else if (max_suggestions <=? 0)%Z
      then (Raise (ValueError "max_suggestions must be a positive integer."),
            state)
      else
        let ledger_rows := default [] chart_of_accounts in
        match Parsing.parse_expense_text (ExpenseDraft.narration draft)
                (Some (ExpenseDraft.currency draft))
                (ExpenseDraft.source_message_id draft) with
        | Raise e => (Raise e, state)
        | Ok parsed =>
            match _rank_candidates (ParsedExpense.debit_hint parsed)
                    (ParsedExpense.keywords parsed) ledger_rows max_suggestions
                    min_candidate_confidence with
            | Raise e => (Raise e, state)
            | Ok debit_candidates =>
                match _rank_candidates (ParsedExpense.credit_hint parsed)
                        (ParsedExpense.keywords parsed) ledger_rows
                        max_suggestions min_candidate_confidence with
                | Raise e => (Raise e, state)
                | Ok credit_candidates =>
                    match _resolve_account debit_account debit_candidates
                            auto_select_threshold debit_choice state with
                    | (Raise e, state) => (Raise e, state)
                    | (Ok debit_resolved, state) =>
                        match _resolve_account credit_account credit_candidates
                                auto_select_threshold credit_choice state with
                        | (Raise e, state) => (Raise e, state)
                        | (Ok credit_resolved, state) =>
                            let unresolved :=
                              ((if debit_resolved then [] else [debit_account])
                                 ++ (if credit_resolved then []
                                     else [credit_account]))%list in
                            let state :=
                              set_clarifications_needed (map role_key unresolved)
                                state in
                            let state :=
                              match unresolved with
                              | debit_account :: _ =>
                                  set_account_candidates debit_candidates state
                              | credit_account :: _ =>
                                  set_account_candidates credit_candidates state
                              | [] => set_account_candidates [] state
                              end in
                            let state :=
                              match unresolved, ledger_rows with
                              | _ :: _, [] =>
                                  record_error
                                    "Chart of accounts data is unavailable; unable to auto-select ledgers."
                                    state
                              | _, _ => state
                              end in
                            (Ok (debit_candidates, credit_candidates), state)
                        end
                    end
                end
            end
        end
  end.
End Selection.
End Drafting.

(** The fields no drafting or selection step writes. *)
Definition same_thread (s s' : ConversationState.t) : Prop :=
  ConversationState.thread_id s' = ConversationState.thread_id s
  ∧ ConversationState.messages s' = ConversationState.messages s
  ∧ ConversationState.conversation_summary s'
    = ConversationState.conversation_summary s
  ∧ ConversationState.pending_message s' = ConversationState.pending_message s
  ∧ ConversationState.pending_message_id s'
    = ConversationState.pending_message_id s
  ∧ ConversationState.pending_user_id s' = ConversationState.pending_user_id s
  ∧ ConversationState.chart_of_accounts_override s'
    = ConversationState.chart_of_accounts_override s.

(** The names of the fields a parse left open, in sorted order. *)
Definition open_fields (parsed : ParsedExpense.t) : list string :=
  ((match ParsedExpense.amount parsed with None => ["amount"] | Some _ => [] end)
     ++ (match ParsedExpense.credit_hint parsed with
         | None => ["credit_account"] | Some _ => [] end)
     ++ (match ParsedExpense.debit_hint parsed with
         | None => ["debit_account"] | Some _ => [] end))%list.



(** ** Further values used by the examples *)

Module Scenes.
(** The draft [parse_expense_message] makes of "Paid $10 cash for taxi". *)
Definition placeholder_draft : ExpenseDraft.t :=
  ExpenseDraft.mk (mk_Decimal 10 0) "USD" (AccountMatch.mk "taxi" "taxi" 0)
    (AccountMatch.mk "cash" "cash" 0) (mk_date 2025 11 7)
    "Paid $10 cash for taxi" [] (Some "100").

(** A thread right after that message was parsed. *)
Definition drafted : ConversationState.t :=
  ConversationState.mk "chat:confirm" [Samples.earlier_message] None
    (Some placeholder_draft) [] [] pending None [] None None (Some 111%Z) None.

(** The same draft with both accounts taken from [Samples.chart]. *)
Definition resolved_draft : ExpenseDraft.t :=
  ExpenseDraft.mk (mk_Decimal 10 0) "USD"
    (AccountMatch.mk "5110" "Taxi" (10000 # 10000))
    (AccountMatch.mk "1000" "Cash" (10000 # 10000)) (mk_date 2025 11 7)
    "Paid $10 cash for taxi" [] (Some "100").
End Scenes.

(** ** [graph/builder.py], continued: the parse and resolve nodes, one turn *)

Module Flow.
Import ConversationState.

(** What [chart_tool.invoke({})] returns, as [_parse_chart_rows] tells the
    cases apart: a [Mapping], with what its key [accounts] holds (if it
    holds anything); a [Sequence] that is no [str] or [bytes], with its
    items, each a [Mapping] (a row) or not; anything else. *)
Inductive chart_item : Type :=
  | item_mapping (row : AccountRow.t)
  | item_other.

Inductive chart_payload : Type :=
  | payload_mapping (accounts : option chart_payload)
  | payload_sequence (items : list chart_item)
  | payload_other.

(** [[row for row in items if isinstance(row, Mapping)]] *)
Definition mappings (items : list chart_item) : list AccountRow.t :=
  omap (λ item, match item with
                | item_mapping row => Some row
                | item_other => None
                end) items.

(** [rows or None] *)
Definition rows_or_none (rows : list AccountRow.t) : option (list AccountRow.t) :=
  match rows with
  | [] => None
  | _ :: _ => Some rows
  end.

Definition _parse_chart_rows (payload : chart_payload)
  : option (list AccountRow.t) :=
  match payload with
  | payload_mapping (Some (payload_sequence items)) =>
      rows_or_none (mappings items)
  | payload_mapping _ => None
  | payload_sequence items => rows_or_none (mappings items)
  | payload_other => None
  end.

Definition set_chart_of_accounts_override (v : option (list AccountRow.t)) (s : t)
  : t :=
  mk (thread_id s) (messages s) (conversation_summary s) (expense_draft s)
     (clarifications_needed s) (account_candidates s) (confirmation_status s)
     (erpnext_submission s) (error_log s) (pending_message s)
     (pending_message_id s) (pending_user_id s) v.

(** The rows of the override are mappings by the type of the field. *)
Definition _get_chart_override (state : t) : option (list AccountRow.t) * t :=
  match chart_of_accounts_override state with
  | None => (None, state)
  | Some [] => (None, state)
  | Some rows => (rows_or_none rows, set_chart_of_accounts_override None state)
  end.

(** The node built by [_create_parse_node(settings)]; [today] is what
    [date.today()] reads. *)
Definition _create_parse_node (today : date) (settings : Settings.t) (state : t)
  : result unit * t :=
  let message_text := Builder.pending_text state in
  if negb (PyStr.truthy message_text)
  then (Raise (ValueError "pending_message is required before parsing."), state)
  else
    let source_id := pending_message_id state in
    match Drafting.parse_expense_message today message_text
            (Settings.default_currency settings) source_id state with
    | (Raise e, state) => (Raise e, state)
    | (Ok _, state) =>
        (Ok tt, set_pending_message_id None (set_pending_message None state))
    end.

(** A call of [chart_tool.invoke({})]. *)
Inductive call : Type := call_chart_tool.

Section Resolve.
Context `{Parsing.Fuzz}.

(** The node built by [_create_resolve_node(chart_tool)]; [invoke] is what
    [chart_tool.invoke({})] returns or raises. The result is the state the
    node returns and the calls it made. *)
Definition _create_resolve_node (invoke : result chart_payload) (state : t)
  : t * list call :=
  let select (chart_rows : list AccountRow.t) (state : t) : t :=
    match Drafting.select_accounts_for_draft (Some chart_rows)
            Drafting.AUTO_SELECTION_THRESHOLD Drafting.MIN_CANDIDATE_CONFIDENCE
            Drafting.MAX_ACCOUNT_SUGGESTIONS None None state with
    | (Raise _, state) =>
        record_error "Unable to resolve ledger accounts automatically." state
    | (Ok _, state) => state
    end in
  match expense_draft state, clarifications_needed state with
  | Some _, [] =>
      let '(chart_rows, state) := _get_chart_override state in
      match chart_rows with
      | Some rows => (select rows state, [])
      | None =>
          match invoke with
          | Raise _ =>
              (record_error
                 "Unable to fetch the chart of accounts right now. Please try again."
                 state,
               [call_chart_tool])
          | Ok response =>
              match _parse_chart_rows response with
              | None =>
                  (record_error "Chart of accounts response was empty." state,
                   [call_chart_tool])
              | Some rows => (select rows state, [call_chart_tool])
              end
          end
      end
  | _, _ => (state, [])
  end.

(** One run of the compiled graph on the state its entry node receives,
    along the edges [build_state_graph] adds: the entry node; then, by
    [_route_from_entry], the parse node followed by the resolve node, or the
    confirmation node. *)
Definition turn (today : date) (settings : Settings.t)
    (invoke : result chart_payload) (state : t) : result unit * t * list call :=
  match Builder._create_entry_node settings state with
  | (Raise e, state) => (Raise e, state, [])
  | (Ok _, state) =>
      match Builder._route_from_entry state with
      | Builder.route_parse =>
          match _create_parse_node today settings state with
          | (Raise e, state) => (Raise e, state, [])
          | (Ok _, state) =>
              let '(state, calls) := _create_resolve_node invoke state in
              (Ok tt, state, calls)
          end
      | Builder.route_confirm => (Ok tt, Builder._handle_confirmation state, [])
      end
  end.
End Resolve.
End Flow.

(** ** Notions used to state properties of a turn *)

(** The message the entry node records for the pending text of a state. *)
Definition recorded_message (state : ConversationState.t) : HumanMessage.t :=
  HumanMessage.mk (Builder.pending_text state)
    (match ConversationState.pending_message_id state with
     | Some m => if PyStr.truthy m then Some m else None
     | None => None
     end)
    (ConversationState.pending_user_id state).

(** The fields account resolution never writes. *)
Definition resolution_keeps (s s' : ConversationState.t) : Prop :=
  ConversationState.thread_id s' = ConversationState.thread_id s
  ∧ ConversationState.messages s' = ConversationState.messages s
  ∧ ConversationState.conversation_summary s'
    = ConversationState.conversation_summary s
  ∧ ConversationState.confirmation_status s'
    = ConversationState.confirmation_status s
  ∧ ConversationState.erpnext_submission s'
    = ConversationState.erpnext_submission s
  ∧ ConversationState.pending_message s' = ConversationState.pending_message s
  ∧ ConversationState.pending_message_id s'
    = ConversationState.pending_message_id s
  ∧ ConversationState.pending_user_id s' = ConversationState.pending_user_id s.

(** A complete draft waits for the user's decision. *)
Definition awaiting_confirmation (s : ConversationState.t) : Prop :=
  is_Some (ConversationState.expense_draft s)
  ∧ ConversationState.clarifications_needed s = []
  ∧ ConversationState.confirmation_status s = pending.

(** The entry node lets a turn through: the pending text is not blank, and
    the allow-list is empty or holds the acting user. *)
Definition admitted (settings : Settings.t) (state : ConversationState.t) : Prop :=
  Builder.pending_text state ≠ ""
  ∧ (Settings.telegram_allowed_users settings = []
     ∨ ∃ u, ConversationState.pending_user_id state = Some u
            ∧ u ∈ Settings.telegram_allowed_users settings).

(** ** Values used by the examples of a turn *)

Module Turns.
Definition today : date := mk_date 2025 11 7.

(** A chart tool that cannot reach the ledger, and one that answers with
    the rows of [Samples.chart] under the key [accounts]. *)
Definition chart_down : result Flow.chart_payload :=
  Raise (ERPNextClientError "503 Service Unavailable").

Definition chart_up : result Flow.chart_payload :=
  Ok (Flow.payload_mapping
        (Some (Flow.payload_sequence (map Flow.item_mapping Samples.chart)))).

(** The history of the sample thread after the message [text]. *)
Definition history (text : string) : list HumanMessage.t :=
  [Samples.earlier_message; HumanMessage.mk text (Some "100") (Some 111%Z)].

(** The sample thread after a turn on "Paid $10 cash for taxi" that left
    [draft] and logged [errors]. *)
Definition after_message (draft : ExpenseDraft.t) (errors : list string)
  : ConversationState.t :=
  ConversationState.mk "chat:confirm" (history "Paid $10 cash for taxi") None
    (Some draft) [] [] pending None errors None None (Some 111%Z) None.

(** The sample thread after the reply " Confirm ". *)
Definition after_confirm : ConversationState.t :=
  ConversationState.mk "chat:confirm" (history "Confirm") None
    (Some Samples.draft) [] [] approved None [] None None (Some 111%Z) None.
End Turns.

(** ** [integrations/telegram.py]: the reply to a turn *)

Module Telegram.
Import ConversationState.

(** The newline character as a string. *)
Definition newline : string := String (ascii_of_nat 10) "".

(** [n] rounded to a multiple of [q], as a count of [q]s, ties to the even
    count ([ROUND_HALF_EVEN], the rounding of the default context), for
    [0 <= n] and [0 < q]. *)
Definition round_half_even (n q : Z) : Z :=
  let count := (n / q)%Z in
  let rest := (n mod q)%Z in
  if (2 * rest <? q)%Z then count
  else if (q <? 2 * rest)%Z then (count + 1)%Z
  else if Z.even count then count else (count + 1)%Z.

(** [f"{d:.2f}"] for a [Decimal]: the value rescaled to two places, then
    written with its sign, the integer digits, a point and two digits. *)
Definition Decimal_format_2f (d : Decimal) : string :=
  let n := Z.abs (dec_coefficient d) in
  let hundredths :=
    if (-2 <=? dec_exponent d)%Z then (n * 10 ^ (dec_exponent d + 2))%Z
    else round_half_even n (10 ^ (- (dec_exponent d + 2))) in
  (if (dec_coefficient d <? 0)%Z then "-" else "")
    ++ str_int (hundredths / 100)
    ++ "." ++ PyStr.to_string (Iso.pad 2 (hundredths mod 100)).

Definition CLARIFICATION_LABELS (field : string) : option string :=
  if String.eqb field "amount" then Some "amount"
  else if String.eqb field "debit_account" then Some "debit account"
  else if String.eqb field "credit_account" then Some "credit account"
  else None.

Definition CONFIRMATION_PROMPT : string :=
  "Reply with confirm to post, edit to change the draft, or cancel to abort.".

(** [ResponseEvent = Literal["preview", "confirmation", "cancellation"]] *)
Inductive ResponseEvent : Type := preview | confirmation | cancellation.

Definition _format_preview (draft : ExpenseDraft.t) : string :=
  let amount := Decimal_format_2f (ExpenseDraft.amount draft) in
  let narration :=
    if PyStr.truthy (ExpenseDraft.narration draft)
    then ExpenseDraft.narration draft
    else "No description provided." in
  PyStr.join newline
    ["Here is your expense draft:";
     "- Amount: " ++ amount ++ " " ++ ExpenseDraft.currency draft;
     "- Debit account: "
       ++ AccountMatch.display_name (ExpenseDraft.debit_account draft);
     "- Credit account: "
       ++ AccountMatch.display_name (ExpenseDraft.credit_account draft);
     "- Narration: " ++ narration;
     "";
     CONFIRMATION_PROMPT].

Definition _format_clarification (missing_fields : list string) : string :=
  let labels :=
    map (λ field, default (PyStr.replace "_" " " field) (CLARIFICATION_LABELS field))
      missing_fields in
  "I still need the following detail(s) to draft your expense: "
    ++ PyStr.join ", " labels ++ ". Please include them in your next message.".

Definition _format_confirmation (state : t) : string :=
  let reference :=
    match erpnext_submission state with
    | Some submission =>
        let link :=
          match JournalEntryResult.link submission with
          | Some l =>
              if PyStr.truthy l then l
              else JournalEntryResult.journal_entry_id submission
          | None => JournalEntryResult.journal_entry_id submission
          end in
        if PyStr.truthy link then " (ERPNext reference: " ++ link ++ ")" else ""
    | None => ""
    end in
  "Expense confirmed and queued for ERPNext" ++ reference
    ++ ". Send another message when you're ready for the next entry.".

Definition _format_cancellation (state : t) : string :=
  let reason := last (error_log state) in
  let extra :=
    match reason with
    | Some r => if PyStr.truthy r then " Reason: " ++ r else ""
    | None => ""
    end in
  "Expense attempt cancelled." ++ extra
    ++ " You can start over by sending a new message.".

Definition _format_errors (errors : list string) : option string :=
  match errors with
  | [] => None
  | _ :: _ => Some (PyStr.join newline errors)
  end.

(** [not x] for an optional string *)
Definition falsy (x : option string) : bool :=
  match x with
  | Some s => negb (PyStr.truthy s)
  | None => true
  end.

Definition _append_error (original error_text : option string) : option string :=
  if falsy original then error_text
  else if falsy error_text then original
  else Some (default "" original ++ newline ++ newline ++ default "" error_text).

(** The dictionary [payload] is the list of its items. *)
Definition _render_telegram_response (state : t)
  : option string * option ResponseEvent * list (string * pyval) :=
  let error_text := _format_errors (error_log state) in
  let answer (message : string) (event : option ResponseEvent) :=
    (_append_error (Some message) error_text, event,
     [("summary", PyStr message)]) in
  match confirmation_status state with
  | approved => answer (_format_confirmation state) (Some confirmation)
  | status =>
      match status, expense_draft state with
      | rejected, None =>
          answer (_format_cancellation state) (Some cancellation)
      | _, _ =>
          match clarifications_needed state with
          | _ :: _ =>
              answer (_format_clarification (clarifications_needed state)) None
          | [] =>
              match expense_draft state, status with
              | Some draft, pending =>
                  answer (_format_preview draft) (Some preview)
              | _, _ =>
                  match error_text with
                  | Some text =>
                      if PyStr.truthy text
                      then (Some text, None, [("summary", PyStr text)])
                      else (None, None, [])
                  | None => (None, None, [])
                  end
              end
          end
      end
  end.
End Telegram.

(** ** Notions used to state properties of the journal entry payload *)




(** ** [integrations/telegram_auth.py] and the middleware chain of
    [integrations/telegram.py]

    Awaiting a coroutine gives what it returns or raises and the effects it
    had, in order; [ApplicationHandlerStop] is an outcome of its own. *)

Module TelegramAuth.

Inductive outcome (B : Type) : Type :=
  | Returned (b : B)
  | Stopped
  | Failed (e : exn).
Arguments Returned {B} b.
Arguments Stopped {B}.
Arguments Failed {B} e.

(** What the middleware reads of an update: the [id] of [effective_user], of
    [message.from_user] and of [callback_query.from_user], each where the
    object exists and has one. *)
Record update := mk_update {
  effective_user : option Z;
  message_from_user : option Z;
  callback_from_user : option Z }.

Section Middleware.
Context {E A : Type}.

Definition action (B : Type) : Type := outcome B * list E.
Definition data : Type := list (string * pyval).
Definition HandlerCallable : Type := update → data → action A.
Definition DeniedCallback : Type := update → option Z → action unit.
Definition MiddlewareCallable : Type := HandlerCallable → update → data → action A.

Definition _extract_user_id (u : update) : option Z :=
  match effective_user u with
  | Some user_id => Some user_id
  | None =>
      match message_from_user u with
      | Some user_id => Some user_id
      | None => callback_from_user u
      end
  end.

Definition _is_authorized (allowed_ids : gset Z) (user_id : option Z) : bool :=
  match user_id with
  | None => false
  | Some u => bool_decide (u ∈ allowed_ids)
  end.

Definition _deny (on_denied : option DeniedCallback) (u : update)
    (user_id : option Z) : action unit :=
  match on_denied with
  | Some callback => callback u user_id
  | None => (Returned tt, [])
  end.

(** [TelegramAuthorizationMiddleware(allowed_user_ids, on_denied=...)] as the
    callable its [__call__] makes it. *)
Definition TelegramAuthorizationMiddleware (allowed_user_ids : list Z)
    (on_denied : option DeniedCallback) : MiddlewareCallable :=
  let allowed_ids : gset Z := list_to_set allowed_user_ids in
  λ handler u d,
    let user_id := _extract_user_id u in
    if negb (_is_authorized allowed_ids user_id)
    then
      match _deny on_denied u user_id with
      | (Returned _, effects) => (Stopped, effects)
      | (Stopped, effects) => (Stopped, effects)
      | (Failed e, effects) => (Failed e, effects)
      end
    else
      handler u
        (Posting.dict_set "authorized_user_id"
           (match user_id with Some i => PyInt i | None => PyNone end) d).

(** [_wrap_handler_callable]: the first middleware is the outermost. *)
Definition _wrap_handler_callable (handler : HandlerCallable)
    (middlewares : list MiddlewareCallable) : HandlerCallable :=
  foldl (λ wrapped middleware, λ u d, middleware wrapped u d) handler
    (rev middlewares).

(** The middlewares [create_application] stores: [deny_callback] is
    [on_denied], or the default callback bound to the bot. *)
Definition middleware_stack (allowed_user_ids : option (list Z))
    (settings : Settings.t) (deny_callback : DeniedCallback)
    (middlewares : list MiddlewareCallable) : list MiddlewareCallable :=
  let auth_ids :=
    match allowed_user_ids with
    | Some ids => ids
    | None => Settings.telegram_allowed_users settings
    end in
  match auth_ids with
  | _ :: _ =>
      TelegramAuthorizationMiddleware auth_ids (Some deny_callback) :: middlewares
  | [] => middlewares
  end.

(** The middlewares [register_handler] wraps around a handler: [stored] is
    what the application stores. *)
Definition registered_middlewares (extra_middlewares : list MiddlewareCallable)
    (protected : bool) (stored : list MiddlewareCallable)
  : list MiddlewareCallable :=
  (extra_middlewares ++ (if protected then stored else []))%list.

(** [register_handler]: what stands in front of the handler's callback.
    [terminal] is the callback as [_apply_middlewares] wraps it; without
    middlewares the handler is registered as it is. *)
Definition registered_chain (terminal : HandlerCallable)
    (extra_middlewares : list MiddlewareCallable) (protected : bool)
    (stored : list MiddlewareCallable) : HandlerCallable :=
  match registered_middlewares extra_middlewares protected stored with
  | [] => terminal
  | (_ :: _) as middlewares => _wrap_handler_callable terminal middlewares
  end.
End Middleware.
End TelegramAuth.
(* ===================================================================== *)
(** * Properties *)
(* ===================================================================== *)

Example strip_lower_example : PyStr.lower (PyStr.strip "  CONFIRM
 ") = "confirm".
Proof. reflexivity. Qed.

Example split_join_example :
  PyStr.join " " (PyStr.split "  paid   $10 cash  ") = "paid $10 cash".
Proof. reflexivity. Qed.

Example confirm_member : bool_decide ("yes" ∈ Nodes.CONFIRM_COMMANDS) = true.
Proof. vm_compute. reflexivity. Qed.

(** ** The confirmation vocabulary *)

Lemma truthy_false_iff (s : string) : PyStr.truthy s = false ↔ s = "".
Proof.
  unfold PyStr.truthy. destruct (String.eqb_spec s ""); simpl; split; congruence.
Qed.

Lemma truthy_true_iff (s : string) : PyStr.truthy s = true ↔ s ≠ "".
Proof.
  unfold PyStr.truthy. destruct (String.eqb_spec s ""); simpl; split; congruence.
Qed.





(** ** C7: the confirmation step *)



(** ** C9: what a rejection or an edit resets *)

Lemma cancel_expense_attempt_state (r : string) (s : ConversationState.t) :
  r ≠ "" →
  Nodes.cancel_expense_attempt (Some r) s
  = ConversationState.mk
      (ConversationState.thread_id s) (ConversationState.messages s)
      (ConversationState.conversation_summary s) None [] [] rejected None
      (ConversationState.error_log s ++ [r])%list
      (ConversationState.pending_message s)
      (ConversationState.pending_message_id s)
      (ConversationState.pending_user_id s)
      (ConversationState.chart_of_accounts_override s).
Proof.
  intros Hr. unfold Nodes.cancel_expense_attempt, ConversationState.record_error.
  rewrite (proj2 (truthy_true_iff r) Hr). reflexivity.
Qed.

(** C9, as stated, fails: besides the draft, the candidates and the
    clarifications, a cancellation also resets [erpnext_submission] (and the
    confirm node empties the pending message of the turn). *)
Lemma cancel_clears_submission_counterexample :
  let before := Samples.with_submission (Some "cancel") in
  let after := Builder._handle_confirmation before in
  ConversationState.erpnext_submission before = Some Samples.submission
  ∧ ConversationState.erpnext_submission after = None
  ∧ ConversationState.pending_message before = Some "cancel"
  ∧ ConversationState.pending_message after = None
  ∧ ConversationState.messages after = ConversationState.messages before.
Proof. vm_compute. repeat split. Qed.

Lemma decision_state (reply : string) (s : ConversationState.t) :
  (fst (Nodes.apply_confirmation_decision reply s) = Nodes.decision_rejected →
   Nodes.apply_confirmation_decision reply s
   = (Nodes.decision_rejected, ConversationState.set_confirmation_status rejected s))
  ∧ (fst (Nodes.apply_confirmation_decision reply s) = Nodes.decision_edit →
     Nodes.apply_confirmation_decision reply s
     = (Nodes.decision_edit, ConversationState.set_confirmation_status pending s)).
Proof.
  unfold Nodes.apply_confirmation_decision.
  destruct (negb (PyStr.truthy (Nodes.normalize_reply reply)));
    [split; cbn [fst]; congruence|].
  do 3 (case_bool_decide;
        [try destruct (ConversationState.expense_draft s);
         split; cbn [fst]; congruence|]).
  split; cbn [fst]; congruence.
Qed.

(** C9 (amended). After a rejection or edit decision the confirm node leaves
    the thread id, the message history, the summary, the user id and the chart
    override as they were; the draft, the candidates, the clarifications and
    the ledger submission are reset, the pending message of the turn is
    emptied, the status is rejected (pending after an edit) and the error log
    gains exactly one entry. *)
Theorem rejection_or_edit_resets_attempt (s : ConversationState.t) (d : Nodes.Decision) :
  fst (Nodes.apply_confirmation_decision (Builder.pending_text s) s) = d →
  d = Nodes.decision_rejected ∨ d = Nodes.decision_edit →
  Builder._handle_confirmation s
  = ConversationState.mk
      (ConversationState.thread_id s) (ConversationState.messages s)
      (ConversationState.conversation_summary s) None [] []
      (match d with Nodes.decision_rejected => rejected | _ => pending end)
      None
      (ConversationState.error_log s
         ++ [match d with
             | Nodes.decision_rejected => "User cancelled the expense."
             | _ => "User requested edits."
             end])%list
      None None
      (ConversationState.pending_user_id s)
      (ConversationState.chart_of_accounts_override s).
Proof.
  intros Hd Hcase. unfold Builder._handle_confirmation.
  set (txt := Builder.pending_text s) in *.
  destruct (PyStr.truthy txt) eqn:Htxt; cbn [negb].
  2:{ exfalso. apply truthy_false_iff in Htxt. rewrite Htxt in Hd.
      unfold Nodes.apply_confirmation_decision in Hd.
      change (PyStr.truthy (Nodes.normalize_reply "")) with false in Hd.
      cbn [negb fst] in Hd. destruct Hcase; congruence. }
  destruct (decision_state txt s) as (Hrej & Hedit).
  destruct Hcase as [-> | ->].
  - rewrite (Hrej Hd). destruct s; reflexivity.
  - rewrite (Hedit Hd). destruct s; reflexivity.
Qed.

Lemma rejection_or_edit_resets_attempt_witness :
  Builder._handle_confirmation (Samples.with_submission (Some "cancel"))
  = ConversationState.mk "chat:confirm" [Samples.earlier_message] None None [] []
      rejected None ["User cancelled the expense."] None None (Some 111%Z) None
  ∧ Builder._handle_confirmation (Samples.confirming (Some " Edit "))
  = ConversationState.mk "chat:confirm" [Samples.earlier_message] None None [] []
      pending None ["User requested edits."] None None (Some 111%Z) None.
Proof.
  split.
  - apply (rejection_or_edit_resets_attempt
             (Samples.with_submission (Some "cancel")) Nodes.decision_rejected);
      [vm_compute; reflexivity | left; reflexivity].
  - apply (rejection_or_edit_resets_attempt
             (Samples.confirming (Some " Edit ")) Nodes.decision_edit);
      [vm_compute; reflexivity | right; reflexivity].
Defined.

(** ** C5: the authorization gate of the entry node *)

Lemma allowed_users_nonempty (l : list Z) :
  l ≠ [] → bool_decide ((list_to_set l : gset Z) ≠ ∅) = true.
Proof.
  intros Hl. apply bool_decide_eq_true_2.
  destruct l as [|x l]; [done|]. simpl. set_solver.
Qed.





(** An authorized turn, in contrast, is recorded in the message history. *)
Example entry_gate_admits_member :
  Builder._create_entry_node (Settings.mk [111%Z] "USD")
    (Samples.collecting (Some "Paid $10 cash for taxi"))
  = (Ok tt,
     ConversationState.set_messages
       [Samples.earlier_message;
        HumanMessage.mk "Paid $10 cash for taxi" (Some "100") (Some 111%Z)]
       (Samples.collecting (Some "Paid $10 cash for taxi"))).
Proof. vm_compute. reflexivity. Qed.

Example isoformat_example :
  Iso.isoformat (mk_datetime 2025 11 7 9 5 0 0 (Some 0%Z)) = "2025-11-07T09:05:00+00:00"
  ∧ Iso.isoformat (mk_datetime 2025 11 7 9 5 0 250000 (Some (-19800)%Z))
    = "2025-11-07T09:05:00.250000-05:30"
  ∧ Iso.fromisoformat "2025-11-07T09:05:00-05:30"
    = Ok (mk_datetime 2025 11 7 9 5 0 0 (Some (-19800)%Z))
  ∧ Iso.fromisoformat "2025-02-30T09:05:00"
    = Raise (ValueError "Invalid isoformat string").
Proof. vm_compute. repeat split. Qed.

(** ** ISO text: reading back what [isoformat] wrote *)

Section IsoRoundTrip.
Import PyStr Iso.
Local Open Scope Z_scope.

Lemma digit_val_digit_char (d : Z) :
  0 <= d < 10 → digit_val (digit_char d) = Some d.
Proof.
  intros Hd.
  assert (Hcases : d = 0 ∨ d = 1 ∨ d = 2 ∨ d = 3 ∨ d = 4 ∨ d = 5 ∨ d = 6
                   ∨ d = 7 ∨ d = 8 ∨ d = 9) by lia.
  repeat (destruct Hcases as [-> | Hcases]; [reflexivity|]).
  subst d. reflexivity.
Qed.

Lemma pad_go_app (w : nat) (n : Z) (suffix : chars) :
  (pad_go w n [] ++ suffix)%list = pad_go w n suffix.
Proof.
  revert n suffix. induction w as [|w IH]; intros n suffix; simpl; [done|].
  rewrite <- (IH (n / 10) [digit_char (n mod 10)]).
  rewrite <- (IH (n / 10) (digit_char (n mod 10) :: suffix)).
  by rewrite <- app_assoc.
Qed.

Lemma digits_pad_go_gen (w k : nat) (n acc : Z) (suffix : chars) :
  0 <= n < 10 ^ Z.of_nat w →
  digits (w + k) acc (pad_go w n suffix)
  = digits k (acc * 10 ^ Z.of_nat w + n) suffix.
Proof.
  revert k n acc suffix. induction w as [|w IH]; intros k n acc suffix Hn.
  - simpl in *. f_equal. lia.
  - cbn [pad_go]. replace (S w + k)%nat with (w + S k)%nat by lia.
    assert (Hpow : 10 ^ Z.of_nat (S w) = 10 * 10 ^ Z.of_nat w).
    { rewrite Nat2Z.inj_succ, Z.pow_succ_r by lia. lia. }
    rewrite IH by (rewrite Hpow in Hn; split;
                   [apply Z.div_pos; lia | apply Z.div_lt_upper_bound; lia]).
    cbn [digits]. rewrite digit_val_digit_char by (apply Z.mod_pos_bound; lia).
    simpl. f_equal. rewrite Hpow.
    pose proof (Z.div_mod n 10 ltac:(lia)). lia.
Qed.

Lemma digits_pad (w : nat) (n : Z) (rest : chars) :
  0 <= n < 10 ^ Z.of_nat w →
  digits w 0 (pad w n ++ rest)%list = Some (n, rest).
Proof.
  intros Hn. unfold pad. rewrite pad_go_app.
  replace w with (w + 0)%nat at 1 by lia.
  rewrite digits_pad_go_gen by done. cbn [digits].
  by replace (0 * 10 ^ Z.of_nat w + n) with n by lia.
Qed.

Lemma digits_pad2 (n : Z) (rest : chars) :
  0 <= n < 100 → digits 2 0 (pad 2 n ++ rest)%list = Some (n, rest).
Proof. intros. by apply digits_pad. Qed.

Lemma digits_pad4 (n : Z) (rest : chars) :
  0 <= n < 10000 → digits 4 0 (pad 4 n ++ rest)%list = Some (n, rest).
Proof. intros. by apply digits_pad. Qed.

Lemma digits_pad6 (n : Z) (rest : chars) :
  0 <= n < 1000000 → digits 6 0 (pad 6 n ++ rest)%list = Some (n, rest).
Proof. intros. by apply digits_pad. Qed.

Lemma expect_same (c : ascii) (t : chars) : expect c (c :: t) = Some t.
Proof. unfold expect. by rewrite Ascii.eqb_refl. Qed.

Lemma bind_Some {A B} (x : A) (f : A → option B) : Some x ≫= f = f x.
Proof. reflexivity. Qed.

Ltac read_field :=
  first [ rewrite digits_pad2 by lia
        | rewrite digits_pad4 by lia
        | rewrite digits_pad6 by lia
        | rewrite expect_same
        | rewrite bind_Some ].

Lemma offset_parts (a : Z) :
  0 <= a < 86400 →
  0 <= a / 3600 < 100 ∧ 0 <= a / 60 mod 60 < 100 ∧ 0 <= a mod 60 < 100
  ∧ a = a / 3600 * 3600 + a / 60 mod 60 * 60 + a mod 60.
Proof.
  intros Ha.
  pose proof (Z.div_mod a 60 ltac:(lia)).
  pose proof (Z.div_mod (a / 60) 60 ltac:(lia)).
  pose proof (Z.mod_pos_bound a 60 ltac:(lia)).
  pose proof (Z.mod_pos_bound (a / 60) 60 ltac:(lia)).
  assert (a / 3600 = a / 60 / 60) by (rewrite Z.div_div by lia; done).
  assert (0 <= a / 60 / 60 < 24).
  { split; [apply Z.div_pos; [apply Z.div_pos|]; lia|].
    apply Z.div_lt_upper_bound; [lia|]. apply Z.div_lt_upper_bound; lia. }
  lia.
Qed.

Lemma parse_offset_chars (off : Z) :
  valid_offset off = true → parse_offset (offset_chars off) = Some (Some off).
Proof.
  unfold valid_offset. intros Hv.
  assert (Ha : 0 <= Z.abs off < 86400) by lia.
  destruct (offset_parts _ Ha) as (Hh & Hm & Hs & Hsum).
  unfold offset_chars. cbv zeta.
  set (a := Z.abs off) in *.
  set (h := a / 3600) in *. set (m := a / 60 mod 60) in *.
  set (sec := a mod 60) in *.
  assert (Hsign : ∀ t, parse_offset
            ((if off <? 0 then "-"%char else "+"%char) :: t)
          = ('(h, t) ← digits 2 0 t;
             t ← expect colon t;
             '(m, t) ← digits 2 0 t;
             match t with
             | [] => Some (Some ((if off <? 0 then -1 else 1) * (h * 3600 + m * 60)))
             | _ =>
                 t ← expect colon t;
                 '(sec, t) ← digits 2 0 t;
                 match t with
                 | [] => Some (Some ((if off <? 0 then -1 else 1)
                                     * (h * 3600 + m * 60 + sec)))
                 | _ => None
                 end
             end)).
  { intros t. destruct (off <? 0); reflexivity. }
  rewrite Hsign. repeat read_field.
  destruct (sec =? 0) eqn:Hsec.
  - f_equal. f_equal. destruct (off <? 0) eqn:Hneg; lia.
  - repeat read_field. rewrite <- (app_nil_r (pad 2 sec)).
    repeat read_field.
    f_equal. f_equal. destruct (off <? 0) eqn:Hneg; lia.
Qed.

Lemma offset_chars_not_dot (off : Z) :
  ∃ c t, offset_chars off = c :: t ∧ Ascii.eqb c "."%char = false.
Proof.
  unfold offset_chars. cbv zeta. destruct (off <? 0); eexists _, _; split; done.
Qed.

Lemma parse_datetime_chars (v : datetime) :
  valid_datetime v = true → parse_datetime (datetime_chars v) = Some v.
Proof.
  unfold valid_datetime, valid_date. intros Hv.
  repeat (apply andb_prop in Hv as [Hv ?]).
  destruct v as [y mo d h mi s us tz].
  cbn [dt_year dt_month dt_day dt_hour dt_minute dt_second dt_microsecond
       dt_tzinfo] in *.
  assert (Hd : d <= 31).
  { unfold days_in_month in *. repeat case_match; lia. }
  assert (Htz : ∀ off, tz = Some off →
                 parse_offset (offset_chars off) = Some (Some off)).
  { intros off ->. by apply parse_offset_chars. }
  unfold parse_datetime, datetime_chars, date_chars.
  cbn [dt_year dt_month dt_day dt_hour dt_minute dt_second dt_microsecond
       dt_tzinfo].
  repeat (rewrite <- ?app_comm_cons, <- ?app_assoc; read_field).
  destruct (us =? 0) eqn:Hus.
  - assert (us = 0) as -> by lia. cbn [app].
    destruct tz as [off|].
    + destruct (offset_chars_not_dot off) as (c & t & Hc & Hdot).
      specialize (Htz off eq_refl).
      rewrite Hc in *. rewrite Hdot. repeat read_field.
      rewrite Htz. reflexivity.
    + reflexivity.
  - rewrite <- ?app_comm_cons. rewrite Ascii.eqb_refl.
    repeat read_field.
    destruct tz as [off|]; [rewrite (Htz off eq_refl)|]; reflexivity.
Qed.

Lemma fromisoformat_isoformat (v : datetime) :
  valid_datetime v = true → fromisoformat (isoformat v) = Ok v.
Proof.
  intros Hv. unfold fromisoformat, isoformat, of_string, to_string.
  rewrite list_ascii_of_string_of_list_ascii.
  rewrite parse_datetime_chars by done. by rewrite Hv.
Qed.

Lemma valid_replace_microsecond0 (v : datetime) :
  valid_datetime v = true → valid_datetime (replace_microsecond0 v) = true.
Proof.
  unfold valid_datetime. intros Hv.
  repeat (apply andb_prop in Hv as [Hv ?]). simpl.
  repeat (apply andb_true_intro; split); done.
Qed.

End IsoRoundTrip.

Example Decimal_str_examples :
  Json.Decimal_str (mk_Decimal 1000 (-2)) = "10.00"
  ∧ Json.Decimal_str (mk_Decimal 1 3) = "1E+3"
  ∧ Json.Decimal_str (mk_Decimal 1 (-7)) = "1E-7"
  ∧ Json.Decimal_str (mk_Decimal (-125) (-4)) = "-0.0125"
  ∧ str_int (-42) = "-42".
Proof. vm_compute. repeat split. Qed.

(** ** The retry queue: a run of the repository *)

Example acquire_respects_locking :
  let now := Samples.at_minute 5 0 in
  let '(a, db1) := RetryQueue.acquire_due_job "worker-a" (Some now) now Samples.two_jobs in
  let '(b, db2) := RetryQueue.acquire_due_job "worker-b" (Some now) now db1 in
  let '(f, db3) := RetryQueue.mark_failure 1 "worker-a" "ERPNext outage"
                     (Samples.at_minute 6 0) db2 in
  let '(c, db4) := RetryQueue.acquire_due_job "worker-b"
                     (Some (Samples.at_minute 7 0)) now db3 in
  a = Ok (Some (RetryJob.mk "thread-due" (PyDict [("journal_entry", PyStr "thread-due")])
                  (Samples.at_minute 0 0) 0 (Some 1%Z) None))
  ∧ b = Ok None
  ∧ f = Ok (RetryJob.mk "thread-due" (PyDict [("journal_entry", PyStr "thread-due")])
              (Samples.at_minute 6 0) 1 (Some 1%Z) (Some "ERPNext outage"))
  ∧ (RetryJob.id <$> (match c with Ok j => j | Raise _ => None end)) = Some (Some 1%Z)
  ∧ fst (RetryQueue.mark_failure 1 "worker-a" "late" now db4)
    = Raise (RetryQueueError "Retry job 1 is not locked by worker-a or does not exist.").
Proof. vm_compute. repeat split. Qed.

(** ** JSON: a native value is written and read back unchanged *)


(** A value that needs the [default] hook does not come back as it was. *)
Example json_decimal_becomes_text :
  Json.json_loads <$> (match Json.json_dumps
                               (PyDict [("amount", PyDecimal (mk_Decimal 1000 (-2)))])
                       with Ok j => Some j | Raise _ => None end)
  = Some (PyDict [("amount", PyStr "10.00")]).
Proof. reflexivity. Qed.

(** ** The retry queue: statements and invariants *)

Section RetryQueueFacts.
Import RetryQueue.
Local Open Scope Z_scope.



Lemma next_rowid_gt (db : retry_jobs) : sqlite_sequence db < next_rowid db.
Proof. unfold next_rowid. lia. Qed.

Lemma first_of_In (l : list (Z * Row.t)) (x : Z * Row.t) :
  first_of l = Some x → In x l.
Proof.
  revert x. induction l as [|y l IH]; intros x; simpl; [done|].
  destruct (first_of l) as [b|] eqn:Hb.
  - destruct (before y b); intros [= <-]; [by left | right; by apply IH].
  - intros [= <-]. by left.
Qed.

Lemma sql_select_due_unlocked (current : string) (db : retry_jobs) (job_id : Z) :
  sql_select_due current db = Some job_id →
  ∃ r, rows db !! job_id = Some r ∧ Row.locked_by r = None
       ∧ String.leb (Row.next_run_at r) current = true.
Proof.
  unfold sql_select_due. intros H.
  destruct (first_of _) as [[k r]|] eqn:Hfirst; [|done].
  injection H as <-. apply first_of_In in Hfirst.
  apply filter_In in Hfirst as [Hin Hdue].
  apply list_elem_of_In, elem_of_map_to_list in Hin.
  exists r. split; [done|]. unfold is_due in Hdue. simpl in Hdue.
  destruct (Row.locked_by r); [done|]. by split.
Qed.

Lemma sql_claim_cases (lock_id current : string) (job_id : Z) (db : retry_jobs) :
  (∃ r, rows db !! job_id = Some r ∧ Row.locked_by r = None
        ∧ sql_claim lock_id current job_id db
          = (1, mk_table
                  (<[job_id := Row.set_lock (Some lock_id) (Some current) r]> (rows db))
                  (sqlite_sequence db)))
  ∨ ((∀ r, rows db !! job_id = Some r → Row.locked_by r ≠ None)
     ∧ sql_claim lock_id current job_id db = (0, db)).
Proof.
  unfold sql_claim. destruct (rows db !! job_id) as [r|] eqn:Hr.
  - destruct (Row.locked_by r) as [w|] eqn:Hw.
    + right. split; [|done]. intros r' [= <-]. by rewrite Hw.
    + left. by exists r.
  - right. split; [|done]. by intros r' ?.
Qed.

(** The conditional [UPDATE] succeeds only on a row that is unlocked when the
    statement runs. *)
Lemma sql_claim_only_unlocked (lock_id current : string) (job_id : Z)
    (db db' : retry_jobs) :
  sql_claim lock_id current job_id db = (1, db') →
  ∃ r, rows db !! job_id = Some r ∧ Row.locked_by r = None.
Proof.
  intros H. destruct (sql_claim_cases lock_id current job_id db)
    as [(r & Hr & Hl & _) | (_ & Hc)]; [by exists r|].
  rewrite Hc in H. discriminate.
Qed.

Lemma _row_to_job_id (job_id : Z) (r : Row.t) (job : RetryJob.t) :
  _row_to_job job_id r = Ok job →
  RetryJob.id job = Some job_id ∧ 0 <= RetryJob.attempts job <= MAX_RETRY_ATTEMPTS
  ∧ RetryJob.attempts job = Row.attempts r.
Proof.
  unfold _row_to_job, RetryJob.make, RetryJob.post_init.
  destruct (Iso.fromisoformat _); [|done]. simpl.
  destruct (Row.attempts r <? 0) eqn:H0; [done|].
  destruct (MAX_RETRY_ATTEMPTS <? Row.attempts r) eqn:H5; [done|].
  intros [= <-]. simpl. unfold MAX_RETRY_ATTEMPTS in *.
  split; [done|]. lia.
Qed.

(** What a successful [acquire_due_job] did to the table. *)
Lemma acquire_due_job_claimed (lock_id : string) (now : option datetime)
    (clock : datetime) (db db1 : retry_jobs) (job : RetryJob.t) :
  acquire_due_job lock_id now clock db = (Ok (Some job), db1) →
  ∃ job_id r current,
    RetryJob.id job = Some job_id
    ∧ rows db !! job_id = Some r ∧ Row.locked_by r = None
    ∧ db1 = mk_table
              (<[job_id := Row.set_lock (Some lock_id) (Some current) r]> (rows db))
              (sqlite_sequence db).
Proof.
  unfold acquire_due_job.
  destruct (negb (PyStr.truthy lock_id)); [done|].
  set (current := _serialize_datetime (default clock now)).
  destruct (sql_select_due current db) as [job_id|]; [|done].
  destruct (sql_claim_cases lock_id current job_id db)
    as [(r & Hr & Hl & Hc) | (_ & Hc)]; rewrite Hc; [|done].
  cbn [Z.eqb]. unfold sql_select_by_id. cbn [rows].
  rewrite lookup_insert_eq.
  destruct (_row_to_job job_id _) as [j|] eqn:Hj; [|done].
  intros [= <- <-]. apply _row_to_job_id in Hj as (Hid & _).
  by exists job_id, r, current.
Qed.

(** *** The counter covers every key *)

Lemma well_formed_empty : well_formed empty_table.
Proof.
  intros k r Hk. unfold empty_table in Hk. cbn [rows] in Hk.
  by rewrite lookup_empty in Hk.
Qed.

Lemma well_formed_update (db : retry_jobs) (k : Z) (r r' : Row.t) :
  well_formed db → rows db !! k = Some r →
  well_formed (mk_table (<[k := r']> (rows db)) (sqlite_sequence db)).
Proof.
  intros Hwf Hk k' x. cbn [rows sqlite_sequence].
  destruct (decide (k = k')) as [<-|Hne].
  - intros _. by apply (Hwf k r).
  - rewrite lookup_insert_ne by done. apply Hwf.
Qed.

Lemma well_formed_delete (db : retry_jobs) (k : Z) :
  well_formed db →
  well_formed (mk_table (base.delete k (rows db)) (sqlite_sequence db)).
Proof.
  intros Hwf k' x. cbn [rows sqlite_sequence].
  intros Hk. apply lookup_delete_Some in Hk as [_ Hk]. by apply (Hwf k' x).
Qed.

Lemma well_formed_insert (db : retry_jobs) (r : Row.t) :
  well_formed db →
  well_formed (mk_table (<[next_rowid db := r]> (rows db)) (next_rowid db)).
Proof.
  intros Hwf k x. cbn [rows sqlite_sequence].
  destruct (decide (next_rowid db = k)) as [<-|Hne]; [lia|].
  rewrite lookup_insert_ne by done. intros Hk.
  pose proof (Hwf k x Hk). pose proof (next_rowid_gt db). lia.
Qed.

Lemma sql_claim_well_formed (lock_id current : string) (job_id : Z) (db : retry_jobs) :
  well_formed db → well_formed (snd (sql_claim lock_id current job_id db)).
Proof.
  intros Hwf. destruct (sql_claim_cases lock_id current job_id db)
    as [(r & Hr & _ & Hc) | (_ & Hc)]; rewrite Hc; [|done].
  by apply (well_formed_update db job_id r).
Qed.

Lemma run_op_well_formed (o : op) (db : retry_jobs) :
  well_formed db → well_formed (run_op o db).
Proof.
  intros Hwf. destruct o as [job|job_id|lock_id now clock|lock_id current job_id
                            |job_id lock_id error next|job_id lock_id|job_id|job_id];
    cbn [run_op].
  - unfold enqueue. destruct (_serialize_payload _); [|done].
    unfold sql_insert. cbn [snd]. by apply well_formed_insert.
  - unfold get. destruct (sql_select_by_id _ _); [|done].
    by destruct (_row_to_job _ _).
  - unfold acquire_due_job. destruct (negb _); [done|].
    destruct (sql_select_due _ _) as [job_id|]; [|done].
    pose proof (sql_claim_well_formed lock_id
                  (_serialize_datetime (default clock now)) job_id db Hwf) as Hc.
    destruct (sql_claim _ _ _ _) as [n db']. cbn [snd] in Hc.
    destruct (n =? 0); [done|].
    destruct (sql_select_by_id _ _); [|done]. by destruct (_row_to_job _ _).
  - by apply sql_claim_well_formed.
  - unfold mark_failure. destruct (negb _); [done|].
    unfold sql_record_failure.
    destruct (rows db !! job_id) as [r|] eqn:Hr; [|done].
    case_bool_decide; [|done]. cbn [Z.eqb].
    destruct (sql_select_by_id _ _); cbn [snd];
      by apply (well_formed_update db job_id r).
  - unfold mark_success. destruct (negb _); [done|].
    unfold sql_delete_locked.
    destruct (rows db !! job_id) as [r|] eqn:Hr; [|done].
    case_bool_decide; [|done]. cbn [Z.eqb snd]. by apply well_formed_delete.
  - unfold reset_lock, sql_reset_lock. cbn [snd].
    destruct (rows db !! job_id) as [r|] eqn:Hr; [|done].
    by apply (well_formed_update db job_id r).
  - unfold delete, sql_delete. cbn [snd]. by apply well_formed_delete.
Qed.

Lemma run_well_formed (ops : list op) (db : retry_jobs) :
  well_formed db → well_formed (run ops db).
Proof.
  revert db. induction ops as [|o ops IH]; intros db Hwf; [done|].
  apply IH. by apply run_op_well_formed.
Qed.

End RetryQueueFacts.

(** ** C1: at most one worker holds a job *)

Section OneOwner.
Import RetryQueue.
Local Open Scope Z_scope.

Lemma held_update_other (J k : Z) (A : string) (db : retry_jobs) (r : Row.t) :
  k ≠ J → held J A db →
  held J A (mk_table (<[k := r]> (rows db)) (sqlite_sequence db)).
Proof.
  intros Hne [Hseq Hrow]. split; [done|]. cbn [rows].
  intros r'. rewrite lookup_insert_ne by done. apply Hrow.
Qed.

Lemma held_delete (J k : Z) (A : string) (db : retry_jobs) :
  held J A db →
  held J A (mk_table (base.delete k (rows db)) (sqlite_sequence db)).
Proof.
  intros [Hseq Hrow]. split; [done|]. cbn [rows].
  intros r' Hr'. apply lookup_delete_Some in Hr' as [_ Hr']. by apply Hrow.
Qed.

Lemma sql_claim_held (J : Z) (A lock_id current : string) (job_id : Z)
    (db : retry_jobs) :
  held J A db → held J A (snd (sql_claim lock_id current job_id db)).
Proof.
  intros Hheld. destruct (sql_claim_cases lock_id current job_id db)
    as [(r & Hr & Hl & Hc) | (_ & Hc)]; rewrite Hc; [|done].
  cbn [snd]. apply held_update_other; [|done].
  intros ->. destruct Hheld as [_ Hrow]. rewrite (Hrow r Hr) in Hl. discriminate.
Qed.

(** A claim on a held job changes nothing and reports no row. *)
Lemma sql_claim_held_fails (J : Z) (A lock_id current : string) (db : retry_jobs) :
  held J A db → sql_claim lock_id current J db = (0, db).
Proof.
  intros [_ Hrow]. destruct (sql_claim_cases lock_id current J db)
    as [(r & Hr & Hl & _) | (_ & Hc)]; [|done].
  rewrite (Hrow r Hr) in Hl. discriminate.
Qed.

Lemma run_op_held (J : Z) (A : string) (o : op) (db : retry_jobs) :
  well_formed db → held J A db → releases J A o = false →
  held J A (run_op o db).
Proof.
  intros Hwf Hheld Hrel.
  destruct o as [job|job_id|lock_id now clock|lock_id current job_id
                |job_id lock_id error next|job_id lock_id|job_id|job_id];
    cbn [run_op releases] in *.
  - unfold enqueue. destruct (_serialize_payload _); [|done].
    unfold sql_insert. cbn [snd]. destruct Hheld as [Hseq Hrow].
    pose proof (next_rowid_gt db). split; cbn [rows sqlite_sequence]; [lia|].
    intros r. rewrite lookup_insert_ne by lia. apply Hrow.
  - unfold get. destruct (sql_select_by_id _ _); [|done].
    by destruct (_row_to_job _ _).
  - unfold acquire_due_job. destruct (negb _); [done|].
    destruct (sql_select_due _ _) as [job_id|]; [|done].
    pose proof (sql_claim_held J A lock_id
                  (_serialize_datetime (default clock now)) job_id db Hheld) as Hc.
    destruct (sql_claim _ _ _ _) as [n db']. cbn [snd] in Hc.
    destruct (n =? 0); [done|].
    destruct (sql_select_by_id _ _); [|done]. by destruct (_row_to_job _ _).
  - by apply sql_claim_held.
  - unfold mark_failure. destruct (negb _); [done|].
    unfold sql_record_failure.
    destruct (rows db !! job_id) as [r|] eqn:Hr; [|done].
    destruct (bool_decide (Row.locked_by r = Some lock_id)) eqn:Hlock; [|done].
    apply bool_decide_eq_true_1 in Hlock. cbn [Z.eqb].
    assert (job_id ≠ J) as Hne.
    { intros ->. destruct Hheld as [_ Hrow]. rewrite (Hrow r Hr) in Hlock.
      injection Hlock as <-.
      rewrite !bool_decide_eq_true_2 in Hrel by done. discriminate. }
    destruct (sql_select_by_id _ _); cbn [snd]; by apply held_update_other.
  - unfold mark_success. destruct (negb _); [done|].
    unfold sql_delete_locked.
    destruct (rows db !! job_id) as [r|] eqn:Hr; [|done].
    destruct (bool_decide (Row.locked_by r = Some lock_id)); [|done].
    cbn [Z.eqb snd]. by apply held_delete.
  - unfold reset_lock, sql_reset_lock. cbn [snd].
    destruct (rows db !! job_id) as [r|] eqn:Hr; [|done].
    apply held_update_other; [|done]. intros ->.
    by rewrite bool_decide_eq_true_2 in Hrel.
  - unfold delete, sql_delete. cbn [snd]. by apply held_delete.
Qed.

Lemma run_held (J : Z) (A : string) (ops : list op) (db : retry_jobs) :
  well_formed db → held J A db → Forall (λ o, releases J A o = false) ops →
  held J A (run ops db).
Proof.
  revert db. induction ops as [|o ops IH]; intros db Hwf Hheld Hops; [done|].
  apply Forall_cons in Hops as [Ho Hops]. cbn [run foldl].
  apply IH; [by apply run_op_well_formed | by apply run_op_held | done].
Qed.

(** C1. Once [acquire_due_job] has returned job [J] to worker [A], and for
    as long as no call releases that lock ([mark_failure] or [mark_success] by
    [A], or [reset_lock], on [J]), whatever else the workers do to the table:
    no [acquire_due_job] returns [J], to any worker, and the claiming
    [UPDATE] of a racing acquisition on [J] changes nothing and reports no
    row. The claiming [UPDATE] succeeds only on a row that is unlocked when
    it runs. *)
Theorem at_most_one_owner
    (db db1 : retry_jobs) (A : string) (now : option datetime) (clock : datetime)
    (job : RetryJob.t) (J : Z) (ops : list op) :
  well_formed db →
  acquire_due_job A now clock db = (Ok (Some job), db1) →
  RetryJob.id job = Some J →
  Forall (λ o, releases J A o = false) ops →
  (∀ B now' clock' job' db3,
     acquire_due_job B now' clock' (run ops db1) = (Ok (Some job'), db3) →
     RetryJob.id job' ≠ Some J)
  ∧ (∀ B current, sql_claim B current J (run ops db1) = (0, run ops db1))
  ∧ (∀ t t' lock_id current job_id,
       sql_claim lock_id current job_id t = (1, t') →
       ∃ r, rows t !! job_id = Some r ∧ Row.locked_by r = None).
Proof.
  intros Hwf Hacq Hid Hops.
  destruct (acquire_due_job_claimed _ _ _ _ _ _ Hacq)
    as (J' & r & current & Hid' & Hr & Hl & ->).
  assert (J' = J) as -> by congruence.
  assert (Hheld1 : held J A
            (mk_table (<[J := Row.set_lock (Some A) (Some current) r]> (rows db))
               (sqlite_sequence db))).
  { split; cbn [rows sqlite_sequence]; [by apply (Hwf J r)|].
    intros r'. rewrite lookup_insert_eq. by intros [= <-]. }
  assert (Hwf1 : well_formed
            (mk_table (<[J := Row.set_lock (Some A) (Some current) r]> (rows db))
               (sqlite_sequence db))) by (by apply (well_formed_update db J r)).
  pose proof (run_held J A ops _ Hwf1 Hheld1 Hops) as Hheld2.
  split; [|split].
  - intros B now' clock' job' db3 Hacq' Hid2.
    destruct (acquire_due_job_claimed _ _ _ _ _ _ Hacq')
      as (J2 & r2 & current2 & Hid2' & Hr2 & Hl2 & _).
    assert (J2 = J) as -> by congruence.
    destruct Hheld2 as [_ Hrow]. rewrite (Hrow r2 Hr2) in Hl2. discriminate.
  - intros B current'. by apply (sql_claim_held_fails J A).
  - intros t t' lock_id current' job_id. apply sql_claim_only_unlocked.
Qed.

Lemma at_most_one_owner_witness :
  let now := Samples.at_minute 5 0 in
  let db1 := snd (acquire_due_job "worker-a" (Some now) now Samples.two_jobs) in
  let ops := [OpAcquire "worker-b" (Some now) now;
              OpMarkFailure 1 "worker-b" "wrong worker" (Samples.at_minute 6 0);
              OpEnqueue (Samples.job "thread-3" 1 0);
              OpClaim "worker-c" "2025-11-07T09:05:00+00:00" 1;
              OpDelete 2] in
  (∀ B now' clock' job' db3,
     acquire_due_job B now' clock' (run ops db1) = (Ok (Some job'), db3) →
     RetryJob.id job' ≠ Some 1)
  ∧ (∀ B current, sql_claim B current 1 (run ops db1) = (0, run ops db1))
  ∧ (∀ t t' lock_id current job_id,
       sql_claim lock_id current job_id t = (1, t') →
       ∃ r, rows t !! job_id = Some r ∧ Row.locked_by r = None).
Proof.
  intros now db1 ops.
  apply (at_most_one_owner Samples.two_jobs db1 "worker-a" (Some now) now
           (RetryJob.mk "thread-due" (PyDict [("journal_entry", PyStr "thread-due")])
              (Samples.at_minute 0 0) 0 (Some 1) None) 1 ops).
  - apply run_well_formed, well_formed_empty.
  - vm_compute. reflexivity.
  - reflexivity.
  - repeat constructor.
Defined.

End OneOwner.

(** ** C2: the attempts cap *)

Section AttemptsCap.
Import RetryQueue.
Local Open Scope Z_scope.

(** Construction succeeds exactly within [0, 5]. *)
Lemma RetryJob_make_in_range (thread_id : string) (payload : pyval)
    (next_run_at : datetime) (attempts : Z) (id : option Z) (error : option string) :
  (0 <= attempts <= MAX_RETRY_ATTEMPTS →
   RetryJob.make thread_id payload next_run_at attempts id error
   = Ok (RetryJob.mk thread_id payload next_run_at attempts id error))
  ∧ (attempts < 0 →
     RetryJob.make thread_id payload next_run_at attempts id error
     = Raise (ValueError "Retry attempts cannot be negative."))
  ∧ (MAX_RETRY_ATTEMPTS < attempts →
     RetryJob.make thread_id payload next_run_at attempts id error
     = Raise (ValueError "Retry attempts cannot exceed 5 per policy.")).
Proof.
  unfold RetryJob.make, RetryJob.post_init, MAX_RETRY_ATTEMPTS. cbn [RetryJob.attempts].
  destruct (attempts <? 0) eqn:H0; destruct (5 <? attempts) eqn:H5;
    repeat split; intros; first [reflexivity | lia].
Qed.

Lemma is_exhausted_iff (j : RetryJob.t) :
  RetryJob.is_exhausted j = true ↔ RetryJob.attempts j >= 5.
Proof. unfold RetryJob.is_exhausted, MAX_RETRY_ATTEMPTS. lia. Qed.

(** A job a repository method hands out went through the constructor: its
    attempts are within the cap. *)
Lemma returned_jobs_within_cap (db db' : retry_jobs) (job : RetryJob.t) :
  (∀ job_id, get job_id db = (Ok (Some job), db') →
     0 <= RetryJob.attempts job <= MAX_RETRY_ATTEMPTS)
  ∧ (∀ lock_id now clock,
       acquire_due_job lock_id now clock db = (Ok (Some job), db') →
       0 <= RetryJob.attempts job <= MAX_RETRY_ATTEMPTS)
  ∧ (∀ job_id lock_id error next_run_at,
       mark_failure job_id lock_id error next_run_at db = (Ok job, db') →
       0 <= RetryJob.attempts job <= MAX_RETRY_ATTEMPTS).
Proof.
  split; [|split].
  - intros job_id. unfold get. destruct (sql_select_by_id _ _) as [r|]; [|done].
    destruct (_row_to_job job_id r) as [j|] eqn:Hj; [|done].
    intros [= <- <-]. by apply _row_to_job_id in Hj as (_ & ? & _).
  - intros lock_id now clock. unfold acquire_due_job.
    destruct (negb _); [done|].
    destruct (sql_select_due _ _) as [job_id|]; [|done].
    destruct (sql_claim _ _ _ _) as [n db1].
    destruct (n =? 0); [done|].
    destruct (sql_select_by_id _ _) as [r|]; [|done].
    destruct (_row_to_job job_id r) as [j|] eqn:Hj; [|done].
    intros [= <- <-]. by apply _row_to_job_id in Hj as (_ & ? & _).
  - intros job_id lock_id error next_run_at. unfold mark_failure.
    destruct (negb _); [done|].
    destruct (sql_record_failure _ _ _ _ _) as [n db1].
    destruct (n =? 0); [done|].
    destruct (sql_select_by_id _ _) as [r|]; [|done].
    intros [= Hj <-]. by apply _row_to_job_id in Hj as (_ & ? & _).
Qed.

(** C2, the failing run: a job is enqueued and fails five times, each time
    acquired and marked by the same worker; it is then exhausted, still due,
    and acquired once more. The sixth [mark_failure] stores [attempts = 6]
    and only then raises, from the constructor, with the lock already
    released; the row can no longer be read ([get] raises), and the next
    [acquire_due_job] locks it and raises as well, so it stays locked. *)
Theorem mark_failure_breaks_attempts_cap :
  let now := Samples.at_minute 11 0 in
  let '(acquired, db1) :=
    acquire_due_job "worker-a" (Some now) now Samples.exhausted_job in
  let '(failed, db2) :=
    mark_failure 1 "worker-a" "503" (Samples.at_minute 12 0) db1 in
  let '(again, db3) :=
    acquire_due_job "worker-b" (Some (Samples.at_minute 13 0)) now db2 in
  (Row.attempts <$> rows Samples.exhausted_job !! 1) = Some 5
  ∧ (RetryJob.is_exhausted
       <$> (match acquired with Ok j => j | Raise _ => None end)) = Some true
  ∧ failed = Raise (ValueError "Retry attempts cannot exceed 5 per policy.")
  ∧ (Row.attempts <$> rows db2 !! 1) = Some 6
  ∧ (Row.locked_by <$> rows db2 !! 1) = Some None
  ∧ fst (get 1 db2) = Raise (ValueError "Retry attempts cannot exceed 5 per policy.")
  ∧ again = Raise (ValueError "Retry attempts cannot exceed 5 per policy.")
  ∧ (Row.locked_by <$> rows db3 !! 1) = Some (Some "worker-b").
Proof. vm_compute. repeat split. Qed.

End AttemptsCap.

(** ** C3: [mark_failure] and [mark_success] need the lock *)

Section LockMismatch.
Import RetryQueue.
Local Open Scope Z_scope.

Lemma _row_to_job_not_lock_error (job_id : Z) (r : Row.t) (msg : string) :
  _row_to_job job_id r ≠ Raise (RetryQueueError msg).
Proof.
  unfold _row_to_job, Iso.fromisoformat, RetryJob.make, RetryJob.post_init.
  repeat case_match; congruence.
Qed.

Lemma _row_to_job_serialized (job_id : Z) (thread_id : string) (payload : json)
    (attempts : Z) (next_run_at : datetime) (error lock at_ : option string) :
  Iso.valid_datetime next_run_at = true →
  0 <= attempts <= MAX_RETRY_ATTEMPTS →
  _row_to_job job_id
    (Row.mk thread_id payload attempts (_serialize_datetime next_run_at) error lock at_)
  = Ok (RetryJob.mk thread_id (Json.json_loads payload)
          (Iso.replace_microsecond0 next_run_at) attempts (Some job_id) error).
Proof.
  intros Hv Ha. unfold _row_to_job, _serialize_datetime. cbn [Row.next_run_at].
  rewrite fromisoformat_isoformat by (by apply valid_replace_microsecond0).
  cbn [Row.thread_id Row.payload Row.attempts Row.error].
  by apply RetryJob_make_in_range.
Qed.

(** C3, as stated, fails. Worker-a holds job 1. A caller with the empty
    worker id is not the lock holder, yet it gets the argument error and not
    the lock-mismatch error; and the holder's [mark_failure] stores the given
    [next_run_at] without its sub-second part. *)
Lemma mark_empty_lock_counterexample :
  let now := Samples.at_minute 5 0 in
  let db := snd (acquire_due_job "worker-a" (Some now) now Samples.two_jobs) in
  (Row.locked_by <$> rows db !! 1) = Some (Some "worker-a")
  ∧ mark_failure 1 "" "late" now db
    = (Raise (ValueError "lock_id is required to mark failure."), db)
  ∧ mark_success 1 "" db
    = (Raise (ValueError "lock_id is required to mark success."), db)
  ∧ (Row.next_run_at
       <$> rows (snd (mark_failure 1 "worker-a" "503"
                        (Samples.at_minute 6 250000) db)) !! 1)
    = Some "2025-11-07T09:06:00+00:00".
Proof. vm_compute. repeat split. Qed.

(** C3 (amended). With an empty worker id both methods raise the argument
    error. With a non-empty one they raise the lock-mismatch error exactly
    when no row with that id is locked by the caller, and then the table is
    unchanged. When the caller holds the lock, [mark_failure] adds one to
    [attempts], records the error, stores the given [next_run_at] cut to
    whole seconds and clears the lock, never raising the lock-mismatch
    error, and it returns the updated job when the new count is within the
    cap; [mark_success] deletes the row. *)
Theorem mark_requires_lock_holder
    (db : retry_jobs) (job_id : Z) (lock_id error : string) (next_run_at : datetime) :
  (lock_id = "" →
     mark_failure job_id lock_id error next_run_at db
     = (Raise (ValueError "lock_id is required to mark failure."), db)
     ∧ mark_success job_id lock_id db
       = (Raise (ValueError "lock_id is required to mark success."), db))
  ∧ (lock_id ≠ "" →
     (∀ r, rows db !! job_id = Some r → Row.locked_by r ≠ Some lock_id) →
     mark_failure job_id lock_id error next_run_at db
     = (Raise (lock_mismatch_failure job_id lock_id), db)
     ∧ mark_success job_id lock_id db
       = (Raise (lock_mismatch_success job_id lock_id), db))
  ∧ (lock_id ≠ "" →
     ∀ r, rows db !! job_id = Some r → Row.locked_by r = Some lock_id →
     let updated :=
       Row.mk (Row.thread_id r) (Row.payload r) (Row.attempts r + 1)
         (_serialize_datetime next_run_at) (Some error) None None in
     mark_failure job_id lock_id error next_run_at db
     = (_row_to_job job_id updated,
        mk_table (<[job_id := updated]> (rows db)) (sqlite_sequence db))
     ∧ (∀ msg, _row_to_job job_id updated ≠ Raise (RetryQueueError msg))
     ∧ (Iso.valid_datetime next_run_at = true →
        0 <= Row.attempts r + 1 <= MAX_RETRY_ATTEMPTS →
        _row_to_job job_id updated
        = Ok (RetryJob.mk (Row.thread_id r) (Json.json_loads (Row.payload r))
                (Iso.replace_microsecond0 next_run_at) (Row.attempts r + 1)
                (Some job_id) (Some error)))
     ∧ mark_success job_id lock_id db
       = (Ok tt, mk_table (base.delete job_id (rows db)) (sqlite_sequence db))).
Proof.
  unfold mark_failure, mark_success, sql_record_failure, sql_delete_locked.
  split; [|split].
  - intros ->. split; reflexivity.
  - intros Hne Hnot. rewrite (proj2 (truthy_true_iff _) Hne). cbn [negb].
    destruct (rows db !! job_id) as [r|] eqn:Hr; [|split; reflexivity].
    rewrite bool_decide_eq_false_2 by (by apply Hnot). split; reflexivity.
  - intros Hne r Hr Hlock. cbv zeta. rewrite (proj2 (truthy_true_iff _) Hne).
    cbn [negb]. rewrite Hr. rewrite bool_decide_eq_true_2 by done.
    cbn [Z.eqb]. unfold sql_select_by_id. cbn [rows].
    rewrite lookup_insert_eq.
    split; [reflexivity|]. split; [intros msg; apply _row_to_job_not_lock_error|].
    split; [|reflexivity].
    intros Hv Ha. by apply _row_to_job_serialized.
Qed.

Lemma mark_requires_lock_holder_witness :
  let now := Samples.at_minute 5 0 in
  let db := snd (acquire_due_job "worker-a" (Some now) now Samples.two_jobs) in
  mark_failure 1 "worker-b" "wrong worker" now db
  = (Raise (RetryQueueError
              "Retry job 1 is not locked by worker-b or does not exist."), db)
  ∧ mark_failure 7 "worker-a" "no such job" now db
    = (Raise (RetryQueueError
                "Retry job 7 is not locked by worker-a or does not exist."), db)
  ∧ fst (mark_failure 1 "worker-a" "503" (Samples.at_minute 6 250000) db)
    = Ok (RetryJob.mk "thread-due" (PyDict [("journal_entry", PyStr "thread-due")])
            (Samples.at_minute 6 0) 1 (Some 1) (Some "503"))
  ∧ rows (snd (mark_success 1 "worker-a" db)) !! 1 = None.
Proof.
  intros now db.
  pose proof (mark_requires_lock_holder db 1 "worker-b" "wrong worker" now)
    as (_ & H1 & _).
  pose proof (mark_requires_lock_holder db 7 "worker-a" "no such job" now)
    as (_ & H2 & _).
  pose proof (mark_requires_lock_holder db 1 "worker-a" "503"
                (Samples.at_minute 6 250000)) as (_ & _ & H3).
  split; [|split; [|split]].
  - apply H1; [done|]. intros r Hr.
    assert (Row.locked_by r = Some "worker-a") as ->; [|done].
    vm_compute in Hr. by injection Hr as <-.
  - apply H2; [done|]. intros r Hr. vm_compute in Hr. discriminate.
  - destruct (rows db !! 1) as [r|] eqn:Hr; [|vm_compute in Hr; discriminate].
    assert (Hlock : Row.locked_by r = Some "worker-a").
    { vm_compute in Hr. by injection Hr as <-. }
    destruct (H3 ltac:(done) r eq_refl Hlock) as (Hmf & _ & Hjob & _).
    rewrite Hmf. cbn [fst]. rewrite Hjob.
    + vm_compute in Hr. injection Hr as <-. reflexivity.
    + reflexivity.
    + vm_compute in Hr. injection Hr as <-. vm_compute. split; discriminate.
  - vm_compute. reflexivity.
Defined.

End LockMismatch.

(** ** C10: [enqueue] then [get] *)

Section EnqueueGet.
Import RetryQueue.
Local Open Scope Z_scope.



(** The same for any payload [json] can write: what comes back is the
    payload as read from its document, next to the truncated instant. *)
Lemma enqueue_get_serializable (db : retry_jobs) (job : RetryJob.t) (j : json) :
  Json.json_dumps (RetryJob.payload job) = Ok j →
  Iso.valid_datetime (RetryJob.next_run_at job) = true →
  0 <= RetryJob.attempts job <= MAX_RETRY_ATTEMPTS →
  get (next_rowid db) (snd (enqueue job db))
  = (Ok (Some (RetryJob.mk (RetryJob.thread_id job) (Json.json_loads j)
                 (Iso.replace_microsecond0 (RetryJob.next_run_at job))
                 (RetryJob.attempts job) (Some (next_rowid db))
                 (RetryJob.error job))),
     snd (enqueue job db)).
Proof.
  intros Hdump Hvalid Hattempts.
  unfold enqueue, _serialize_payload. rewrite Hdump.
  unfold sql_insert. cbn [snd].
  unfold get, sql_select_by_id. cbn [rows]. rewrite lookup_insert_eq.
  by rewrite _row_to_job_serialized.
Qed.


(** The sub-second part of [next_run_at] is dropped on the way in. *)
Example enqueue_truncates_microseconds :
  let job := RetryJob.mk "thread-1" (PyDict []) (Samples.at_minute 0 987654)
               0 None None in
  let '(returned, db') := enqueue job empty_table in
  (RetryJob.next_run_at <$> (match returned with Ok j => Some j | Raise _ => None end))
  = Some (Samples.at_minute 0 987654)
  ∧ fst (get 1 db')
    = Ok (Some (RetryJob.mk "thread-1" (PyDict []) (Samples.at_minute 0 0)
                  0 (Some 1) None)).
Proof. vm_compute. repeat split. Qed.

End EnqueueGet.

(** ** C4: posting when the ledger is down *)

Section PostingFacts.
Import Posting.

(** C4, as stated, fails: with the ledger down, posting an approved draft
    calls the ledger client once and nothing else. No job is handed to the
    retry queue; the client's error goes to the caller. *)
Lemma posting_failure_enqueues_nothing_counterexample :
  post_confirmed_expense Samples.ledger_down None Samples.approved_state
  = (Raise (ERPNextClientError "503 Service Unavailable"),
     Samples.approved_state,
     [call_post_journal_entry
        (PyDict
           [("posting_date", PyStr "2025-11-07");
            ("user_remark", PyStr "Paid $10 cash for taxi");
            ("accounts",
             PyList
               [PyDict [("account", PyStr "5110");
                        ("debit_in_account_currency", PyFloat (1000 # 100));
                        ("credit_in_account_currency", PyFloat 0)];
                PyDict [("account", PyStr "1000");
                        ("debit_in_account_currency", PyFloat 0);
                        ("credit_in_account_currency", PyFloat (1000 # 100))]])])]).
Proof. reflexivity. Qed.

(** C4 (amended). For an approved state with a draft, when the ledger client
    fails, [post_confirmed_expense] raises the client's error to its caller,
    leaves the conversation state as it was (no submission is stored) and
    has made one call, to the ledger client: nothing is enqueued by the
    posting operation itself. *)
Theorem posting_failure_propagates
    (post_journal_entry : pyval → result JournalEntryResult.t)
    (extra_payload : option (list (string * pyval)))
    (state : ConversationState.t) (draft : ExpenseDraft.t) (e : exn) :
  ConversationState.expense_draft state = Some draft →
  ConversationState.confirmation_status state = approved →
  post_journal_entry (_build_journal_entry_payload draft extra_payload) = Raise e →
  post_confirmed_expense post_journal_entry extra_payload state
  = (Raise e, state,
     [call_post_journal_entry (_build_journal_entry_payload draft extra_payload)]).
Proof.
  intros Hdraft Hstatus Hfail. unfold post_confirmed_expense.
  by rewrite Hdraft, Hstatus, Hfail.
Qed.

Lemma posting_failure_propagates_witness :
  post_confirmed_expense Samples.ledger_down None Samples.approved_state
  = (Raise (ERPNextClientError "503 Service Unavailable"),
     Samples.approved_state,
     [call_post_journal_entry (_build_journal_entry_payload Samples.draft None)]).
Proof.
  apply (posting_failure_propagates Samples.ledger_down None
           Samples.approved_state Samples.draft); reflexivity.
Defined.

(** On success the result is stored on the state. *)
Example posting_success_stores_result :
  post_confirmed_expense Samples.ledger_up None Samples.approved_state
  = (Ok Samples.submission,
     ConversationState.set_erpnext_submission (Some Samples.submission)
       Samples.approved_state,
     [call_post_journal_entry (_build_journal_entry_payload Samples.draft None)]).
Proof. reflexivity. Qed.

End PostingFacts.

(** ** The message parser on the messages of the unit tests *)

Example parse_taxi_message :
  match Parsing.parse_expense_text "Paid $10 cash for taxi" (Some "USD") (Some "42") with
  | Ok p =>
      ParsedExpense.amount p = Some (mk_Decimal 10 0)
      ∧ ParsedExpense.currency p = Some "USD"
      ∧ ParsedExpense.narration p = "Paid $10 cash for taxi"
      ∧ ParsedExpense.debit_hint p = Some "taxi"
      ∧ ParsedExpense.credit_hint p = Some "cash"
      ∧ ParsedExpense.keywords p = ["10"; "cash"; "taxi"]
      ∧ ParsedExpense.missing_fields p = ∅
  | Raise _ => False
  end.
Proof. vm_compute. repeat split. Qed.

Example parse_hotel_message :
  match Parsing.parse_expense_text "Booked a hotel using corporate card" (Some "USD") None with
  | Ok p =>
      ParsedExpense.amount p = None
      ∧ ParsedExpense.currency p = Some "USD"
      ∧ ParsedExpense.debit_hint p = None
      ∧ ParsedExpense.credit_hint p = Some "corporate card"
      ∧ ParsedExpense.keywords p = ["booked"; "hotel"; "corporate"; "card"]
  | Raise _ => False
  end.
Proof. vm_compute. repeat split. Qed.

(** The matcher on further texts: spans and groups as [re] gives them. *)
Example search_spans :
  let amount t := Regex.span <$> Regex.search Parsing._AMOUNT_PATTERN (PyStr.of_string t) in
  let debit t := Regex.span <$> Regex.search Parsing._DEBIT_PATTERN (PyStr.of_string t) in
  let credit t := Regex.span <$> Regex.search Parsing._CREDIT_PATTERN (PyStr.of_string t) in
  let group_of r name t :=
    PyStr.to_string
      <$> (Regex.search r (PyStr.of_string t)
             ≫= Regex.group name (PyStr.of_string t)) in
  amount "paid 1234 usd to bob" = Some (4, 8)%nat
  ∧ group_of Parsing._AMOUNT_PATTERN "amount" "paid 1234 usd to bob" = Some "123"
  ∧ amount "usd 1,234.50 on lunch, with card" = Some (0, 13)%nat
  ∧ group_of Parsing._AMOUNT_PATTERN "prefix_currency"
      "usd 1,234.50 on lunch, with card" = Some "usd"
  ∧ debit "usd 1,234.50 on lunch, with card" = Some (13, 21)%nat
  ∧ credit "usd 1,234.50 on lunch, with card" = Some (23, 32)%nat
  ∧ amount "spent 12.5eur on tomato soup" = Some (5, 13)%nat
  ∧ group_of Parsing._AMOUNT_PATTERN "suffix_currency"
      "spent 12.5eur on tomato soup" = Some "eur"
  ∧ group_of Parsing._DEBIT_PATTERN "account" "spent 12.5eur on tomato soup"
    = Some "tomato soup"
  ∧ debit "paid 5 via visa for books and pens" = Some (16, 34)%nat
  ∧ group_of Parsing._CREDIT_PATTERN "account" "paid 5 via visa for books and pens"
    = Some "visa for books and pens"
  ∧ amount "no digits here" = None.
Proof. vm_compute. repeat split. Qed.

(** ** C6: the parser is not total *)

Section ParserFacts.
Import PyStr Regex Parsing.

(** The debit phrase of this message is [and], which cleans to nothing. *)
Example debit_phrase_cleans_to_nothing :
  let text := working_text_of (strip "Paid $10 for and") in
  to_string text = "paid $10 for and"
  ∧ (span <$> search _AMOUNT_PATTERN text) = Some (5, 9)%nat
  ∧ (span <$> search _DEBIT_PATTERN text) = Some (9, 16)%nat
  ∧ (search _DEBIT_PATTERN text ≫= group "account" text) = Some (of_string "and")
  ∧ _clean_hint (of_string "and") = None
  ∧ _extract_debit_hint text = (None, span_pair None None)
  ∧ search _CREDIT_PATTERN text = None.
Proof. vm_compute. repeat split. Qed.

(** C6, the failing input. The message has an amount, no credit phrase, and a
    debit phrase that cleans to nothing: [_extract_debit_hint] then returns
    the tuple [(None, None)] as the span, [_extract_credit_hint] compares the
    end of the amount with its first item, and the parser raises
    [TypeError]. *)
Theorem parse_expense_text_raises_on_empty_debit_phrase :
  parse_expense_text "Paid $10 for and" (Some "USD") None
  = Raise (TypeError "'<' not supported between instances of 'int' and 'NoneType'")
  ∧ parse_expense_text "10 for then" None None
    = Raise (TypeError "'<' not supported between instances of 'int' and 'NoneType'").
Proof. vm_compute. split; reflexivity. Qed.

Lemma amount_span_shape (text : chars) (dc : option string) :
  match _extract_amount_and_currency text dc with
  | (Some _, _, span_pair (Some _) (Some _)) => True
  | (None, _, span_none) => True
  | _ => False
  end.
Proof.
  unfold _extract_amount_and_currency.
  destruct (search _AMOUNT_PATTERN text) as [m|]; [|done].
  by destruct (Decimal_of_chars _).
Qed.

(** Exactly when the parser raises: an amount was found, no credit phrase
    matched, and the debit pattern matched a phrase that cleans to nothing.
    On every other message it returns a [ParsedExpense]. *)
Lemma parse_expense_text_raises_iff
    (message : string) (dc sid : option string) :
  let text := working_text_of (strip message) in
  is_ok (parse_expense_text message dc sid) = false
  ↔ (is_Some (fst (fst (_extract_amount_and_currency text dc)))
     ∧ search _CREDIT_PATTERN text = None
     ∧ is_Some (search _DEBIT_PATTERN text)
     ∧ fst (_extract_debit_hint text) = None).
Proof.
  intros text. unfold parse_expense_text. fold text.
  pose proof (amount_span_shape text dc) as Hamount.
  destruct (_extract_amount_and_currency text dc) as [[amount currency] amount_span].
  unfold _extract_debit_hint, _extract_credit_hint.
  destruct (search _DEBIT_PATTERN text) as [md|];
    [destruct (_clean_hint (default [] (group "account" text md))) as [hint|]|];
    (destruct (search _CREDIT_PATTERN text) as [mc|];
     [cbn [is_ok fst]; split; [done | by intros (_ & ? & _)]|]);
    destruct amount as [a|], amount_span as [|[s|] [e|]]; try done;
    cbn [py_lt default fst].
  all: try (destruct (_ <? _)%nat; [destruct (_clean_hint _)|]).
  all: cbn [is_ok]; split;
    [ first [ done | intros _; repeat split; by eexists ]
    | first [ done
            | by intros ([? ?] & _)
            | by intros (_ & _ & [? ?] & _)
            | by intros (_ & _ & _ & ?) ] ].
Qed.

End ParserFacts.

(** ** C8: the account ranker *)

Section RankerFacts.
Import PyStr Parsing.
Context `{Fuzz}.
Local Open Scope Q_scope.










(** *** The stable sort *)

Lemma insert_desc_elem (x : AccountCandidate.t) (l : list AccountCandidate.t)
    (P : AccountCandidate.t → Prop) :
  P x → Forall P l → Forall P (insert_desc x l).
Proof.
  intros Hx Hl. induction Hl as [|y l Hy Hl IH]; cbn [insert_desc].
  - by constructor.
  - destruct (Qle_bool _ _); repeat constructor; done.
Qed.

Lemma sort_desc_Forall (P : AccountCandidate.t → Prop) (l : list AccountCandidate.t) :
  Forall P l → Forall P (sort_desc l).
Proof.
  induction 1 as [|x l Hx Hl IH]; cbn; [constructor|].
  by apply insert_desc_elem.
Qed.





Lemma insert_desc_Permutation (x : AccountCandidate.t) (l : list AccountCandidate.t) :
  insert_desc x l ≡ₚ x :: l.
Proof.
  induction l as [|y l IH]; cbn [insert_desc]; [done|].
  destruct (Qle_bool _ _); [done|]. rewrite IH. apply Permutation_swap.
Qed.

Lemma sort_desc_Permutation (l : list AccountCandidate.t) : sort_desc l ≡ₚ l.
Proof.
  induction l as [|x l IH]; [done|].
  cbn [sort_desc foldr]. rewrite insert_desc_Permutation.
  by apply Permutation_skip.
Qed.

Lemma truncate_prefix (limit : Z) (l : list AccountCandidate.t) :
  truncate limit l `prefix_of` l.
Proof.
  unfold truncate. destruct (_ && _); [|done].
  destruct (0 <=? limit)%Z; apply prefix_take.
Qed.



Lemma prefix_Forall (P : AccountCandidate.t → Prop) (l k : list AccountCandidate.t) :
  l `prefix_of` k → Forall P k → Forall P l.
Proof. intros [t ->] Hk. by apply Forall_app in Hk as [? _]. Qed.



End RankerFacts.



Example rank_limit_one :
  Parsing.rank_account_candidates (H := Samples.exact_fuzz)
    (Parsing.query_terms ["taxi"; "cash"])
    (Samples.chart ++ [AccountRow.mk (Some "Petty cash") None (Some "1000") None
                         (Some (AliasStr "Cash"))])%list 1 0
  = Ok [AccountCandidate.mk "Taxi" "5110" (10000 # 10000) "Matched 'Taxi'"].
Proof. vm_compute. reflexivity. Qed.

(* ===================================================================== *)
(** * Further properties of the code *)
(* ===================================================================== *)

(** ** The retry queue: which job is handed out *)

Section DueOrder.
Import RetryQueue.
Local Open Scope Z_scope.

Lemma ascii_compare_refl (a : ascii) : Ascii.compare a a = Eq.
Proof. unfold Ascii.compare. apply N.compare_refl. Qed.

Lemma ascii_compare_trans (a b c : ascii) :
  Ascii.compare a b = Lt → Ascii.compare b c = Lt → Ascii.compare a c = Lt.
Proof.
  unfold Ascii.compare. rewrite !N.compare_lt_iff. apply N.lt_trans.
Qed.

Lemma string_compare_refl (s : string) : String.compare s s = Eq.
Proof. induction s as [|a s IH]; cbn; [done|]. by rewrite ascii_compare_refl. Qed.

Lemma string_compare_trans (s1 s2 s3 : string) :
  String.compare s1 s2 = Lt → String.compare s2 s3 = Lt →
  String.compare s1 s3 = Lt.
Proof.
  revert s2 s3. induction s1 as [|a s1 IH]; intros [|b s2] [|c s3]; cbn;
    try done.
  destruct (Ascii.compare a b) eqn:Hab; try done;
    destruct (Ascii.compare b c) eqn:Hbc; try done; intros H12 H23.
  - apply Ascii.compare_eq_iff in Hab as ->, Hbc as ->.
    rewrite ascii_compare_refl. by eapply IH.
  - apply Ascii.compare_eq_iff in Hab as ->. by rewrite Hbc.
  - apply Ascii.compare_eq_iff in Hbc as <-. by rewrite Hab.
  - by rewrite (ascii_compare_trans a b c).
Qed.

Lemma before_irrefl (x : Z * Row.t) : before x x = false.
Proof. unfold before. rewrite string_compare_refl. lia. Qed.

Lemma before_trans (x y z : Z * Row.t) :
  before x y = true → before y z = true → before x z = true.
Proof.
  unfold before.
  destruct (String.compare (Row.next_run_at (snd x)) (Row.next_run_at (snd y)))
    eqn:Hxy; try done;
    destruct (String.compare (Row.next_run_at (snd y)) (Row.next_run_at (snd z)))
      eqn:Hyz; try done; intros H1 H2.
  - apply String.compare_eq_iff in Hxy, Hyz. rewrite Hxy, Hyz.
    rewrite string_compare_refl. lia.
  - apply String.compare_eq_iff in Hxy. by rewrite Hxy, Hyz.
  - apply String.compare_eq_iff in Hyz. by rewrite <- Hyz, Hxy.
  - by rewrite (string_compare_trans _ _ _ Hxy Hyz).
Qed.

Lemma first_of_None (l : list (Z * Row.t)) : first_of l = None ↔ l = [].
Proof.
  destruct l as [|a l]; [done|]. split; [|done].
  cbn [first_of foldr]. fold (first_of l).
  by destruct (first_of l) as [b|]; [destruct (before a b)|].
Qed.

Lemma first_of_least (l : list (Z * Row.t)) (x : Z * Row.t) :
  first_of l = Some x → ∀ y, In y l → before y x = false.
Proof.
  revert x. induction l as [|a l IH]; intros x; cbn [first_of foldr]; [done|].
  fold (first_of l). destruct (first_of l) as [b|] eqn:Hb.
  - destruct (before a b) eqn:Hab; intros [= <-] y [<- | Hy].
    + apply before_irrefl.
    + destruct (before y a) eqn:Hya; [|done].
      rewrite <- (IH b eq_refl y Hy). symmetry. by apply (before_trans y a b).
    + done.
    + by apply IH.
  - intros [= <-] y [<- | Hy]; [apply before_irrefl|].
    apply first_of_None in Hb. by subst l.
Qed.

Lemma sql_select_due_Some (current : string) (db : retry_jobs) (job_id : Z) :
  sql_select_due current db = Some job_id →
  ∃ r, rows db !! job_id = Some r ∧ is_due current r = true
       ∧ ∀ k r', rows db !! k = Some r' → is_due current r' = true →
                 before (k, r') (job_id, r) = false.
Proof.
  unfold sql_select_due. intros H.
  destruct (first_of _) as [[k r]|] eqn:Hfirst; [|done].
  injection H as <-. pose proof (first_of_least _ _ Hfirst) as Hleast.
  apply first_of_In in Hfirst.
  apply filter_In in Hfirst as [Hin Hdue].
  apply list_elem_of_In, elem_of_map_to_list in Hin.
  exists r. split; [done|]. split; [done|].
  intros k' r' Hk' Hdue'. apply Hleast. apply filter_In. split; [|done].
  by apply list_elem_of_In, elem_of_map_to_list.
Qed.


Lemma is_due_unlocked (current : string) (r : Row.t) :
  is_due current r = true
  ↔ Row.locked_by r = None ∧ String.leb (Row.next_run_at r) current = true.
Proof.
  unfold is_due. destruct (Row.locked_by r); split; try done; by intros [? ?].
Qed.

Lemma _row_to_job_fields (job_id : Z) (r : Row.t) (job : RetryJob.t) :
  _row_to_job job_id r = Ok job →
  RetryJob.thread_id job = Row.thread_id r
  ∧ RetryJob.payload job = Json.json_loads (Row.payload r)
  ∧ RetryJob.error job = Row.error r
  ∧ Iso.fromisoformat (Row.next_run_at r) = Ok (RetryJob.next_run_at job).
Proof.
  unfold _row_to_job, RetryJob.make, RetryJob.post_init.
  destruct (Iso.fromisoformat _); [|done]. cbn [RetryJob.attempts].
  destruct (_ <? _); [done|]. destruct (_ <? _); [done|].
  by intros [= <-].
Qed.

Lemma acquire_due_job_selected
    (lock_id : string) (now : option datetime) (clock : datetime)
    (db db' : retry_jobs) (job : RetryJob.t) :
  acquire_due_job lock_id now clock db = (Ok (Some job), db') →
  ∃ job_id r,
    sql_select_due (_serialize_datetime (default clock now)) db = Some job_id
    ∧ rows db !! job_id = Some r
    ∧ _row_to_job job_id
        (Row.set_lock (Some lock_id)
           (Some (_serialize_datetime (default clock now))) r) = Ok job
    ∧ db' = mk_table
              (<[job_id := Row.set_lock (Some lock_id)
                             (Some (_serialize_datetime (default clock now))) r]>
                 (rows db))
              (sqlite_sequence db).
Proof.
  unfold acquire_due_job.
  destruct (negb (PyStr.truthy lock_id)); [done|].
  set (current := _serialize_datetime (default clock now)).
  destruct (sql_select_due current db) as [job_id|] eqn:Hsel; [|done].
  unfold sql_claim. destruct (rows db !! job_id) as [r|] eqn:Hr; [|done].
  destruct (Row.locked_by r); [done|]. cbn [Z.eqb].
  unfold sql_select_by_id. cbn [rows]. rewrite lookup_insert_eq.
  destruct (_row_to_job job_id _) as [j|] eqn:Hj; [|done].
  intros [= <- <-]. by exists job_id, r.
Qed.

(** X1. The job [acquire_due_job] hands out is the first in the order of the
    query: it was unlocked and due (its [next_run_at] text is not after the
    current instant), and no other unlocked, due row comes before it by
    [next_run_at] and then by id. The job carries the columns of that row,
    and the table changes in that row only, which is now locked by the
    caller. *)
Theorem acquire_due_job_takes_earliest
    (lock_id : string) (now : option datetime) (clock : datetime)
    (db db' : retry_jobs) (job : RetryJob.t) :
  acquire_due_job lock_id now clock db = (Ok (Some job), db') →
  ∃ job_id r,
    RetryJob.id job = Some job_id
    ∧ rows db !! job_id = Some r
    ∧ is_due (_serialize_datetime (default clock now)) r = true
    ∧ (∀ k r', rows db !! k = Some r' →
         is_due (_serialize_datetime (default clock now)) r' = true →
         before (k, r') (job_id, r) = false)
    ∧ RetryJob.thread_id job = Row.thread_id r
    ∧ RetryJob.attempts job = Row.attempts r
    ∧ RetryJob.payload job = Json.json_loads (Row.payload r)
    ∧ db' = mk_table
              (<[job_id := Row.set_lock (Some lock_id)
                             (Some (_serialize_datetime (default clock now))) r]>
                 (rows db))
              (sqlite_sequence db).
Proof.
  intros Hacq.
  apply acquire_due_job_selected in Hacq as (job_id & r & Hsel & Hr & Hj & ->).
  apply sql_select_due_Some in Hsel as (r0 & Hr0 & Hdue & Hleast).
  assert (r0 = r) as -> by congruence.
  pose proof (_row_to_job_id _ _ _ Hj) as (Hid & _ & Hatt).
  pose proof (_row_to_job_fields _ _ _ Hj) as (Hthread & Hpayload & _).
  exists job_id, r. by repeat split.
Qed.

Lemma acquire_due_job_takes_earliest_witness :
  ∃ job_id r,
    rows Samples.two_jobs !! job_id = Some r
    ∧ Row.thread_id r = "thread-due"
    ∧ (∀ k r', rows Samples.two_jobs !! k = Some r' →
         is_due "2025-11-07T09:30:00+00:00" r' = true →
         before (k, r') (job_id, r) = false).
Proof.
  destruct (acquire_due_job_takes_earliest "worker-a"
              (Some (Samples.at_minute 30 0)) (Samples.at_minute 30 0)
              Samples.two_jobs
              (snd (acquire_due_job "worker-a" (Some (Samples.at_minute 30 0))
                      (Samples.at_minute 30 0) Samples.two_jobs))
              (RetryJob.mk "thread-due"
                 (PyDict [("journal_entry", PyStr "thread-due")])
                 (Samples.at_minute 0 0) 0 (Some 1) None))
    as (job_id & r & _ & Hr & _ & Hleast & Hthread & _);
    [vm_compute; reflexivity|].
  exists job_id, r. split; [exact Hr|]. split; [by rewrite <- Hthread|].
  exact Hleast.
Defined.



End DueOrder.

(** ** The retry queue: ids are issued once *)

Section IdsIssuedOnce.
Import RetryQueue.
Local Open Scope Z_scope.

Lemma run_op_sequence (o : op) (db : retry_jobs) :
  sqlite_sequence db <= sqlite_sequence (run_op o db).
Proof.
  destruct o as [job|job_id|lock_id now clock|lock_id current job_id
                |job_id lock_id error next|job_id lock_id|job_id|job_id];
    cbn [run_op].
  - unfold enqueue. destruct (_serialize_payload _); [|done].
    unfold sql_insert. cbn [snd sqlite_sequence].
    pose proof (next_rowid_gt db). lia.
  - unfold get. destruct (sql_select_by_id _ _); [|done].
    by destruct (_row_to_job _ _).
  - unfold acquire_due_job. destruct (negb _); [done|].
    destruct (sql_select_due _ _) as [job_id|]; [|done].
    unfold sql_claim. destruct (rows db !! job_id) as [r|]; [|done].
    destruct (Row.locked_by r); [done|]. cbn [Z.eqb].
    destruct (sql_select_by_id _ _); [|done]. by destruct (_row_to_job _ _).
  - unfold sql_claim. destruct (rows db !! job_id) as [r|]; [|done].
    by destruct (Row.locked_by r).
  - unfold mark_failure. destruct (negb _); [done|].
    unfold sql_record_failure. destruct (rows db !! job_id) as [r|]; [|done].
    destruct (bool_decide _); [|done]. cbn [Z.eqb].
    by destruct (sql_select_by_id _ _).
  - unfold mark_success. destruct (negb _); [done|].
    unfold sql_delete_locked. destruct (rows db !! job_id) as [r|]; [|done].
    by destruct (bool_decide _).
  - unfold reset_lock, sql_reset_lock. cbn [snd].
    by destruct (rows db !! job_id).
  - done.
Qed.

Lemma run_sequence (ops : list op) (db : retry_jobs) :
  sqlite_sequence db <= sqlite_sequence (run ops db).
Proof.
  revert db. induction ops as [|o ops IH]; intros db; [done|].
  cbn [run foldl]. pose proof (run_op_sequence o db).
  pose proof (IH (run_op o db)). unfold run in *. lia.
Qed.

Lemma enqueue_Ok_id (job returned : RetryJob.t) (db db' : retry_jobs) :
  enqueue job db = (Ok returned, db') →
  RetryJob.id returned = Some (next_rowid db)
  ∧ sqlite_sequence db' = next_rowid db.
Proof.
  unfold enqueue. destruct (_serialize_payload _); [|done].
  unfold sql_insert, RetryJob.replace_id, RetryJob.make, RetryJob.post_init.
  cbn [RetryJob.attempts].
  destruct (_ <? _); [done|]. destruct (_ <? _); [done|].
  by intros [= <- <-].
Qed.

(** X3. Ids grow: a job enqueued later, whatever the repository calls in
    between (deletions included), gets a larger id than a job enqueued
    before. *)
Theorem enqueue_ids_increase
    (db db1 db2 : retry_jobs) (ops : list op) (job1 job2 r1 r2 : RetryJob.t) :
  enqueue job1 db = (Ok r1, db1) →
  enqueue job2 (run ops db1) = (Ok r2, db2) →
  ∃ id1 id2, RetryJob.id r1 = Some id1 ∧ RetryJob.id r2 = Some id2 ∧ id1 < id2.
Proof.
  intros H1 H2.
  apply enqueue_Ok_id in H1 as [Hid1 Hseq1], H2 as [Hid2 _].
  exists (next_rowid db), (next_rowid (run ops db1)).
  split; [done|]. split; [done|].
  pose proof (run_sequence ops db1). pose proof (next_rowid_gt (run ops db1)).
  lia.
Qed.

Lemma enqueue_ids_increase_witness :
  ∃ id1 id2,
    RetryJob.id (RetryJob.mk "thread-1" (PyDict []) (Samples.at_minute 0 0) 0
                   (Some 1) None) = Some id1
    ∧ RetryJob.id (RetryJob.mk "thread-2" (PyDict []) (Samples.at_minute 0 0) 0
                     (Some 2) None) = Some id2
    ∧ id1 < id2.
Proof.
  apply (enqueue_ids_increase empty_table
           (snd (enqueue (RetryJob.mk "thread-1" (PyDict [])
                            (Samples.at_minute 0 0) 0 None None) empty_table))
           (snd (enqueue (RetryJob.mk "thread-2" (PyDict [])
                            (Samples.at_minute 0 0) 0 None None)
                   (run [OpDelete 1]
                      (snd (enqueue (RetryJob.mk "thread-1" (PyDict [])
                                       (Samples.at_minute 0 0) 0 None None)
                              empty_table)))))
           [OpDelete 1]
           (RetryJob.mk "thread-1" (PyDict []) (Samples.at_minute 0 0) 0 None None)
           (RetryJob.mk "thread-2" (PyDict []) (Samples.at_minute 0 0) 0 None None));
    vm_compute; reflexivity.
Defined.

Lemma retired_update (J k : Z) (db : retry_jobs) (r r' : Row.t) :
  rows db !! k = Some r → retired J db →
  retired J (mk_table (<[k := r']> (rows db)) (sqlite_sequence db)).
Proof.
  intros Hk [Hseq Hrow]. split; [done|]. cbn [rows].
  rewrite lookup_insert_ne; [done|]. intros ->. congruence.
Qed.

Lemma retired_delete (J k : Z) (db : retry_jobs) :
  retired J db →
  retired J (mk_table (base.delete k (rows db)) (sqlite_sequence db)).
Proof.
  intros [Hseq Hrow]. split; [done|]. cbn [rows].
  apply lookup_delete_None. by right.
Qed.

Lemma run_op_retired (J : Z) (o : op) (db : retry_jobs) :
  retired J db → retired J (run_op o db).
Proof.
  intros Hgone.
  destruct o as [job|job_id|lock_id now clock|lock_id current job_id
                |job_id lock_id error next|job_id lock_id|job_id|job_id];
    cbn [run_op].
  - unfold enqueue. destruct (_serialize_payload _); [|done].
    unfold sql_insert. cbn [snd]. destruct Hgone as [Hseq Hrow].
    pose proof (next_rowid_gt db). split; cbn [rows sqlite_sequence]; [lia|].
    rewrite lookup_insert_ne by lia. done.
  - unfold get. destruct (sql_select_by_id _ _); [|done].
    by destruct (_row_to_job _ _).
  - unfold acquire_due_job. destruct (negb _); [done|].
    destruct (sql_select_due _ _) as [job_id|]; [|done].
    unfold sql_claim. destruct (rows db !! job_id) as [r|] eqn:Hr; [|done].
    destruct (Row.locked_by r); [done|]. cbn [Z.eqb].
    destruct (sql_select_by_id _ _); [destruct (_row_to_job _ _)|];
      cbn [snd]; by apply (retired_update J job_id db r).
  - unfold sql_claim. destruct (rows db !! job_id) as [r|] eqn:Hr; [|done].
    destruct (Row.locked_by r); [done|]. by apply (retired_update J job_id db r).
  - unfold mark_failure. destruct (negb _); [done|].
    unfold sql_record_failure. destruct (rows db !! job_id) as [r|] eqn:Hr; [|done].
    destruct (bool_decide _); [|done]. cbn [Z.eqb].
    destruct (sql_select_by_id _ _); cbn [snd];
      by apply (retired_update J job_id db r).
  - unfold mark_success. destruct (negb _); [done|].
    unfold sql_delete_locked. destruct (rows db !! job_id) as [r|]; [|done].
    destruct (bool_decide _); [|done]. cbn [Z.eqb snd]. by apply retired_delete.
  - unfold reset_lock, sql_reset_lock. cbn [snd].
    destruct (rows db !! job_id) as [r|] eqn:Hr; [|done].
    by apply (retired_update J job_id db r).
  - unfold delete, sql_delete. cbn [snd]. by apply retired_delete.
Qed.

Lemma run_retired (J : Z) (ops : list op) (db : retry_jobs) :
  retired J db → retired J (run ops db).
Proof.
  revert db. induction ops as [|o ops IH]; intros db Hgone; [done|].
  cbn [run foldl]. apply IH. by apply run_op_retired.
Qed.

(** X4. A job that was removed stays removed. Once the holder's
    [mark_success], or [delete], has taken the row of [job_id] out of a table
    whose keys the counter covers, no sequence of repository calls brings a
    row with that id back: [get] answers [None], and neither [mark_failure]
    nor [mark_success] find it, for any worker. *)
Theorem removed_job_stays_removed
    (db : retry_jobs) (job_id : Z) (r : Row.t) (ops : list op) :
  well_formed db →
  rows db !! job_id = Some r →
  (∀ lock_id, Row.locked_by r = Some lock_id → lock_id ≠ "" →
     get job_id (run ops (snd (mark_success job_id lock_id db)))
     = (Ok None, run ops (snd (mark_success job_id lock_id db))))
  ∧ get job_id (run ops (snd (delete job_id db)))
    = (Ok None, run ops (snd (delete job_id db)))
  ∧ (∀ lock_id error next_run_at, lock_id ≠ "" →
       fst (mark_failure job_id lock_id error next_run_at
              (run ops (snd (delete job_id db))))
       = Raise (lock_mismatch_failure job_id lock_id)).
Proof.
  intros Hwf Hr.
  assert (Hdel : retired job_id
                   (mk_table (base.delete job_id (rows db)) (sqlite_sequence db))).
  { split; cbn [rows sqlite_sequence]; [by apply (Hwf job_id r)|].
    apply lookup_delete_eq. }
  assert (Hget : ∀ t, retired job_id t → get job_id t = (Ok None, t)).
  { intros t [_ Hrow]. unfold get, sql_select_by_id. by rewrite Hrow. }
  split; [|split].
  - intros lock_id Hlock Hne. apply Hget, run_retired.
    unfold mark_success, sql_delete_locked.
    rewrite (proj2 (truthy_true_iff _) Hne). cbn [negb]. rewrite Hr.
    by rewrite bool_decide_eq_true_2.
  - apply Hget, run_retired. exact Hdel.
  - intros lock_id error next_run_at Hne.
    pose proof (run_retired job_id ops _ Hdel) as [_ Hrow].
    unfold mark_failure, sql_record_failure.
    rewrite (proj2 (truthy_true_iff _) Hne). cbn [negb].
    unfold delete, sql_delete. cbn [snd]. by rewrite Hrow.
Qed.

Lemma removed_job_stays_removed_witness :
  let ops := [OpEnqueue (Samples.job "thread-3" 1 0);
              OpAcquire "worker-b" None (Samples.at_minute 30 0);
              OpResetLock 1] in
  get 1 (run ops (snd (delete 1 Samples.two_jobs)))
  = (Ok None, run ops (snd (delete 1 Samples.two_jobs))).
Proof.
  intros ops.
  destruct (removed_job_stays_removed Samples.two_jobs 1
              (Row.mk "thread-due" (JObj [("journal_entry", JStr "thread-due")]) 0
                 "2025-11-07T09:00:00+00:00" None None None) ops)
    as (_ & Hget & _).
  - apply run_well_formed, well_formed_empty.
  - vm_compute. reflexivity.
  - exact Hget.
Defined.

End IdsIssuedOnce.

(** ** The retry queue: what [enqueue] stores, and when it fails *)

Section EnqueueOutcomes.
Import RetryQueue.
Local Open Scope Z_scope.




End EnqueueOutcomes.

(** ** The retry queue: the text of an instant orders as the instant *)

Section InstantOrder.
Import PyStr Iso Calendar RetryQueue.
Local Open Scope Z_scope.

Lemma text_compare_cons (c1 c2 : ascii) (l1 l2 : chars) :
  text_compare (c1 :: l1) (c2 :: l2)
  = lex (Ascii.compare c1 c2) (text_compare l1 l2).
Proof.
  unfold text_compare, to_string. cbn [string_of_list_ascii String.compare].
  by destruct (Ascii.compare c1 c2).
Qed.

Lemma text_compare_same (c : ascii) (l1 l2 : chars) :
  text_compare (c :: l1) (c :: l2) = text_compare l1 l2.
Proof. rewrite text_compare_cons. by rewrite ascii_compare_refl. Qed.

Lemma lex_Eq_r (c : comparison) : lex c Eq = c.
Proof. by destruct c. Qed.

Lemma digit_char_compare (x y : Z) :
  0 <= x < 10 → 0 <= y < 10 →
  Ascii.compare (digit_char x) (digit_char y) = (x ?= y).
Proof.
  intros Hx Hy. unfold Ascii.compare, digit_char, ascii_of_nat.
  rewrite !N_ascii_embedding by lia.
  destruct (Z.compare_spec x y) as [->|Hlt|Hgt].
  - apply N.compare_refl.
  - apply N.compare_lt_iff. lia.
  - apply N.compare_gt_iff. lia.
Qed.

Lemma lex_digits (a b : Z) (c : comparison) :
  lex (a / 10 ?= b / 10) (lex (a mod 10 ?= b mod 10) c) = lex (a ?= b) c.
Proof.
  pose proof (Z.div_mod a 10 ltac:(lia)). pose proof (Z.div_mod b 10 ltac:(lia)).
  pose proof (Z.mod_pos_bound a 10 ltac:(lia)).
  pose proof (Z.mod_pos_bound b 10 ltac:(lia)).
  destruct (Z.compare_spec (a / 10) (b / 10));
    destruct (Z.compare_spec (a mod 10) (b mod 10));
    destruct (Z.compare_spec a b); cbn [lex]; first [done | lia].
Qed.

Lemma pad_snoc (w : nat) (n : Z) :
  pad (S w) n = (pad w (n / 10) ++ [digit_char (n mod 10)])%list.
Proof. unfold pad. cbn [pad_go]. by rewrite pad_go_app. Qed.

Lemma pad_compare (w : nat) (a b : Z) (r1 r2 : chars) :
  0 <= a < 10 ^ Z.of_nat w → 0 <= b < 10 ^ Z.of_nat w →
  text_compare (pad w a ++ r1)%list (pad w b ++ r2)%list
  = lex (a ?= b) (text_compare r1 r2).
Proof.
  revert a b r1 r2. induction w as [|w IH]; intros a b r1 r2 Ha Hb.
  - cbn in Ha, Hb. assert (a = 0) as -> by lia. assert (b = 0) as -> by lia.
    reflexivity.
  - assert (Hpow : 10 ^ Z.of_nat (S w) = 10 * 10 ^ Z.of_nat w).
    { rewrite Nat2Z.inj_succ, Z.pow_succ_r by lia. lia. }
    rewrite Hpow in Ha, Hb.
    rewrite !pad_snoc, <- !app_assoc. cbn [app].
    rewrite IH by (split; [apply Z.div_pos; lia
                          | apply Z.div_lt_upper_bound; lia]).
    rewrite text_compare_cons.
    rewrite digit_char_compare by (apply Z.mod_pos_bound; lia).
    apply lex_digits.
Qed.

Lemma pad2_compare (a b : Z) (r1 r2 : chars) :
  0 <= a < 100 → 0 <= b < 100 →
  text_compare (pad 2 a ++ r1)%list (pad 2 b ++ r2)%list
  = lex (a ?= b) (text_compare r1 r2).
Proof. intros. by apply pad_compare. Qed.

Lemma pad4_compare (a b : Z) (r1 r2 : chars) :
  0 <= a < 10000 → 0 <= b < 10000 →
  text_compare (pad 4 a ++ r1)%list (pad 4 b ++ r2)%list
  = lex (a ?= b) (text_compare r1 r2).
Proof. intros. by apply pad_compare. Qed.

(** X6. The text the repository stores for an instant orders as the
    instant: for two valid instants at the same UTC offset (or both naive),
    comparing the texts of [_serialize_datetime] gives the calendar order of
    the two, down to the second. The [next_run_at <= ?] test of the queue
    relies on it. *)
Theorem serialized_instants_order (a b : datetime) :
  valid_datetime a = true → valid_datetime b = true →
  dt_tzinfo a = dt_tzinfo b →
  String.compare (_serialize_datetime a) (_serialize_datetime b)
  = civil_compare a b.
Proof.
  unfold valid_datetime, valid_date. intros Ha Hb Htz.
  repeat (apply andb_prop in Ha as [Ha ?]).
  repeat (apply andb_prop in Hb as [Hb ?]).
  destruct a as [y mo d h mi s us tz], b as [y' mo' d' h' mi' s' us' tz'].
  cbn [dt_year dt_month dt_day dt_hour dt_minute dt_second dt_microsecond
       dt_tzinfo] in *. subst tz'.
  assert (Hd : d <= 31) by (unfold days_in_month in *; repeat case_match; lia).
  assert (Hd' : d' <= 31) by (unfold days_in_month in *; repeat case_match; lia).
  unfold _serialize_datetime, isoformat, replace_microsecond0, datetime_chars,
    date_chars, civil_compare.
  cbn [dt_year dt_month dt_day dt_hour dt_minute dt_second dt_microsecond
       dt_tzinfo Z.eqb app].
  change (String.compare (to_string ?l1) (to_string ?l2))
    with (text_compare l1 l2).
  repeat first [rewrite <- app_assoc | progress cbn [app]].
  rewrite pad4_compare by lia. f_equal.
  do 4 (rewrite text_compare_same, pad2_compare by lia; f_equal).
  rewrite text_compare_same, pad2_compare by lia.
  unfold text_compare. rewrite string_compare_refl. apply lex_Eq_r.
Qed.

Lemma serialized_instants_order_witness :
  String.compare (_serialize_datetime (Samples.at_minute 9 999999))
    (_serialize_datetime (Samples.at_minute 10 0)) = Lt.
Proof.
  rewrite (serialized_instants_order (Samples.at_minute 9 999999)
             (Samples.at_minute 10 0)); reflexivity.
Defined.

(** Across offsets the texts do not order as the instants: 10:00 at +02:00
    is an hour before 09:00 UTC, and its text comes after. *)
Example mixed_offsets_misorder :
  String.compare
    (_serialize_datetime (mk_datetime 2025 11 7 10 0 0 0 (Some 7200)))
    (_serialize_datetime (mk_datetime 2025 11 7 9 0 0 0 (Some 0))) = Gt.
Proof. reflexivity. Qed.

End InstantOrder.

(** ** The retry queue: a failed job waits for its next run *)

Section RetryAfterFailure.
Import Iso Calendar RetryQueue.
Local Open Scope Z_scope.

Lemma leb_compare (s1 s2 : string) :
  String.leb s1 s2 = true ↔ String.compare s1 s2 ≠ Gt.
Proof. unfold String.leb. by destruct (String.compare s1 s2). Qed.

Lemma mark_failure_by_holder
    (db : retry_jobs) (job_id : Z) (r : Row.t) (lock_id error : string)
    (next_run_at : datetime) :
  lock_id ≠ "" → rows db !! job_id = Some r → Row.locked_by r = Some lock_id →
  snd (mark_failure job_id lock_id error next_run_at db)
  = mk_table
      (<[job_id := Row.mk (Row.thread_id r) (Row.payload r) (Row.attempts r + 1)
                     (_serialize_datetime next_run_at) (Some error) None None]>
         (rows db))
      (sqlite_sequence db).
Proof.
  intros Hne Hr Hlock. unfold mark_failure, sql_record_failure.
  rewrite (proj2 (truthy_true_iff _) Hne). cbn [negb]. rewrite Hr.
  rewrite bool_decide_eq_true_2 by done. cbn [Z.eqb].
  unfold sql_select_by_id. cbn [rows]. by rewrite lookup_insert_eq.
Qed.

(** X7. After the holder's [mark_failure] the job waits for the
    [next_run_at] it was given. For an acquisition at [now], both instants
    valid and at the same UTC offset: while [next_run_at] is later than
    [now], down to the second, no worker is handed the job; from then on
    its row is unlocked and due. *)
Theorem failed_job_waits_for_next_run
    (db : retry_jobs) (job_id : Z) (r : Row.t) (lock_id error : string)
    (next_run_at now : datetime) :
  lock_id ≠ "" →
  rows db !! job_id = Some r → Row.locked_by r = Some lock_id →
  valid_datetime next_run_at = true → valid_datetime now = true →
  dt_tzinfo next_run_at = dt_tzinfo now →
  (civil_compare next_run_at now = Gt →
     ∀ worker clock job db',
       acquire_due_job worker (Some now) clock
         (snd (mark_failure job_id lock_id error next_run_at db))
       = (Ok (Some job), db') →
       RetryJob.id job ≠ Some job_id)
  ∧ (civil_compare next_run_at now ≠ Gt →
     ∃ r', rows (snd (mark_failure job_id lock_id error next_run_at db)) !! job_id
           = Some r'
           ∧ is_due (_serialize_datetime now) r' = true).
Proof.
  intros Hne Hr Hlock Hvt Hvn Htz.
  rewrite (mark_failure_by_holder db job_id r lock_id error next_run_at) by done.
  pose proof (serialized_instants_order next_run_at now Hvt Hvn Htz) as Horder.
  split.
  - intros Hlater worker clock job db' Hacq Hid.
    apply acquire_due_job_selected in Hacq as (J & r' & Hsel & Hr' & Hj & _).
    apply _row_to_job_id in Hj as (Hid' & _).
    assert (J = job_id) as -> by congruence.
    apply sql_select_due_Some in Hsel as (r0 & Hr0 & Hdue & _).
    assert (r0 = r') as -> by congruence.
    change (default clock (Some now)) with now in Hdue.
    cbn [rows] in Hr'. rewrite lookup_insert_eq in Hr'.
    injection Hr' as <-.
    apply is_due_unlocked in Hdue as [_ Hdue]. cbn [Row.next_run_at] in Hdue.
    apply leb_compare in Hdue. congruence.
  - intros Hnot. eexists. cbn [rows]. rewrite lookup_insert_eq.
    split; [reflexivity|]. apply is_due_unlocked. split; [done|].
    cbn [Row.next_run_at]. apply leb_compare. congruence.
Qed.

Lemma failed_job_waits_for_next_run_witness :
  let db := snd (acquire_due_job "worker-a" None (Samples.at_minute 5 0)
                   Samples.two_jobs) in
  let db' := snd (mark_failure 1 "worker-a" "503" (Samples.at_minute 7 0) db) in
  (∀ worker clock job db'',
     acquire_due_job worker (Some (Samples.at_minute 6 0)) clock db'
     = (Ok (Some job), db'') →
     RetryJob.id job ≠ Some 1)
  ∧ ∃ r', rows db' !! 1 = Some r'
          ∧ is_due (_serialize_datetime (Samples.at_minute 7 0)) r' = true.
Proof.
  intros db db'. split.
  - apply (failed_job_waits_for_next_run db 1
             (Row.mk "thread-due" (JObj [("journal_entry", JStr "thread-due")]) 0
                "2025-11-07T09:00:00+00:00" None (Some "worker-a")
                (Some "2025-11-07T09:05:00+00:00"))
             "worker-a" "503" (Samples.at_minute 7 0) (Samples.at_minute 6 0));
      first [done | reflexivity].
  - apply (failed_job_waits_for_next_run db 1
             (Row.mk "thread-due" (JObj [("journal_entry", JStr "thread-due")]) 0
                "2025-11-07T09:00:00+00:00" None (Some "worker-a")
                (Some "2025-11-07T09:05:00+00:00"))
             "worker-a" "503" (Samples.at_minute 7 0) (Samples.at_minute 7 0));
      first [done | reflexivity].
Defined.

End RetryAfterFailure.

(** ** The conversation state: the rolling window of messages *)

Section MessageWindow.
Import ConversationState Window.

Lemma last_messages_length (l : list HumanMessage.t) :
  (length (last_messages l) ≤ MAX_RECENT_MESSAGES)%nat.
Proof. unfold last_messages, MAX_RECENT_MESSAGES. rewrite length_drop. lia. Qed.

Lemma last_messages_short (l : list HumanMessage.t) :
  (length l ≤ MAX_RECENT_MESSAGES)%nat → last_messages l = l.
Proof.
  intros Hl. unfold last_messages.
  by replace (length l - MAX_RECENT_MESSAGES) with 0 by lia.
Qed.

Lemma last_messages_app (l k : list HumanMessage.t) :
  last_messages (last_messages l ++ k) = last_messages (l ++ k).
Proof.
  unfold last_messages, MAX_RECENT_MESSAGES.
  destruct (decide (length l ≤ 6)%nat) as [Hle|Hgt].
  - by replace (length l - 6)%nat with 0%nat by lia.
  - rewrite <- (drop_app_le l k (length l - 6)) by lia.
    rewrite drop_drop, length_drop, !length_app. f_equal. lia.
Qed.

Lemma append_message_messages (m : HumanMessage.t) (s : t) :
  messages (append_message m s) = last_messages (messages s ++ [m]).
Proof.
  unfold append_message. cbv zeta.
  destruct (_ <? _)%nat eqn:Hlen; cbn [set_messages messages]; [done|].
  symmetry. apply last_messages_short. apply Nat.ltb_ge in Hlen. lia.
Qed.

Lemma append_message_frame (m : HumanMessage.t) (s : t) :
  set_messages (messages s) (append_message m s) = s.
Proof.
  unfold append_message. cbv zeta. destruct (_ <? _)%nat; by destruct s.
Qed.

Lemma append_messages_messages (ms : list HumanMessage.t) (s : t) :
  messages (append_messages ms s)
  = match ms with
    | [] => messages s
    | _ => last_messages (messages s ++ ms)
    end.
Proof.
  revert s. induction ms as [|m ms IH]; intros s; [done|].
  cbn [append_messages foldl]. fold (append_messages ms (append_message m s)).
  rewrite IH, append_message_messages. destruct ms as [|m' ms]; [done|].
  rewrite last_messages_app. by rewrite <- app_assoc.
Qed.

Lemma append_messages_frame (ms : list HumanMessage.t) (s : t) :
  set_messages (messages s) (append_messages ms s) = s.
Proof.
  revert s. induction ms as [|m ms IH]; intros s; [by destruct s|].
  cbn [append_messages foldl]. fold (append_messages ms (append_message m s)).
  transitivity (set_messages (messages s)
                  (set_messages (messages (append_message m s))
                     (append_messages ms (append_message m s)))); [done|].
  rewrite IH. apply append_message_frame.
Qed.

(** X8. The message history is a rolling window. A state as its constructor
    leaves it, after any number of [append_message] calls, holds the last
    [MAX_RECENT_MESSAGES] of all the messages it was given, in their order,
    never more than six; no other field changes. *)
Theorem messages_rolling_window (ms : list HumanMessage.t) (s : t) :
  messages (append_messages ms (post_init s)) = last_messages (messages s ++ ms)
  ∧ (length (messages (append_messages ms (post_init s))) ≤ MAX_RECENT_MESSAGES)%nat
  ∧ set_messages (messages s) (append_messages ms (post_init s)) = s.
Proof.
  assert (Hm : messages (append_messages ms (post_init s))
               = last_messages (messages s ++ ms)).
  { rewrite append_messages_messages. unfold post_init.
    cbn [set_messages messages]. destruct ms as [|m ms].
    - by rewrite app_nil_r.
    - apply last_messages_app. }
  split; [done|]. split; [rewrite Hm; apply last_messages_length|].
  transitivity (set_messages (messages s)
                  (set_messages (messages (post_init s))
                     (append_messages ms (post_init s)))); [done|].
  rewrite append_messages_frame. unfold post_init. by destruct s.
Qed.

End MessageWindow.

(** ** The parser and the ranker: tokens and candidates *)

Section TokenFacts.
Import PyStr Regex Parsing Shape.

Lemma runs_go_shape (p : ascii → bool) (cur l : chars) :
  Forall (λ c, p c = true) cur →
  Forall (λ r, r ≠ [] ∧ Forall (λ c, p c = true) r) (runs_go p cur l).
Proof.
  revert cur. induction l as [|c t IH]; intros cur Hcur; cbn [runs_go].
  - destruct cur as [|x cur]; [constructor|].
    constructor; [|constructor]. split.
    + intros Hnil. apply (f_equal (@length ascii)) in Hnil.
      rewrite length_rev in Hnil. discriminate.
    + by apply Forall_rev.
  - destruct (p c) eqn:Hc; [apply IH; by constructor|].
    destruct cur as [|x cur]; [by apply IH|].
    constructor; [|by apply IH]. split.
    + intros Hnil. apply (f_equal (@length ascii)) in Hnil.
      rewrite length_rev in Hnil. discriminate.
    + by apply Forall_rev.
Qed.

Lemma runs_tokens (l : chars) :
  Forall is_token (map to_string (runs token_char l)).
Proof.
  apply Forall_map. eapply Forall_impl; [apply runs_go_shape; constructor|].
  intros r [Hne Hall]. split.
  - destruct r; [done|discriminate].
  - unfold of_string, to_string. by rewrite list_ascii_of_string_of_list_ascii.
Qed.

Lemma dedup_keywords_spec (seen l : list string) :
  NoDup (dedup_keywords seen l)
  ∧ Forall (λ k, (k ∉ _STOPWORDS) ∧ (k ∉ seen) ∧ k ∈ l) (dedup_keywords seen l).
Proof.
  revert seen. induction l as [|token t IH]; intros seen; cbn [dedup_keywords].
  - split; constructor.
  - destruct (bool_decide (token ∈ _STOPWORDS)) eqn:Hstop; cbn [orb].
    { destruct (IH seen) as [Hnd Hall]. split; [done|].
      eapply Forall_impl; [exact Hall|]. intros k (? & ? & ?).
      repeat split; try done. by right. }
    destruct (bool_decide (token ∈ seen)) eqn:Hseen.
    { destruct (IH seen) as [Hnd Hall]. split; [done|].
      eapply Forall_impl; [exact Hall|]. intros k (? & ? & ?).
      repeat split; try done. by right. }
    apply bool_decide_eq_false_1 in Hstop, Hseen.
    destruct (IH (seen ++ [token])%list) as [Hnd Hall]. split.
    + constructor; [|done]. intros Hin.
      rewrite Forall_forall in Hall. destruct (Hall _ Hin) as (_ & Hnot & _).
      apply Hnot. apply elem_of_app. right. by left.
    + constructor; [repeat split; try done; by left|].
      eapply Forall_impl; [exact Hall|]. intros k (? & Hnot & ?).
      repeat split; try done.
      * intros Hk. apply Hnot. apply elem_of_app. by left.
      * by right.
Qed.

Lemma add_new_spec (tokens l : list string) (P : string → Prop) :
  NoDup tokens → Forall P tokens → Forall P l →
  NoDup (add_new tokens l) ∧ Forall P (add_new tokens l).
Proof.
  revert tokens. induction l as [|token t IH]; intros tokens Hnd Hall Hl;
    cbn [add_new]; [done|].
  apply Forall_cons in Hl as [Htoken Hl].
  destruct (truthy token && negb (bool_decide (token ∈ tokens))) eqn:Hnew;
    [|by apply IH].
  apply andb_prop in Hnew as [_ Hnew]. apply negb_true_iff in Hnew.
  apply bool_decide_eq_false_1 in Hnew.
  apply IH; [|apply Forall_app; split; [done|by constructor]|done].
  apply NoDup_app. split; [done|]. split; [|apply NoDup_singleton].
  intros x Hx Hx'. apply list_elem_of_singleton in Hx'. by subst.
Qed.

Lemma _normalize_query_terms_list (terms : list string) :
  NoDup (_normalize_query_terms (query_terms terms))
  ∧ Forall is_token (_normalize_query_terms (query_terms terms)).
Proof.
  unfold _normalize_query_terms.
  assert (Hgen : ∀ tokens, NoDup tokens → Forall is_token tokens →
            NoDup (foldl (λ tokens term,
                            if truthy term then add_new tokens (tokens_of term)
                            else tokens) tokens terms)
            ∧ Forall is_token
                (foldl (λ tokens term,
                          if truthy term then add_new tokens (tokens_of term)
                          else tokens) tokens terms)).
  { induction terms as [|term terms IH]; intros tokens Hnd Hall; cbn [foldl];
      [done|].
    destruct (truthy term); [|by apply IH].
    destruct (add_new_spec tokens (tokens_of term) is_token Hnd Hall
                (runs_tokens _)) as [Hnd' Hall'].
    by apply IH. }
  apply Hgen; constructor.
Qed.

(** X9. Keywords and query tokens. The keywords of a message are distinct,
    none is a stop word, and each is a run of characters of [a-z0-9]. The
    tokens of a query given as a list of terms are distinct runs of that
    kind too; those of a query given as one string are such runs, with
    repetitions kept. *)
Theorem keywords_and_query_tokens (text : chars) (terms : list string) (s : string) :
  (NoDup (_extract_keywords text)
   ∧ Forall (λ k, is_token k ∧ k ∉ _STOPWORDS) (_extract_keywords text))
  ∧ (NoDup (_normalize_query_terms (query_terms terms))
     ∧ Forall is_token (_normalize_query_terms (query_terms terms)))
  ∧ Forall is_token (_normalize_query_terms (query_str s)).
Proof.
  split; [|split].
  - unfold _extract_keywords.
    destruct (dedup_keywords_spec [] (map to_string (runs token_char text)))
      as [Hnd Hall].
    split; [done|]. eapply Forall_impl; [exact Hall|].
    intros k (Hstop & _ & Hin). split; [|done].
    pose proof (runs_tokens text) as Htok. rewrite Forall_forall in Htok.
    by apply Htok.
  - apply _normalize_query_terms_list.
  - cbn [_normalize_query_terms].
    pose proof (runs_tokens (of_string (lower s))) as Htok.
    rewrite Forall_forall in Htok. apply Forall_forall. intros k Hk.
    apply Htok. apply list_elem_of_In in Hk. apply filter_In in Hk as [Hk _].
    by apply list_elem_of_In.
Qed.

Example query_string_keeps_repetitions :
  _normalize_query_terms (query_str "Taxi, taxi!") = ["taxi"; "taxi"]
  ∧ _normalize_query_terms (query_terms ["Taxi, taxi!"; "TAXI fare"])
    = ["taxi"; "fare"].
Proof. vm_compute. split; reflexivity. Qed.

End TokenFacts.

Section CandidateFacts.
Import PyStr Parsing Shape.
Context `{Fuzz}.

Lemma score_accounts_codes (tokens : list string) (combined : string)
    (min_confidence : Q) (seen : gset string) (accounts : list AccountRow.t)
    (scored : list AccountCandidate.t) :
  score_accounts tokens combined min_confidence seen accounts = Ok scored →
  NoDup (AccountCandidate.account_code <$> scored)
  ∧ Forall (λ c, (AccountCandidate.account_code c ∉ seen)
                 ∧ (∃ row, row ∈ accounts ∧ made_from row c)) scored.
Proof.
  revert seen scored. induction accounts as [|record rest IH];
    intros seen scored; cbn [score_accounts].
  - intros [= <-]. split; constructor.
  - cbv zeta.
    assert (Hskip : score_accounts tokens combined min_confidence seen rest
                    = Ok scored →
              NoDup (AccountCandidate.account_code <$> scored)
              ∧ Forall (λ c, (AccountCandidate.account_code c ∉ seen)
                             ∧ (∃ row, row ∈ record :: rest ∧ made_from row c))
                  scored).
    { intros Hs. destruct (IH _ _ Hs) as [Hnd Hall]. split; [done|].
      eapply Forall_impl; [exact Hall|]. intros c (Hc & row & Hrow & Hmade).
      split; [done|]. exists row. split; [by right | done]. }
    destruct (negb (truthy (row_name record))) eqn:Hname; cbn [orb]; [done|].
    destruct (negb (truthy (row_code record))) eqn:Hcode; cbn [orb]; [done|].
    destruct (bool_decide (row_code record ∈ seen)) eqn:Hseen; [done|].
    destruct (negb (Qle_bool _ _)); [done|].
    destruct (AccountCandidate.make _ _ _ _) as [candidate|] eqn:Hc; [|done].
    destruct (score_accounts _ _ _ (_ ∪ _) rest) as [tail|] eqn:Ht; [|done].
    intros [= <-].
    assert (Hcand : AccountCandidate.account_name candidate = row_name record
                    ∧ AccountCandidate.account_code candidate = row_code record).
    { unfold AccountCandidate.make, AccountCandidate.post_init in Hc.
      destruct (negb (unit_interval _)); [done|]. by injection Hc as <-. }
    destruct Hcand as [Hn Hcd].
    apply negb_false_iff, truthy_true_iff in Hname, Hcode.
    apply bool_decide_eq_false_1 in Hseen.
    destruct (IH _ _ Ht) as [Hnd Hall]. split.
    + cbn [fmap list_fmap]. constructor; [|done].
      rewrite Hcd. intros Hin. apply list_elem_of_fmap in Hin as (c & Hcc & Hin).
      rewrite Forall_forall in Hall. destruct (Hall c Hin) as [Hnot _].
      apply Hnot. rewrite <- Hcc. set_solver.
    + constructor.
      * split; [by rewrite Hcd|]. exists record. split; [by left|].
        by repeat split.
      * eapply Forall_impl; [exact Hall|].
        intros c (Hnot & row & Hrow & Hmade). split; [set_solver|].
        exists row. split; [by right | done].
Qed.

(** X10. The candidates of a ranking are rows of the chart, each at most
    once: no two have the same account code, and each carries the trimmed
    name and code of a row of [accounts], neither of them empty. *)
Theorem ranked_candidates_come_from_chart
    (q : query) (accounts : list AccountRow.t) (limit : Z) (min_confidence : Q)
    (out : list AccountCandidate.t) :
  rank_account_candidates q accounts limit min_confidence = Ok out →
  NoDup (AccountCandidate.account_code <$> out)
  ∧ Forall (λ c, ∃ row, row ∈ accounts ∧ made_from row c) out.
Proof.
  unfold rank_account_candidates, scored_candidates.
  destruct (_normalize_query_terms q) as [|token tokens] eqn:Htokens.
  { intros [= <-]. split; constructor. }
  destruct (score_accounts _ _ _ _ _) as [scored|] eqn:Hscored; [|done].
  intros [= <-].
  destruct (score_accounts_codes _ _ _ _ _ _ Hscored) as [Hnd Hall].
  pose proof (truncate_prefix limit (sort_desc scored)) as Hpre.
  split.
  - assert (Hsorted : NoDup (AccountCandidate.account_code <$> sort_desc scored))
      by (by rewrite sort_desc_Permutation).
    destruct Hpre as [t Ht]. rewrite Ht, fmap_app in Hsorted.
    by apply NoDup_app in Hsorted as [? _].
  - eapply prefix_Forall; [exact Hpre|]. apply sort_desc_Forall.
    eapply Forall_impl; [exact Hall|]. by intros c (_ & ?).
Qed.

End CandidateFacts.

Lemma ranked_candidates_come_from_chart_witness :
  NoDup (AccountCandidate.account_code
           <$> [AccountCandidate.mk "Taxi" "5110" (10000 # 10000) "Matched 'Taxi'"])
  ∧ Forall (λ c, ∃ row,
               row ∈ (Samples.chart
                        ++ [AccountRow.mk (Some "Taxi fares") None (Some " 5110 ")
                              None None])%list
               ∧ Shape.made_from row c)
      [AccountCandidate.mk "Taxi" "5110" (10000 # 10000) "Matched 'Taxi'"].
Proof.
  apply (ranked_candidates_come_from_chart (H := Samples.exact_fuzz)
           (Parsing.query_terms ["taxi"])
           (Samples.chart
              ++ [AccountRow.mk (Some "Taxi fares") None (Some " 5110 ")
                    None None])%list 5 (1 # 2)).
  vm_compute. reflexivity.
Defined.

(** ** Drafting: from a message to a draft *)

Section DraftingFacts.
Import PyStr Parsing ConversationState Drafting.

Lemma parse_expense_text_fields (message : string) (dc sid : option string)
    (p : ParsedExpense.t) :
  parse_expense_text message dc sid = Ok p →
  ParsedExpense.missing_fields p
  = missing_if (ParsedExpense.amount p) "amount"
    ∪ missing_if (ParsedExpense.debit_hint p) "debit_account"
    ∪ missing_if (ParsedExpense.credit_hint p) "credit_account"
  ∧ ParsedExpense.narration p = strip message
  ∧ ParsedExpense.source_message_id p = sid.
Proof.
  unfold parse_expense_text.
  destruct (_extract_amount_and_currency _ _) as [[amount currency] amount_span].
  destruct (_extract_debit_hint _) as [debit_hint debit_span].
  destruct (_extract_credit_hint _ _ _ _) as [credit_hint|]; [|done].
  by intros [= <-].
Qed.

Lemma sorted_missing_fields (message : string) (dc sid : option string)
    (p : ParsedExpense.t) :
  parse_expense_text message dc sid = Ok p →
  sorted (ParsedExpense.missing_fields p) = open_fields p
  ∧ bool_decide (ParsedExpense.missing_fields p ≠ ∅)
    = negb (bool_decide (open_fields p = [])).
Proof.
  intros Hp. apply parse_expense_text_fields in Hp as (-> & _ & _).
  unfold open_fields.
  destruct (ParsedExpense.amount p), (ParsedExpense.debit_hint p),
    (ParsedExpense.credit_hint p); cbn [missing_if]; split; by vm_compute.
Qed.

Lemma _placeholder_account_ok (hint : option string) (role : AccountRole) :
  ∃ code name,
    _placeholder_account hint role = Ok (AccountMatch.mk code name 0)
    ∧ code ≠ "" ∧ name ≠ "".
Proof.
  unfold _placeholder_account. cbv zeta.
  eexists _, _. split; [reflexivity|]. split.
  - destruct (truthy (replace _ _ _)) eqn:Hc;
      [by apply truthy_true_iff|by destruct role].
  - destruct (truthy _) eqn:Hl; [by apply truthy_true_iff|by destruct role].
Qed.



(** The currency of a message: a symbol or a code next to the amount, else
    the default. *)
Example currency_examples :
  let currency_of message default_currency :=
    match parse_expense_text message default_currency None with
    | Ok p => ParsedExpense.currency p
    | Raise _ => Some "raised"
    end in
  currency_of "Paid $10 cash for taxi" (Some "EUR") = Some "USD"
  ∧ currency_of "usd 1,234.50 on lunch, with card" (Some "EUR") = Some "USD"
  ∧ currency_of "spent 12.5eur on tomato soup with card" None = Some "EUR"
  ∧ currency_of "spent 12.5 on tomato soup with card" (Some "COP") = Some "COP"
  ∧ currency_of "spent 12.5 on tomato soup with card" None = None
  ∧ currency_of "no amount here" (Some "COP") = Some "COP".
Proof. vm_compute. repeat split. Qed.

(** Extra fields are merged into the posting payload: a new key is added at
    the end, a known key gets the new value. *)
Example extra_payload_is_merged :
  Posting._build_journal_entry_payload Samples.draft
    (Some [("company", PyStr "HQ"); ("user_remark", PyStr "taxi to airport")])
  = PyDict
      [("posting_date", PyStr "2025-11-07");
       ("user_remark", PyStr "taxi to airport");
       ("accounts",
        PyList
          [PyDict [("account", PyStr "5110");
                   ("debit_in_account_currency", PyFloat (1000 # 100));
                   ("credit_in_account_currency", PyFloat 0)];
           PyDict [("account", PyStr "1000");
                   ("debit_in_account_currency", PyFloat 0);
                   ("credit_in_account_currency", PyFloat (1000 # 100))]]);
       ("company", PyStr "HQ")].
Proof. reflexivity. Qed.



End DraftingFacts.

(** ** Drafting: choosing the accounts of a draft *)

Section SelectionFacts.
Import PyStr Parsing ConversationState Drafting Shape.
Context `{Fuzz}.
Local Open Scope Q_scope.











(** X15. [select_accounts_for_draft] checks its arguments before it reads
    or writes anything, in this order: a draft must exist; the selection
    threshold must lie in (0, 1]; the minimum confidence in [0, 1]; the
    number of suggestions must be positive. Each failure is a [ValueError]
    of its own and leaves the state as it was. *)
Theorem select_accounts_for_draft_rejects
    (chart : option (list AccountRow.t)) (threshold min_confidence : Q)
    (max_suggestions : Z) (debit_choice credit_choice : option string)
    (state : t) :
  let run :=
    select_accounts_for_draft chart threshold min_confidence max_suggestions
      debit_choice credit_choice state in
  (expense_draft state = None →
     run = (Raise (ValueError "Cannot resolve accounts without an expense draft."),
            state))
  ∧ (is_Some (expense_draft state) →
     (threshold <= 0 ∨ 1 < threshold →
        run = (Raise (ValueError "auto_select_threshold must be between 0 and 1."),
               state))
     ∧ (0 < threshold ∧ threshold <= 1 →
        (min_confidence < 0 ∨ 1 < min_confidence →
           run = (Raise (ValueError
                           "min_candidate_confidence must be between 0 and 1."),
                  state))
        ∧ (0 <= min_confidence ∧ min_confidence <= 1 →
           (max_suggestions <= 0)%Z →
           run = (Raise (ValueError "max_suggestions must be a positive integer."),
                  state)))).
Proof.
  cbv zeta. unfold select_accounts_for_draft. split.
  - by intros ->.
  - intros [draft ->].
    assert (Hno : ∀ a b, ¬ a <= b → Qle_bool a b = false).
    { intros a b Hab. destruct (Qle_bool a b) eqn:Hle; [|done].
      by apply Qle_bool_iff in Hle. }
    split.
    + intros [Hlow | Hhigh].
      * by rewrite (proj2 (Qle_bool_iff _ _) Hlow).
      * rewrite (Hno threshold 1) by lra. by rewrite andb_false_r.
    + intros [Ht0 Ht1]. rewrite (Hno threshold 0) by lra.
      rewrite (proj2 (Qle_bool_iff _ _) Ht1). cbn [negb andb].
      split.
      * intros [Hlow | Hhigh].
        -- by rewrite (Hno 0 min_confidence) by lra.
        -- rewrite (Hno min_confidence 1) by lra. by rewrite andb_false_r.
      * intros [Hm0 Hm1] Hmax.
        rewrite (proj2 (Qle_bool_iff _ _) Hm0), (proj2 (Qle_bool_iff _ _) Hm1).
        cbn [negb andb]. by rewrite (proj2 (Z.leb_le _ _) Hmax).
Qed.

End SelectionFacts.



Lemma select_accounts_for_draft_rejects_witness :
  Drafting.select_accounts_for_draft (H := Samples.exact_fuzz) (Some Samples.chart)
    0 Drafting.MIN_CANDIDATE_CONFIDENCE Drafting.MAX_ACCOUNT_SUGGESTIONS None None
    Scenes.drafted
  = (Raise (ValueError "auto_select_threshold must be between 0 and 1."),
     Scenes.drafted)
  ∧ Drafting.select_accounts_for_draft (H := Samples.exact_fuzz)
      (Some Samples.chart) Drafting.AUTO_SELECTION_THRESHOLD
      Drafting.MIN_CANDIDATE_CONFIDENCE 0 None None Scenes.drafted
    = (Raise (ValueError "max_suggestions must be a positive integer."),
       Scenes.drafted).
Proof.
  split.
  - apply (select_accounts_for_draft_rejects (H := Samples.exact_fuzz)
             (Some Samples.chart) 0 Drafting.MIN_CANDIDATE_CONFIDENCE
             Drafting.MAX_ACCOUNT_SUGGESTIONS None None Scenes.drafted).
    + by eexists.
    + left. by vm_compute.
  - apply (select_accounts_for_draft_rejects (H := Samples.exact_fuzz)
             (Some Samples.chart) Drafting.AUTO_SELECTION_THRESHOLD
             Drafting.MIN_CANDIDATE_CONFIDENCE 0 None None Scenes.drafted).
    + by eexists.
    + split; by vm_compute.
    + split; by vm_compute.
    + done.
Defined.

(** ** The nodes of the graph and one turn *)

Section FlowFacts.
Import PyStr Parsing ConversationState Drafting Nodes Builder Flow.
Context `{Fuzz}.

Lemma record_error_frame (message : string) (s : t) :
  set_error_log (error_log s) (record_error message s) = s
  ∧ error_log s `prefix_of` error_log (record_error message s).
Proof.
  unfold record_error. destruct (truthy message).
  - split; [by destruct s|]. cbn. by apply prefix_app_r.
  - split; [by destruct s|done].
Qed.

Lemma _resolve_account_frame (role : AccountRole)
    (candidates : list AccountCandidate.t) (threshold : Q)
    (choice : option string) (state state' : t) (r : result bool) :
  _resolve_account role candidates threshold choice state = (r, state') →
  state' = state
  ∨ ∃ draft draft', expense_draft state = Some draft
                    ∧ state' = set_expense_draft (Some draft') state.
Proof.
  unfold _resolve_account.
  destruct (if truthy (default "" choice) then _ else _) as [chosen|].
  - destruct (AccountMatch.make _ _ _).
    + destruct (expense_draft state) as [draft|] eqn:Hdraft.
      * intros [= <- <-]. right. by eexists _, _.
      * intros [= <- <-]. by left.
    + intros [= <- <-]. by left.
  - intros [= <- <-]. by left.
Qed.

Lemma resolution_keeps_refl (s : t) : resolution_keeps s s.
Proof. by repeat split. Qed.

Lemma resolution_keeps_trans (s1 s2 s3 : t) :
  resolution_keeps s1 s2 → resolution_keeps s2 s3 → resolution_keeps s1 s3.
Proof.
  unfold resolution_keeps. intros (?&?&?&?&?&?&?&?) (?&?&?&?&?&?&?&?).
  repeat split; congruence.
Qed.

(** What [select_accounts_for_draft] leaves alone, whatever it returns. *)
Lemma select_accounts_for_draft_frame
    (chart : option (list AccountRow.t)) (threshold min_confidence : Q)
    (max_suggestions : Z) (debit_choice credit_choice : option string)
    (state state' : t)
    (r : result (list AccountCandidate.t * list AccountCandidate.t)) :
  select_accounts_for_draft chart threshold min_confidence max_suggestions
    debit_choice credit_choice state = (r, state') →
  resolution_keeps state state'
  ∧ chart_of_accounts_override state' = chart_of_accounts_override state
  ∧ (is_Some (expense_draft state') ↔ is_Some (expense_draft state))
  ∧ error_log state `prefix_of` error_log state'.
Proof.
  unfold select_accounts_for_draft.
  destruct (expense_draft state) as [draft|] eqn:Hdraft;
    [|intros [= <- <-]; rewrite Hdraft; by repeat split].
  assert (Hsame : resolution_keeps state state
                  ∧ chart_of_accounts_override state = chart_of_accounts_override state
                  ∧ (is_Some (expense_draft state) ↔ is_Some (Some draft))
                  ∧ error_log state `prefix_of` error_log state).
  { rewrite Hdraft. by repeat split. }
  destruct (negb (negb (Qle_bool threshold 0) && Qle_bool threshold 1));
    [by intros [= <- <-]|].
  destruct (negb (Qle_bool 0 min_confidence && Qle_bool min_confidence 1));
    [by intros [= <- <-]|].
  destruct (max_suggestions <=? 0)%Z; [by intros [= <- <-]|].
  cbv zeta.
  destruct (parse_expense_text _ _ _) as [parsed|]; [|by intros [= <- <-]].
  destruct (_rank_candidates (ParsedExpense.debit_hint parsed) _ _ _ _)
    as [debit_candidates|]; [|by intros [= <- <-]].
  destruct (_rank_candidates (ParsedExpense.credit_hint parsed) _ _ _ _)
    as [credit_candidates|]; [|by intros [= <- <-]].
  destruct (_resolve_account debit_account _ _ _ state) as [r1 s1] eqn:H1.
  apply _resolve_account_frame in H1.
  assert (Hs1 : resolution_keeps state s1
                ∧ chart_of_accounts_override s1 = chart_of_accounts_override state
                ∧ is_Some (expense_draft s1)
                ∧ error_log s1 = error_log state).
  { destruct H1 as [-> | (d & d' & _ & ->)].
    - rewrite Hdraft. by repeat split.
    - by repeat split. }
  destruct Hs1 as (Hk1 & Ho1 & Hd1 & He1).
  destruct r1 as [debit_resolved|];
    [|intros [= <- <-]; rewrite He1; by repeat (split; [done|])].
  destruct (_resolve_account credit_account _ _ _ s1) as [r2 s2] eqn:H2.
  apply _resolve_account_frame in H2.
  assert (Hs2 : resolution_keeps state s2
                ∧ chart_of_accounts_override s2 = chart_of_accounts_override state
                ∧ is_Some (expense_draft s2)
                ∧ error_log s2 = error_log state).
  { destruct H2 as [-> | (d & d' & _ & ->)]; [done|].
    split; [|by repeat split].
    eapply resolution_keeps_trans; [exact Hk1|by repeat split]. }
  destruct Hs2 as (Hk2 & Ho2 & Hd2 & He2).
  destruct r2 as [credit_resolved|];
    [|intros [= <- <-]; rewrite He2; by repeat (split; [done|])].
  intros [= <- <-].
  destruct Hk2 as (?&?&?&?&?&?&?&?).
  destruct debit_resolved, credit_resolved, (default [] chart);
    cbn [app map role_key]; unfold record_error; cbn - [prefix];
    rewrite ?He2; repeat split; try done; try (by eexists);
    by apply prefix_app_r.
Qed.

Lemma append_message_eq (m : HumanMessage.t) (s : t) :
  append_message m s = set_messages (last_messages (messages s ++ [m])) s.
Proof.
  unfold append_message. cbv zeta. destruct (_ <? _)%nat eqn:Hlen; [done|].
  rewrite last_messages_short; [done|]. apply Nat.ltb_ge in Hlen. lia.
Qed.

(** The entry node, case by case. *)
Lemma entry_node_cases (settings : Settings.t) (state : t) :
  (admitted settings state
   ∧ _create_entry_node settings state
     = (Ok tt,
        set_messages (last_messages (messages state ++ [recorded_message state]))
          state))
  ∨ (¬ admitted settings state
     ∧ ∃ e, _create_entry_node settings state = (Raise e, state)).
Proof.
  unfold _create_entry_node, admitted. cbv zeta.
  destruct (truthy (pending_text state)) eqn:Htext; cbn [negb].
  - apply truthy_true_iff in Htext.
    destruct (Settings.telegram_allowed_users settings) as [|u0 us] eqn:Hl.
    + left. split; [split; [done|by left]|].
      cbn. unfold _append_user_message. by rewrite append_message_eq.
    + rewrite allowed_users_nonempty by done. cbn [andb].
      unfold not_allowed. destruct (pending_user_id state) as [u|] eqn:Hu.
      * case_bool_decide as Hin; rewrite elem_of_list_to_set in Hin.
        -- right. split; [|by eexists].
           intros (_ & [? | (u' & [= <-] & Hin')]); done.
        -- left.
           split; [split; [done|right; by exists u]|].
           unfold _append_user_message. rewrite append_message_eq.
           unfold recorded_message. by rewrite Hu.
      * right. split; [|by eexists].
        intros (_ & [? | (u' & ? & _)]); done.
  - right. split; [|by eexists].
    intros [Hne _]. apply truthy_true_iff in Hne. congruence.
Qed.

(** What [parse_expense_message] leaves alone, and what it leaves behind,
    whatever it returns. *)
Lemma parse_expense_message_frame (today : date)
    (message default_currency : string) (source_message_id : option string)
    (state state' : t) (r : result ParsedExpense.t) :
  parse_expense_message today message default_currency source_message_id state
  = (r, state') →
  same_thread state state'
  ∧ error_log state' = error_log state
  ∧ match r with
    | Raise _ =>
        expense_draft state' = expense_draft state
        ∧ confirmation_status state' = confirmation_status state
    | Ok _ =>
        (expense_draft state' = None
         ∧ confirmation_status state' = confirmation_status state)
        ∨ (∃ draft, expense_draft state' = Some draft
                    ∧ AccountMatch.confidence (ExpenseDraft.debit_account draft)
                      = 0%Q
                    ∧ AccountMatch.confidence (ExpenseDraft.credit_account draft)
                      = 0%Q
                    ∧ confirmation_status state' = pending
                    ∧ clarifications_needed state' = []
                    ∧ account_candidates state' = [])
    end.
Proof.
  unfold parse_expense_message.
  destruct (parse_expense_text message (Some default_currency) source_message_id)
    as [p|] eqn:Hp; [|intros [= <- <-]; by repeat split].
  destruct (sorted_missing_fields _ _ _ _ Hp) as [-> ->].
  cbv zeta. case_bool_decide as Hopen; cbn [negb].
  - rewrite Hopen.
    destruct (ParsedExpense.amount p) as [amount|];
      [|intros [= <- <-]; repeat split; by left].
    destruct (ParsedExpense.debit_hint p) as [dh|];
      [|intros [= <- <-]; repeat split; by left].
    destruct (ParsedExpense.credit_hint p) as [ch|];
      [|intros [= <- <-]; repeat split; by left].
    destruct (_placeholder_account_ok (Some dh) debit_account)
      as (dcode & dname & -> & _).
    destruct (_placeholder_account_ok (Some ch) credit_account)
      as (ccode & cname & -> & _).
    unfold ExpenseDraft.post_init.
    cbn [ExpenseDraft.amount ExpenseDraft.narration].
    destruct (Decimal_le_zero amount); [intros [= <- <-]; by repeat split|].
    destruct (500 <? _)%nat; [intros [= <- <-]; by repeat split|].
    intros [= <- <-]. repeat split. right. eexists. by repeat split.
  - intros [= <- <-]. repeat split. by left.
Qed.

(** The parse node, whatever it returns. *)
Lemma _create_parse_node_frame (today : date) (settings : Settings.t)
    (state state' : t) (r : result unit) :
  _create_parse_node today settings state = (r, state') →
  thread_id state' = thread_id state
  ∧ messages state' = messages state
  ∧ conversation_summary state' = conversation_summary state
  ∧ pending_user_id state' = pending_user_id state
  ∧ chart_of_accounts_override state' = chart_of_accounts_override state
  ∧ error_log state' = error_log state
  ∧ match r with
    | Raise _ =>
        expense_draft state' = expense_draft state
        ∧ confirmation_status state' = confirmation_status state
        ∧ pending_message state' = pending_message state
        ∧ pending_message_id state' = pending_message_id state
    | Ok _ =>
        pending_message state' = None
        ∧ pending_message_id state' = None
        ∧ ((expense_draft state' = None
            ∧ confirmation_status state' = confirmation_status state)
           ∨ (∃ draft, expense_draft state' = Some draft
                       ∧ AccountMatch.confidence (ExpenseDraft.debit_account draft)
                         = 0%Q
                       ∧ AccountMatch.confidence
                           (ExpenseDraft.credit_account draft) = 0%Q
                       ∧ confirmation_status state' = pending
                       ∧ clarifications_needed state' = []
                       ∧ account_candidates state' = []))
    end.
Proof.
  unfold _create_parse_node. cbv zeta.
  destruct (negb (truthy (pending_text state)));
    [intros [= <- <-]; by repeat split|].
  destruct (parse_expense_message _ _ _ _ state) as [r0 s0] eqn:Hparse.
  apply parse_expense_message_frame in Hparse
    as ((?&?&?&?&?&?&?) & Herr & Hcase).
  destruct r0 as [parsed|e]; intros [= <- <-].
  - by repeat split.
  - destruct Hcase. by repeat split.
Qed.

Lemma _get_chart_override_cases (state : t) :
  _get_chart_override state
  = match chart_of_accounts_override state with
    | Some (row :: rows) =>
        (Some (row :: rows), set_chart_of_accounts_override None state)
    | _ => (None, state)
    end.
Proof.
  unfold _get_chart_override.
  by destruct (chart_of_accounts_override state) as [[|row rows]|].
Qed.

(** The resolve node and the chart tool. The node acts only on a state with
    a draft and nothing to clarify; otherwise it returns the state as it is
    and calls nothing. When it acts, it calls the chart tool at most once:
    not at all when the state carries override rows, which it uses and
    removes, and once otherwise. A call that raises, or a response without
    rows, adds one line to the error log and changes nothing else. *)
Lemma _create_resolve_node_outcome
    (invoke : result chart_payload) (state state' : t) (calls : list call) :
  _create_resolve_node invoke state = (state', calls) →
  resolution_keeps state state'
  ∧ (is_Some (expense_draft state') ↔ is_Some (expense_draft state))
  ∧ error_log state `prefix_of` error_log state'
  ∧ (expense_draft state = None ∨ clarifications_needed state ≠ [] →
     state' = state ∧ calls = [])
  ∧ (is_Some (expense_draft state) → clarifications_needed state = [] →
     match chart_of_accounts_override state with
     | Some (_ :: _) => calls = [] ∧ chart_of_accounts_override state' = None
     | _ =>
         calls = [call_chart_tool]
         ∧ chart_of_accounts_override state' = chart_of_accounts_override state
         ∧ match invoke with
           | Raise _ =>
               state'
               = set_error_log
                   (error_log state
                      ++ ["Unable to fetch the chart of accounts right now. Please try again."])%list
                   state
           | Ok response =>
               _parse_chart_rows response = None →
               state'
               = set_error_log
                   (error_log state ++ ["Chart of accounts response was empty."])%list
                   state
           end
     end).
Proof.
  unfold _create_resolve_node. cbv zeta.
  destruct (expense_draft state) as [draft|] eqn:Hdraft;
    [|intros [= <- <-]; rewrite Hdraft; repeat split; try done;
      intros [? [=]]].
  destruct (clarifications_needed state) as [|c cs] eqn:Hclar;
    [|intros [= <- <-]; rewrite Hdraft; repeat split; try done].
  rewrite _get_chart_override_cases.
  assert (Hselect : ∀ rows s0 s1,
            resolution_keeps state s0 →
            expense_draft s0 = Some draft →
            error_log s0 = error_log state →
            match select_accounts_for_draft (Some rows) AUTO_SELECTION_THRESHOLD
                    MIN_CANDIDATE_CONFIDENCE MAX_ACCOUNT_SUGGESTIONS None None s0
            with
            | (Raise _, s) =>
                record_error "Unable to resolve ledger accounts automatically." s
            | (Ok _, s) => s
            end = s1 →
            resolution_keeps state s1
            ∧ chart_of_accounts_override s1 = chart_of_accounts_override s0
            ∧ (is_Some (expense_draft s1) ↔ is_Some (Some draft))
            ∧ error_log state `prefix_of` error_log s1).
  { intros rows s0 s1 Hk0 Hd0 He0.
    destruct (select_accounts_for_draft _ _ _ _ _ _ s0) as [r s] eqn:Hsel.
    apply select_accounts_for_draft_frame in Hsel as (Hk & Ho & Hd & He).
    rewrite Hd0 in Hd. rewrite He0 in He.
    pose proof (resolution_keeps_trans _ _ _ Hk0 Hk) as Hk'.
    destruct r as [out|e]; intros <-; [done|].
    unfold record_error. cbn [truthy String.eqb negb].
    split; [exact Hk'|]. split; [done|]. split; [done|].
    cbn [set_error_log error_log]. etrans; [exact He|]. by apply prefix_app_r. }
  assert (Hfail : ∀ message,
            truthy message = true →
            resolution_keeps state (record_error message state)
            ∧ (is_Some (expense_draft (record_error message state))
               ↔ is_Some (Some draft))
            ∧ error_log state `prefix_of` error_log (record_error message state)
            ∧ chart_of_accounts_override (record_error message state)
              = chart_of_accounts_override state
            ∧ record_error message state
              = set_error_log (error_log state ++ [message])%list state).
  { intros message Hm. unfold record_error. rewrite Hm.
    cbn [set_error_log expense_draft error_log chart_of_accounts_override].
    rewrite Hdraft. repeat split; try done. by apply prefix_app_r. }
  destruct (chart_of_accounts_override state) as [[|row rows]|] eqn:Hover.
  - (* an override without rows *)
    destruct invoke as [response|e].
    + destruct (_parse_chart_rows response) as [rows|] eqn:Hrows.
      * intros [= Hs <-].
        destruct (Hselect rows state state' (resolution_keeps_refl _) Hdraft
                    eq_refl Hs) as (? & Ho & ? & ?).
        do 3 (split; [done|]). split; [by intros [[=] | ?]|]. intros _ _.
        split; [done|]. split; [congruence|done].
      * intros [= <- <-].
        destruct (Hfail "Chart of accounts response was empty.")
          as (? & ? & ? & Ho & Hs); [done|].
        do 3 (split; [done|]). split; [by intros [[=] | ?]|]. intros _ _.
        split; [done|]. split; [congruence|done].
    + intros [= <- <-].
      destruct (Hfail "Unable to fetch the chart of accounts right now. Please try again.")
        as (? & ? & ? & Ho & Hs); [done|].
      do 3 (split; [done|]). split; [by intros [[=] | ?]|]. intros _ _.
      split; [done|]. split; [congruence|done].
  - (* override rows *)
    intros [= Hs <-].
    destruct (Hselect (row :: rows) (set_chart_of_accounts_override None state)
                state') as (? & Ho & ? & ?); try done.
    do 3 (split; [done|]). split; [by intros [[=] | ?]|]. intros _ _.
    split; [done|exact Ho].
  - (* no override *)
    destruct invoke as [response|e].
    + destruct (_parse_chart_rows response) as [rows|] eqn:Hrows.
      * intros [= Hs <-].
        destruct (Hselect rows state state' (resolution_keeps_refl _) Hdraft
                    eq_refl Hs) as (? & Ho & ? & ?).
        do 3 (split; [done|]). split; [by intros [[=] | ?]|]. intros _ _.
        split; [done|]. split; [congruence|done].
      * intros [= <- <-].
        destruct (Hfail "Chart of accounts response was empty.")
          as (? & ? & ? & Ho & Hs); [done|].
        do 3 (split; [done|]). split; [by intros [[=] | ?]|]. intros _ _.
        split; [done|]. split; [congruence|done].
    + intros [= <- <-].
      destruct (Hfail "Unable to fetch the chart of accounts right now. Please try again.")
        as (? & ? & ? & Ho & Hs); [done|].
      do 3 (split; [done|]). split; [by intros [[=] | ?]|]. intros _ _.
      split; [done|]. split; [congruence|done].
Qed.

(** The confirmation node on a reply that is not blank. *)
Lemma _handle_confirmation_cases (state : t) :
  truthy (pending_text state) = true →
  thread_id (_handle_confirmation state) = thread_id state
  ∧ messages (_handle_confirmation state) = messages state
  ∧ conversation_summary (_handle_confirmation state) = conversation_summary state
  ∧ pending_user_id (_handle_confirmation state) = pending_user_id state
  ∧ pending_message (_handle_confirmation state) = None
  ∧ pending_message_id (_handle_confirmation state) = None
  ∧ error_log state `prefix_of` error_log (_handle_confirmation state)
  ∧ ((normalize_reply (pending_text state) ∈ CONFIRM_COMMANDS
      ∧ is_Some (expense_draft state)
      ∧ _handle_confirmation state
        = set_pending_message_id None
            (set_pending_message None (set_confirmation_status approved state)))
     ∨ (confirmation_status (_handle_confirmation state) = approved →
        confirmation_status state = approved)).
Proof.
  intros Htext. unfold _handle_confirmation. rewrite Htext. cbn [negb].
  unfold apply_confirmation_decision. cbv zeta.
  destruct (negb (truthy (normalize_reply (pending_text state)))).
  { unfold record_error. cbn. do 6 (split; [done|]).
    split; [by apply prefix_app_r|by right]. }
  case_bool_decide as Hconfirm.
  { destruct (expense_draft state) as [draft|] eqn:Hdraft.
    - cbn. do 7 (split; [done|]). left. by repeat split.
    - unfold record_error. cbn. do 6 (split; [done|]).
      split; [by apply prefix_app_r|by right]. }
  case_bool_decide as Hcancel.
  { unfold cancel_expense_attempt, record_error. cbn. do 6 (split; [done|]).
    split; [by apply prefix_app_r|by right]. }
  case_bool_decide as Hedit.
  { unfold cancel_expense_attempt, record_error. cbn. do 6 (split; [done|]).
    split; [by apply prefix_app_r|by right]. }
  unfold record_error.
  destruct (truthy (invalid_command_message (pending_text state))); cbn;
    do 6 (split; [done|]); (split; [|by right]); [by apply prefix_app_r|done].
Qed.

(** X16. Approval comes from the user's confirmation only. If the state a
    turn leaves holds a draft with the status approved, then the state had
    that very draft before the turn, and either the turn was the
    confirmation of a complete pending draft (the trimmed, lower-cased
    reply is one of the confirm commands, no tool was called), or the
    state was approved already and the turn failed. In particular a turn
    that parses a new message never yields an approved draft. *)
Theorem approval_needs_confirmation
    (today : date) (settings : Settings.t) (invoke : result chart_payload)
    (state state' : t) (r : result unit) (calls : list call)
    (draft : ExpenseDraft.t) :
  turn today settings invoke state = (r, state', calls) →
  expense_draft state' = Some draft →
  confirmation_status state' = approved →
  expense_draft state = Some draft
  ∧ ((r = Ok tt ∧ calls = []
      ∧ awaiting_confirmation state
      ∧ admitted settings state
      ∧ normalize_reply (pending_text state) ∈ CONFIRM_COMMANDS)
     ∨ (confirmation_status state = approved ∧ ∃ e, r = Raise e)).
Proof.
  unfold turn.
  destruct (entry_node_cases settings state) as [[Hadm ->] | [_ [e ->]]];
    [|intros [= <- <- <-] Hdraft Hstatus; split; [done|right]; split; eauto].
  set (entered := set_messages _ state).
  assert (Hroute : _route_from_entry entered = _route_from_entry state) by done.
  rewrite Hroute. unfold _route_from_entry.
  assert (Hparse :
    match _create_parse_node today settings entered with
    | (Raise e, state) => (Raise e, state, [])
    | (Ok _, state) =>
        let '(state, calls) := _create_resolve_node invoke state in
        (Ok tt, state, calls)
    end = (r, state', calls) →
    expense_draft state' = Some draft →
    confirmation_status state' = approved →
    expense_draft state = Some draft
    ∧ confirmation_status state = approved ∧ ∃ e, r = Raise e).
  { destruct (_create_parse_node today settings entered) as [r1 s1] eqn:Hnode.
    apply _create_parse_node_frame in Hnode as (_&_&_&_&_&_& Hcase).
    destruct r1 as [[]|e].
    - destruct (_create_resolve_node invoke s1) as [s2 calls2] eqn:Hres.
      apply _create_resolve_node_outcome in Hres as (Hk & Hd & _).
      destruct Hk as (_&_&_& Hst &_).
      intros [= <- <- <-] Hdraft Hstatus. exfalso.
      destruct Hcase as (_ & _ & [[Hnone _] | (d & _ & _ & _ & Hpending & _)]).
      + rewrite Hdraft, Hnone in Hd. destruct Hd as [Hd _].
        by destruct Hd; [eexists|].
      + congruence.
    - destruct Hcase as (Hd & Hst & _).
      intros [= <- <- <-] Hdraft Hstatus. rewrite Hd in Hdraft.
      rewrite Hst in Hstatus. split; [done|]. split; [done|by eexists]. }
  destruct (expense_draft state) as [d0|] eqn:Hd0;
    [|intros Hrun Hdraft Hstatus;
      destruct (Hparse Hrun Hdraft Hstatus) as (? & ? & ?); split; [done|by right]].
  destruct (clarifications_needed state) as [|c cs] eqn:Hclar;
    [|intros Hrun Hdraft Hstatus;
      destruct (Hparse Hrun Hdraft Hstatus) as (? & ? & ?); split; [done|by right]].
  destruct (confirmation_status state) eqn:Hst;
    try (intros Hrun Hdraft Hstatus;
         destruct (Hparse Hrun Hdraft Hstatus) as (? & ? & ?);
         split; [done|by right]).
  clear Hparse. intros [= <- <- <-] Hdraft Hstatus.
  destruct Hadm as [Htext Hallowed].
  destruct (_handle_confirmation_cases entered) as (_&_&_&_&_&_&_& Hcase).
  { by apply truthy_true_iff. }
  destruct Hcase as [(Hconfirm & _ & Heq) | Hno].
  2: { specialize (Hno Hstatus). change (confirmation_status state = approved) in Hno.
       congruence. }
  rewrite Heq in Hdraft. cbn in Hdraft. rewrite Hd0 in Hdraft.
  split; [done|]. left. by repeat split.
Qed.

(** X17. A successful turn consumes its message and records it. When a
    turn returns, the state has no pending message or message id left, its
    history is the window of the old history followed by the message of
    this turn, the thread id, the summary and the acting user are as
    before, the error log has only grown, and the chart tool was called at
    most once; the turn had been let through by the entry node. A turn
    that raises has called no tool and keeps the message pending. *)
Theorem turn_records_message
    (today : date) (settings : Settings.t) (invoke : result chart_payload)
    (state state' : t) (r : result unit) (calls : list call) :
  turn today settings invoke state = (r, state', calls) →
  thread_id state' = thread_id state
  ∧ conversation_summary state' = conversation_summary state
  ∧ pending_user_id state' = pending_user_id state
  ∧ error_log state `prefix_of` error_log state'
  ∧ match r with
    | Ok _ =>
        admitted settings state
        ∧ pending_message state' = None
        ∧ pending_message_id state' = None
        ∧ messages state'
          = last_messages (messages state ++ [recorded_message state])
        ∧ (calls = []
           ∨ (calls = [call_chart_tool]
              ∧ is_Some (expense_draft state')
              ∧ (chart_of_accounts_override state = None
                 ∨ chart_of_accounts_override state = Some [])))
    | Raise _ =>
        calls = []
        ∧ pending_message state' = pending_message state
        ∧ pending_message_id state' = pending_message_id state
        ∧ (¬ admitted settings state → state' = state)
    end.
Proof.
  unfold turn.
  destruct (entry_node_cases settings state) as [[Hadm ->] | [Hno [e ->]]];
    [|intros [= <- <- <-]; by repeat split].
  set (entered := set_messages _ state).
  destruct (_route_from_entry entered).
  - destruct (_create_parse_node today settings entered) as [r1 s1] eqn:Hnode.
    apply _create_parse_node_frame in Hnode as (Ht & Hm & Hs & Hu & Ho & He & Hcase).
    unfold entered in Ht, Hm, Hs, Hu, Ho, He, Hcase.
    cbn [set_messages thread_id messages conversation_summary pending_user_id
         error_log pending_message pending_message_id expense_draft
         confirmation_status chart_of_accounts_override]
      in Ht, Hm, Hs, Hu, Ho, He, Hcase.
    destruct r1 as [[]|e].
    + destruct (_create_resolve_node invoke s1) as [s2 calls2] eqn:Hres.
      apply _create_resolve_node_outcome in Hres
        as ((Ht2 & Hm2 & Hs2 & _ & _ & Hp2 & Hi2 & Hu2) & Hd2 & He2 & Hidle & Hact).
      intros [= <- <- <-]. destruct Hcase as (Hp & Hi & _).
      split; [congruence|]. split; [congruence|]. split; [congruence|].
      split; [by rewrite He in He2|].
      split; [done|]. split; [congruence|]. split; [congruence|].
      split; [by rewrite Hm2, Hm|].
      destruct (expense_draft s1) as [d1|] eqn:Hd1;
        [|left; by apply Hidle; left].
      destruct (clarifications_needed s1) as [|c cs] eqn:Hc1;
        [|left; by apply Hidle; right].
      specialize (Hact (ex_intro _ d1 eq_refl) eq_refl). rewrite Ho in Hact.
      destruct (chart_of_accounts_override state) as [[|row rows]|].
      * right. destruct Hact as (-> & _). split; [done|].
        split; [by apply Hd2|by right].
      * left. by destruct Hact.
      * right. destruct Hact as (-> & _). split; [done|].
        split; [by apply Hd2|by left].
    + intros [= <- <- <-]. destruct Hcase as (_ & _ & Hp & Hi).
      split; [done|]. split; [done|]. split; [done|]. split; [by rewrite He|].
      split; [done|]. split; [done|]. split; [done|]. by intros Hnot.
  - intros [= <- <- <-].
    destruct (_handle_confirmation_cases entered)
      as (Ht & Hm & Hs & Hu & Hp & Hi & He & _).
    { apply truthy_true_iff. by destruct Hadm. }
    split; [done|]. split; [done|]. split; [done|]. split; [done|].
    split; [done|]. split; [done|]. split; [done|]. split; [done|by left].
Qed.

(** X18. A turn without chart rows still leaves a confirmable draft. For a
    state that is not awaiting confirmation and carries no override rows,
    when the chart tool raises or answers without rows and the turn leaves
    a draft, that draft has the two placeholder accounts of confidence 0,
    nothing is asked of the user, the status is pending (so the next reply
    is read as a confirmation command), the tool was called once and one
    line was added to the error log. *)
Theorem turn_without_chart_rows
    (today : date) (settings : Settings.t) (invoke : result chart_payload)
    (state state' : t) (calls : list call) (draft : ExpenseDraft.t) :
  turn today settings invoke state = (Ok tt, state', calls) →
  ¬ awaiting_confirmation state →
  chart_of_accounts_override state = None
  ∨ chart_of_accounts_override state = Some [] →
  (∀ response, invoke = Ok response → _parse_chart_rows response = None) →
  expense_draft state' = Some draft →
  AccountMatch.confidence (ExpenseDraft.debit_account draft) = 0%Q
  ∧ AccountMatch.confidence (ExpenseDraft.credit_account draft) = 0%Q
  ∧ awaiting_confirmation state'
  ∧ _route_from_entry state' = route_confirm
  ∧ account_candidates state' = []
  ∧ calls = [call_chart_tool]
  ∧ ∃ message, error_log state' = (error_log state ++ [message])%list.
Proof.
  unfold turn.
  destruct (entry_node_cases settings state) as [[Hadm ->] | [Hno [e ->]]];
    [|done].
  set (entered := set_messages _ state).
  intros Hrun Hnot Hover Hrows Hdraft.
  assert (_route_from_entry entered = route_parse) as Hroute.
  { unfold _route_from_entry. cbn.
    destruct (expense_draft state) eqn:Hd; [|done].
    destruct (clarifications_needed state) eqn:Hc; [|done].
    destruct (confirmation_status state) eqn:Hs; try done.
    destruct Hnot. by repeat split. }
  rewrite Hroute in Hrun.
  destruct (_create_parse_node today settings entered) as [r1 s1] eqn:Hnode.
  apply _create_parse_node_frame in Hnode as (_ & _ & _ & _ & Ho & He & Hcase).
  destruct r1 as [[]|e]; [|done].
  destruct (_create_resolve_node invoke s1) as [s2 calls2] eqn:Hres.
  injection Hrun as <- <-.
  apply _create_resolve_node_outcome in Hres as (_ & Hd & _ & _ & Hact).
  destruct Hcase as (_ & _ & [[Hnone _] | (d & Hd1 & Hdc & Hcc & Hst & Hcl & Hcand)]).
  { rewrite Hdraft, Hnone in Hd. destruct Hd as [[? [=]] _]. by eexists. }
  specialize (Hact (ex_intro _ d Hd1) Hcl).
  assert (Hstate : ∃ message,
            calls2 = [call_chart_tool]
            ∧ s2 = set_error_log (error_log s1 ++ [message])%list s1).
  { change (chart_of_accounts_override entered)
      with (chart_of_accounts_override state) in Ho.
    rewrite Ho in Hact.
    destruct Hover as [Hov | Hov]; rewrite Hov in Hact;
      destruct Hact as (-> & _ & Hact);
      (destruct invoke as [response|e];
       [specialize (Hact (Hrows response eq_refl))|]; by eexists). }
  destruct Hstate as (message & -> & ->).
  cbn in Hdraft. rewrite Hd1 in Hdraft. injection Hdraft as <-.
  split; [done|]. split; [done|].
  split; [by repeat split; [eexists|..]|].
  split.
  { unfold _route_from_entry. cbn. by rewrite Hd1, Hcl, Hst. }
  split; [done|]. split; [done|]. exists message. cbn. by rewrite He.
Qed.

End FlowFacts.

Lemma approval_needs_confirmation_witness :
  ConversationState.expense_draft (Samples.confirming (Some " Confirm "))
  = Some Samples.draft
  ∧ ((Ok tt = Ok tt ∧ @nil Flow.call = []
      ∧ awaiting_confirmation (Samples.confirming (Some " Confirm "))
      ∧ admitted Samples.settings_open (Samples.confirming (Some " Confirm "))
      ∧ Nodes.normalize_reply
          (Builder.pending_text (Samples.confirming (Some " Confirm ")))
        ∈ Nodes.CONFIRM_COMMANDS)
     ∨ (ConversationState.confirmation_status
          (Samples.confirming (Some " Confirm ")) = approved
        ∧ ∃ e, Ok tt = Raise e)).
Proof.
  apply (approval_needs_confirmation (H:=Samples.exact_fuzz) Turns.today
           Samples.settings_open Turns.chart_down
           (Samples.confirming (Some " Confirm ")) Turns.after_confirm (Ok tt) []
           Samples.draft).
  - vm_compute. reflexivity.
  - reflexivity.
  - reflexivity.
Defined.

Lemma turn_records_message_witness :
  let state := Samples.collecting (Some "Paid $10 cash for taxi") in
  let state' := Turns.after_message Scenes.resolved_draft [] in
  ConversationState.thread_id state' = ConversationState.thread_id state
  ∧ ConversationState.conversation_summary state'
    = ConversationState.conversation_summary state
  ∧ ConversationState.pending_user_id state'
    = ConversationState.pending_user_id state
  ∧ ConversationState.error_log state `prefix_of` ConversationState.error_log state'
  ∧ admitted Samples.settings_open state
  ∧ ConversationState.pending_message state' = None
  ∧ ConversationState.pending_message_id state' = None
  ∧ ConversationState.messages state'
    = ConversationState.last_messages
        (ConversationState.messages state ++ [recorded_message state])
  ∧ ([Flow.call_chart_tool] = []
     ∨ ([Flow.call_chart_tool] = [Flow.call_chart_tool]
        ∧ is_Some (ConversationState.expense_draft state')
        ∧ (ConversationState.chart_of_accounts_override state = None
           ∨ ConversationState.chart_of_accounts_override state = Some []))).
Proof.
  apply (turn_records_message (H:=Samples.exact_fuzz) Turns.today
           Samples.settings_open Turns.chart_up
           (Samples.collecting (Some "Paid $10 cash for taxi"))
           (Turns.after_message Scenes.resolved_draft []) (Ok tt)
           [Flow.call_chart_tool]).
  vm_compute. reflexivity.
Defined.

Lemma turn_without_chart_rows_witness :
  let state' :=
    Turns.after_message Scenes.placeholder_draft
      ["Unable to fetch the chart of accounts right now. Please try again."] in
  AccountMatch.confidence (ExpenseDraft.debit_account Scenes.placeholder_draft)
  = 0%Q
  ∧ AccountMatch.confidence (ExpenseDraft.credit_account Scenes.placeholder_draft)
    = 0%Q
  ∧ awaiting_confirmation state'
  ∧ Builder._route_from_entry state' = Builder.route_confirm
  ∧ ConversationState.account_candidates state' = []
  ∧ [Flow.call_chart_tool] = [Flow.call_chart_tool]
  ∧ ∃ message,
      ConversationState.error_log state'
      = (ConversationState.error_log
           (Samples.collecting (Some "Paid $10 cash for taxi")) ++ [message])%list.
Proof.
  apply (turn_without_chart_rows (H:=Samples.exact_fuzz) Turns.today
           Samples.settings_open Turns.chart_down
           (Samples.collecting (Some "Paid $10 cash for taxi"))
           (Turns.after_message Scenes.placeholder_draft
              ["Unable to fetch the chart of accounts right now. Please try again."])
           [Flow.call_chart_tool] Scenes.placeholder_draft).
  - vm_compute. reflexivity.
  - intros ([d Hd] & _). discriminate Hd.
  - by left.
  - intros response Hresponse. discriminate Hresponse.
  - reflexivity.
Defined.

(** ** The reply to a turn *)

Section ReplyFacts.
Import PyStr ConversationState Telegram.

Lemma to_string_app (a b : chars) :
  to_string (a ++ b)%list = to_string a ++ to_string b.
Proof.
  induction a as [|c a IH]; [done|].
  change (String c (to_string (a ++ b)%list)
          = String c (to_string a ++ to_string b)).
  by rewrite IH.
Qed.

Lemma to_of_string (s : string) : to_string (of_string s) = s.
Proof. apply string_of_list_ascii_of_string. Qed.

Lemma append_empty_r (s : string) : s ++ "" = s.
Proof.
  induction s as [|c s IH]; [done|].
  change (String c (s ++ "") = String c s). by rewrite IH.
Qed.

Lemma append_assoc (a b c : string) : (a ++ b) ++ c = a ++ b ++ c.
Proof.
  induction a as [|x a IH]; [done|].
  change (String x ((a ++ b) ++ c) = String x (a ++ b ++ c)). by rewrite IH.
Qed.

Lemma length_append (a b : string) :
  String.length (a ++ b) = (String.length a + String.length b)%nat.
Proof.
  induction a as [|x a IH]; [done|].
  change (S (String.length (a ++ b)) = S (String.length a + String.length b)).
  by rewrite IH.
Qed.

Lemma join_cons (sep x : string) (l : list string) :
  join sep (x :: l)
  = match l with
    | [] => x
    | _ :: _ => x ++ sep ++ join sep l
    end.
Proof.
  unfold join. destruct l as [|y l]; cbn [map join_chars]; [apply to_of_string|].
  by rewrite !to_string_app, !to_of_string.
Qed.

(** Every joined string occurs in the result of [join]. *)
Lemma join_contains (sep e : string) (l : list string) :
  e ∈ l → ∃ before after, join sep l = before ++ e ++ after.
Proof.
  induction l as [|x l IH]; [by intros ?%elem_of_nil|].
  rewrite join_cons. intros [->|Hin]%elem_of_cons.
  - destruct l as [|y l].
    + exists "", "". by rewrite append_empty_r.
    + by exists "", (sep ++ join sep (y :: l)).
  - destruct (IH Hin) as (before & after & Heq).
    destruct l as [|y l]; [by apply elem_of_nil in Hin|].
    exists (x ++ sep ++ before), after. rewrite Heq.
    by rewrite !append_assoc.
Qed.

Lemma append_not_empty (a e b : string) : e ≠ "" → a ++ e ++ b ≠ "".
Proof.
  intros He Heq. apply (f_equal String.length) in Heq.
  rewrite !length_append in Heq. destruct e; [done|]. cbn in Heq. lia.
Qed.

(** The four messages are never empty. *)
Lemma messages_not_empty (state : t) (draft : ExpenseDraft.t) (l : list string) :
  truthy (_format_confirmation state) = true
  ∧ truthy (_format_cancellation state) = true
  ∧ truthy (_format_clarification l) = true
  ∧ truthy (_format_preview draft) = true.
Proof.
  by repeat split.
Qed.

Lemma _append_error_cases (message : string) (errors : list string) :
  truthy message = true →
  _append_error (Some message) (_format_errors errors)
  = Some (if truthy (join newline errors)
          then message ++ newline ++ newline ++ join newline errors
          else message).
Proof.
  intros Hm. unfold _append_error, falsy. rewrite Hm. cbn [negb].
  destruct errors as [|e errors]; [done|].
  cbn [_format_errors default]. by destruct (truthy (join newline (e :: errors))).
Qed.

(** X19. Which reply a state gets. The event is a confirmation exactly for
    an approved state, a cancellation exactly for a rejected state without
    a draft, and a preview, the reply that ends with the confirmation
    prompt, exactly when the next message of the thread is routed to the
    confirmation node. An event always comes with a reply and a summary.
    There is no reply exactly when there is no event, nothing to clarify
    and no error text; the payload is empty exactly then. *)
Theorem render_events
    (state : t) (text : option string) (event : option ResponseEvent)
    (payload : list (string * pyval)) :
  _render_telegram_response state = (text, event, payload) →
  (event = Some confirmation ↔ confirmation_status state = approved)
  ∧ (event = Some cancellation
     ↔ confirmation_status state = rejected ∧ expense_draft state = None)
  ∧ (event = Some preview
     ↔ Builder._route_from_entry state = Builder.route_confirm)
  ∧ (is_Some event → is_Some text)
  ∧ (text = None ↔ payload = [])
  ∧ (text = None
     ↔ event = None ∧ clarifications_needed state = []
       ∧ join newline (error_log state) = "").
Proof.
  unfold _render_telegram_response, Builder._route_from_entry. cbv zeta.
  assert (Hanswer : ∀ message,
            truthy message = true →
            is_Some (_append_error (Some message) (_format_errors (error_log state)))).
  { intros message Hm. rewrite _append_error_cases by done. by eexists. }
  pose proof (proj1 (messages_not_empty state Scenes.placeholder_draft [])) as Hc.
  pose proof (proj1 (proj2 (messages_not_empty state Scenes.placeholder_draft [])))
    as Hx.
  destruct (confirmation_status state) eqn:Hst.
  - (* pending *)
    destruct (clarifications_needed state) as [|c cs] eqn:Hcl.
    + destruct (expense_draft state) as [draft|] eqn:Hd.
      * intros [= <- <- <-].
        destruct (Hanswer (_format_preview draft)) as [reply ->]; [done|].
        naive_solver.
      * destruct (error_log state) as [|e es] eqn:He.
        { intros [= <- <- <-]. naive_solver. }
        cbn [_format_errors].
        destruct (truthy (join newline (e :: es))) eqn:Hj.
        -- intros [= <- <- <-]. apply truthy_true_iff in Hj. naive_solver.
        -- intros [= <- <- <-]. apply truthy_false_iff in Hj. naive_solver.
    + intros [= <- <- <-].
      destruct (Hanswer (_format_clarification (c :: cs))) as [reply ->]; [done|].
      destruct (expense_draft state); naive_solver.
  - (* approved *)
    intros [= <- <- <-]. destruct (Hanswer _ Hc) as [reply ->].
    destruct (expense_draft state), (clarifications_needed state); naive_solver.
  - (* rejected *)
    destruct (expense_draft state) as [draft|] eqn:Hd.
    + destruct (clarifications_needed state) as [|c cs] eqn:Hcl.
      * destruct (error_log state) as [|e es] eqn:He.
        { intros [= <- <- <-]. naive_solver. }
        cbn [_format_errors].
        destruct (truthy (join newline (e :: es))) eqn:Hj.
        -- intros [= <- <- <-]. apply truthy_true_iff in Hj. naive_solver.
        -- intros [= <- <- <-]. apply truthy_false_iff in Hj. naive_solver.
      * intros [= <- <- <-].
        destruct (Hanswer (_format_clarification (c :: cs))) as [reply ->];
          [done|].
        naive_solver.
    + intros [= <- <- <-]. destruct (Hanswer _ Hx) as [reply ->].
      destruct (clarifications_needed state); naive_solver.
Qed.

Lemma render_events_witness :
  let state :=
    Turns.after_message Scenes.placeholder_draft
      ["Unable to fetch the chart of accounts right now. Please try again."] in
  (Some preview = Some confirmation ↔ confirmation_status state = approved)
  ∧ (Some preview = Some cancellation
     ↔ confirmation_status state = rejected ∧ expense_draft state = None)
  ∧ (Some preview = Some preview
     ↔ Builder._route_from_entry state = Builder.route_confirm)
  ∧ (is_Some (Some preview)
     → is_Some
         (Some
            (_format_preview Scenes.placeholder_draft ++ newline ++ newline
               ++ "Unable to fetch the chart of accounts right now. Please try again.")))
  ∧ (Some
       (_format_preview Scenes.placeholder_draft ++ newline ++ newline
          ++ "Unable to fetch the chart of accounts right now. Please try again.")
     = None
     ↔ [("summary", PyStr (_format_preview Scenes.placeholder_draft))] = [])
  ∧ (Some
       (_format_preview Scenes.placeholder_draft ++ newline ++ newline
          ++ "Unable to fetch the chart of accounts right now. Please try again.")
     = None
     ↔ Some preview = None ∧ clarifications_needed state = []
       ∧ join newline (error_log state) = "").
Proof.
  apply (render_events
           (Turns.after_message Scenes.placeholder_draft
              ["Unable to fetch the chart of accounts right now. Please try again."])
           (Some
              (_format_preview Scenes.placeholder_draft ++ newline ++ newline
                 ++ "Unable to fetch the chart of accounts right now. Please try again."))
           (Some preview)
           [("summary", PyStr (_format_preview Scenes.placeholder_draft))]).
  vm_compute. reflexivity.
Defined.

(** The preview of the sample draft, and how amounts are written. *)
Example preview_example :
  _format_preview Scenes.placeholder_draft
  = join newline
      ["Here is your expense draft:"; "- Amount: 10.00 USD";
       "- Debit account: taxi"; "- Credit account: cash";
       "- Narration: Paid $10 cash for taxi"; "";
       "Reply with confirm to post, edit to change the draft, or cancel to abort."]
  ∧ map Decimal_format_2f
      [mk_Decimal 12345 (-3); mk_Decimal 125 (-3); mk_Decimal 135 (-3);
       mk_Decimal 995 (-3); mk_Decimal 5 (-2); mk_Decimal 1 1;
       mk_Decimal 1 (-5); mk_Decimal 123456789 (-2)]
    = ["12.34"; "0.12"; "0.14"; "1.00"; "0.05"; "10.00"; "0.00"; "1234567.89"].
Proof. split; vm_compute; reflexivity. Qed.

(** X20. Every logged error reaches the user. Whatever the state, each
    non-empty line of its error log occurs in the reply; the reply is the
    message of the state, followed after a blank line by all lines of the
    log, or the message alone when the log has no text, or the log alone
    when the state has no message. The summary of the payload is the
    message without the log. *)
Theorem render_shows_errors
    (state : t) (text : option string) (event : option ResponseEvent)
    (payload : list (string * pyval)) (e : string) :
  _render_telegram_response state = (text, event, payload) →
  e ∈ error_log state →
  e ≠ "" →
  ∃ reply before after,
    text = Some reply
    ∧ reply = before ++ e ++ after
    ∧ ((payload = [("summary", PyStr reply)]
        ∧ reply = join newline (error_log state) ∧ event = None)
       ∨ ∃ message,
           payload = [("summary", PyStr message)]
           ∧ reply = message ++ newline ++ newline ++ join newline (error_log state)).
Proof.
  intros Hrender He Hne.
  destruct (join_contains newline e (error_log state) He)
    as (before & after & Hjoin).
  assert (Hj : truthy (join newline (error_log state)) = true).
  { apply truthy_true_iff. rewrite Hjoin. by apply append_not_empty. }
  assert (Hanswer : ∀ message event0,
            truthy message = true →
            (_append_error (Some message) (_format_errors (error_log state)),
             event0, [("summary", PyStr message)]) = (text, event, payload) →
            ∃ reply before after,
              text = Some reply
              ∧ reply = before ++ e ++ after
              ∧ ((payload = [("summary", PyStr reply)]
                  ∧ reply = join newline (error_log state) ∧ event = None)
                 ∨ ∃ message,
                     payload = [("summary", PyStr message)]
                     ∧ reply
                       = message ++ newline ++ newline
                           ++ join newline (error_log state))).
  { intros message event0 Hm. rewrite _append_error_cases by done. rewrite Hj.
    intros [= <- <- <-].
    exists (message ++ newline ++ newline ++ join newline (error_log state)),
      (message ++ newline ++ newline ++ before), after.
    split; [done|]. split; [by rewrite Hjoin, !append_assoc|].
    right. by exists message. }
  revert Hrender. unfold _render_telegram_response. cbv zeta.
  destruct (confirmation_status state);
    destruct (expense_draft state) as [draft|];
    destruct (clarifications_needed state) as [|c cs];
    try (by apply Hanswer).
  all: destruct (error_log state) as [|e0 es] eqn:Hlog;
    [by apply elem_of_nil in He|].
  all: cbn [_format_errors]; rewrite Hj; intros [= <- <- <-].
  all: exists (join newline (e0 :: es)), before, after.
  all: split; [done|]; split; [done|]; by left.
Qed.

Lemma render_shows_errors_witness :
  ∃ reply before after,
    Some
      (_format_preview Scenes.placeholder_draft ++ newline ++ newline
         ++ "Unable to fetch the chart of accounts right now. Please try again.")
    = Some reply
    ∧ reply
      = before
          ++ "Unable to fetch the chart of accounts right now. Please try again."
          ++ after
    ∧ (([("summary", PyStr (_format_preview Scenes.placeholder_draft))]
        = [("summary", PyStr reply)]
        ∧ reply
          = join newline
              (error_log
                 (Turns.after_message Scenes.placeholder_draft
                    ["Unable to fetch the chart of accounts right now. Please try again."]))
        ∧ Some preview = None)
       ∨ ∃ message,
           [("summary", PyStr (_format_preview Scenes.placeholder_draft))]
           = [("summary", PyStr message)]
           ∧ reply
             = message ++ newline ++ newline
                 ++ join newline
                      (error_log
                         (Turns.after_message Scenes.placeholder_draft
                            ["Unable to fetch the chart of accounts right now. Please try again."]))).
Proof.
  apply (render_shows_errors
           (Turns.after_message Scenes.placeholder_draft
              ["Unable to fetch the chart of accounts right now. Please try again."])
           (Some
              (_format_preview Scenes.placeholder_draft ++ newline ++ newline
                 ++ "Unable to fetch the chart of accounts right now. Please try again."))
           (Some preview)
           [("summary", PyStr (_format_preview Scenes.placeholder_draft))]
           "Unable to fetch the chart of accounts right now. Please try again.").
  - vm_compute. reflexivity.
  - apply list_elem_of_singleton. reflexivity.
  - discriminate.
Defined.

End ReplyFacts.

(** ** Posting a confirmed expense *)

Section PostingFacts.
Import ConversationState Posting.






(** X22. Posting needs a draft and the user's approval. Without a draft,
    or with a status other than approved, [post_confirmed_expense] raises
    [ExpensePostingError], calls nothing and leaves the state as it was.
    Otherwise it calls the ledger client exactly once, with the payload of
    the state's draft; what the client returns is returned and stored as
    the submission, what it raises is raised with the state unchanged. *)
Theorem post_confirmed_expense_guard
    (post_journal_entry : pyval → result JournalEntryResult.t)
    (extra_payload : option (list (string * pyval)))
    (state state' : t) (r : result JournalEntryResult.t) (calls : list call) :
  post_confirmed_expense post_journal_entry extra_payload state
  = (r, state', calls) →
  (calls ≠ []
   ↔ is_Some (expense_draft state) ∧ confirmation_status state = approved)
  ∧ (calls = [] → state' = state ∧ ∃ message, r = Raise (ExpensePostingError message))
  ∧ (calls ≠ [] →
     ∃ draft,
       expense_draft state = Some draft
       ∧ calls
         = [call_post_journal_entry (_build_journal_entry_payload draft extra_payload)]
       ∧ r = post_journal_entry (_build_journal_entry_payload draft extra_payload)
       ∧ state'
         = match r with
           | Ok result => set_erpnext_submission (Some result) state
           | Raise _ => state
           end).
Proof.
  unfold post_confirmed_expense.
  destruct (expense_draft state) as [draft|] eqn:Hdraft.
  - destruct (confirmation_status state) eqn:Hstatus.
    + intros [= <- <- <-]. split; [naive_solver|]. split; [naive_solver|done].
    + destruct (post_journal_entry _) as [result|e] eqn:Hpost;
        intros [= <- <- <-].
      * split; [naive_solver|]. split; [done|]. intros _. exists draft.
        by rewrite Hpost.
      * split; [naive_solver|]. split; [done|]. intros _. exists draft.
        by rewrite Hpost.
    + intros [= <- <- <-]. split; [naive_solver|]. split; [naive_solver|done].
  - intros [= <- <- <-]. split; [|split; [naive_solver|done]].
    split; [done|]. by intros [[? [=]] _].
Qed.

Lemma post_confirmed_expense_guard_witness :
  let state := Samples.approved_state in
  let payload := _build_journal_entry_payload Samples.draft None in
  let r := Ok Samples.submission in
  ([call_post_journal_entry payload] ≠ []
   ↔ is_Some (expense_draft state) ∧ confirmation_status state = approved)
  ∧ ([call_post_journal_entry payload] = [] →
     set_erpnext_submission (Some Samples.submission) state = state
     ∧ ∃ message, r = Raise (ExpensePostingError message))
  ∧ ([call_post_journal_entry payload] ≠ [] →
     ∃ draft,
       expense_draft state = Some draft
       ∧ [call_post_journal_entry payload]
         = [call_post_journal_entry (_build_journal_entry_payload draft None)]
       ∧ r = Samples.ledger_up (_build_journal_entry_payload draft None)
       ∧ set_erpnext_submission (Some Samples.submission) state
         = match r with
           | Ok result => set_erpnext_submission (Some result) state
           | Raise _ => state
           end).
Proof.
  apply (post_confirmed_expense_guard Samples.ledger_up None
           Samples.approved_state
           (set_erpnext_submission (Some Samples.submission) Samples.approved_state)
           (Ok Samples.submission)
           [call_post_journal_entry (_build_journal_entry_payload Samples.draft None)]).
  reflexivity.
Defined.

End PostingFacts.

(** ** The retry queue: clearing the lock of a crashed worker *)

Section LockReset.
Import RetryQueue.
Local Open Scope Z_scope.

Lemma mark_without_lock (db : retry_jobs) (job_id : Z) (lock_id error : string)
    (next_run_at : datetime) :
  lock_id ≠ "" →
  (∀ r, rows db !! job_id = Some r → Row.locked_by r ≠ Some lock_id) →
  mark_success job_id lock_id db = (Raise (lock_mismatch_success job_id lock_id), db)
  ∧ mark_failure job_id lock_id error next_run_at db
    = (Raise (lock_mismatch_failure job_id lock_id), db).
Proof.
  intros Hne Hnot. unfold mark_success, mark_failure, sql_delete_locked,
    sql_record_failure.
  rewrite (proj2 (truthy_true_iff _) Hne). cbn [negb]. cbv zeta.
  destruct (rows db !! job_id) as [r|] eqn:Hr; [|done].
  by rewrite bool_decide_eq_false_2 by (by apply Hnot).
Qed.

(** X23. [reset_lock] hands a job over. Clearing the lock of a row changes
    nothing but the two lock columns of that row (so the attempts made and
    the instant of the next run stay), and after it no worker can mark the
    job: [mark_success] and [mark_failure] raise the lock-mismatch error
    for every worker id and leave the table alone. Once another worker has
    acquired the job, the row is locked by that worker, the job it got
    carries the attempts and the thread of the row, and the former holder's
    [mark_success] and [mark_failure] still raise and change nothing. *)
Theorem reset_lock_hands_over
    (db taken : retry_jobs) (job_id : Z) (r : Row.t)
    (stale worker error : string) (next_run_at : datetime)
    (now : option datetime) (clock : datetime) (job : RetryJob.t) :
  rows db !! job_id = Some r →
  stale ≠ "" →
  worker ≠ stale →
  acquire_due_job worker now clock (snd (reset_lock job_id db))
  = (Ok (Some job), taken) →
  RetryJob.id job = Some job_id →
  reset_lock job_id db
  = (Ok tt,
     mk_table (<[job_id := Row.set_lock None None r]> (rows db))
       (sqlite_sequence db))
  ∧ (∀ w, w ≠ "" →
       mark_success job_id w (snd (reset_lock job_id db))
       = (Raise (lock_mismatch_success job_id w), snd (reset_lock job_id db))
       ∧ mark_failure job_id w error next_run_at (snd (reset_lock job_id db))
         = (Raise (lock_mismatch_failure job_id w), snd (reset_lock job_id db)))
  ∧ rows taken !! job_id
    = Some (Row.set_lock (Some worker)
              (Some (_serialize_datetime (default clock now))) r)
  ∧ (∀ k, k ≠ job_id → rows taken !! k = rows db !! k)
  ∧ RetryJob.attempts job = Row.attempts r
  ∧ RetryJob.thread_id job = Row.thread_id r
  ∧ mark_success job_id stale taken
    = (Raise (lock_mismatch_success job_id stale), taken)
  ∧ mark_failure job_id stale error next_run_at taken
    = (Raise (lock_mismatch_failure job_id stale), taken).
Proof.
  intros Hr Hstale Hother. unfold reset_lock, sql_reset_lock. rewrite Hr.
  cbn [snd]. intros Hacquire Hid.
  split; [done|]. split.
  { intros w Hw. apply mark_without_lock; [done|]. cbn [rows].
    rewrite lookup_insert_eq. by intros r' [= <-]. }
  apply acquire_due_job_selected in Hacquire
    as (job_id' & r' & _ & Hr' & Hjob & ->).
  destruct (_row_to_job_id _ _ _ Hjob) as (Hid' & _ & Hattempts).
  assert (job_id' = job_id) as -> by congruence.
  cbn [rows] in Hr'. rewrite lookup_insert_eq in Hr'. injection Hr' as <-.
  destruct (_row_to_job_fields _ _ _ Hjob) as (Hthread & _).
  cbn [rows]. rewrite lookup_insert_eq.
  split; [done|]. split.
  { intros k Hk. by rewrite !lookup_insert_ne. }
  split; [done|]. split; [done|].
  apply mark_without_lock; [done|]. cbn [rows]. rewrite lookup_insert_eq.
  intros r' [= <-]. cbn. congruence.
Qed.

Lemma reset_lock_hands_over_witness :
  let db := snd (acquire_due_job "worker-a" None (Samples.at_minute 5 0)
                   Samples.two_jobs) in
  let taken := snd (acquire_due_job "worker-b" None (Samples.at_minute 6 0)
                      (snd (reset_lock 1 db))) in
  rows taken !! 1
  = Some (Row.mk "thread-due" (JObj [("journal_entry", JStr "thread-due")]) 0
            "2025-11-07T09:00:00+00:00" None (Some "worker-b")
            (Some "2025-11-07T09:06:00+00:00"))
  ∧ mark_success 1 "worker-a" taken
    = (Raise (lock_mismatch_success 1 "worker-a"), taken).
Proof.
  intros db taken.
  destruct (reset_lock_hands_over db taken 1
              (Row.mk "thread-due" (JObj [("journal_entry", JStr "thread-due")]) 0
                 "2025-11-07T09:00:00+00:00" None (Some "worker-a")
                 (Some "2025-11-07T09:05:00+00:00"))
              "worker-a" "worker-b" "503" (Samples.at_minute 9 0) None
              (Samples.at_minute 6 0)
              (RetryJob.mk "thread-due" (PyDict [("journal_entry", PyStr "thread-due")])
                 (Samples.at_minute 0 0) 0 (Some 1) None))
    as (_ & _ & Hrow & _ & _ & _ & Hsuccess & _).
  - reflexivity.
  - done.
  - done.
  - vm_compute. reflexivity.
  - reflexivity.
  - split; [exact Hrow|exact Hsuccess].
Defined.

End LockReset.

(** ** The authorization middleware *)

Section AuthFacts.
Import TelegramAuth.
Context {E A : Type}.

Lemma _wrap_handler_callable_cons (terminal : @HandlerCallable E A)
    (m : MiddlewareCallable) (ms : list MiddlewareCallable) (u : update) (d : data) :
  _wrap_handler_callable terminal (m :: ms) u d
  = m (_wrap_handler_callable terminal ms) u d.
Proof. unfold _wrap_handler_callable. cbn [rev]. by rewrite foldl_app. Qed.

Lemma registered_chain_wrap (terminal : @HandlerCallable E A)
    (extra : list MiddlewareCallable) (protected : bool)
    (stored : list MiddlewareCallable) (u : update) (d : data) :
  registered_chain terminal extra protected stored u d
  = _wrap_handler_callable terminal
      (registered_middlewares extra protected stored) u d.
Proof.
  unfold registered_chain.
  by destruct (registered_middlewares extra protected stored).
Qed.

(** X24. Who reaches a protected handler. For an application made by
    [create_application] and a handler registered as protected without extra
    middlewares: with an empty allow-list no authorization stands in front
    of the handler; with a non-empty one, an update whose user is unknown
    or not on the list gets the denial callback and then
    [ApplicationHandlerStop] (or what the callback raises), whatever the
    handler and the other middlewares are, so neither is reached; an
    update of a listed user goes on to the other middlewares with the
    user id stored under [authorized_user_id]. An extra middleware given
    at registration stands in front of the authorization. *)
Theorem unauthorized_update_is_stopped
    (allowed_user_ids : option (list Z)) (settings : Settings.t)
    (deny_callback : @DeniedCallback E)
    (middlewares : list (@MiddlewareCallable E A))
    (terminal : @HandlerCallable E A) (u : update) (d : data) :
  let auth_ids :=
    default (Settings.telegram_allowed_users settings) allowed_user_ids in
  let stored :=
    middleware_stack allowed_user_ids settings deny_callback middlewares in
  let chain := registered_chain terminal [] true stored in
  (auth_ids = [] → chain u d = _wrap_handler_callable terminal middlewares u d)
  ∧ (auth_ids ≠ [] →
     (∀ i, _extract_user_id u = Some i → i ∉ auth_ids) →
     chain u d
     = match deny_callback u (_extract_user_id u) with
       | (Failed e, effects) => (Failed e, effects)
       | (_, effects) => (Stopped, effects)
       end)
  ∧ (auth_ids ≠ [] →
     ∀ i, _extract_user_id u = Some i → i ∈ auth_ids →
     chain u d
     = _wrap_handler_callable terminal middlewares u
         (Posting.dict_set "authorized_user_id" (PyInt i) d))
  ∧ (∀ extra m,
       registered_chain terminal (m :: extra) true stored u d
       = m (_wrap_handler_callable terminal (extra ++ stored)) u d).
Proof.
  cbv zeta. rewrite registered_chain_wrap.
  unfold registered_middlewares, middleware_stack. cbn [app].
  assert (Hids : match allowed_user_ids with
                 | Some ids => ids
                 | None => Settings.telegram_allowed_users settings
                 end
                 = default (Settings.telegram_allowed_users settings)
                     allowed_user_ids) by (by destruct allowed_user_ids).
  rewrite Hids.
  set (auth_ids := default (Settings.telegram_allowed_users settings)
                     allowed_user_ids).
  split; [by intros ->|].
  split; [|split].
  - intros Hne Hout. destruct auth_ids as [|i0 ids] eqn:Hauth; [done|].
    rewrite _wrap_handler_callable_cons. unfold TelegramAuthorizationMiddleware.
    cbv zeta.
    assert (_is_authorized (list_to_set (i0 :: ids)) (_extract_user_id u) = false)
      as ->.
    { unfold _is_authorized. destruct (_extract_user_id u) as [i|]; [|done].
      apply bool_decide_eq_false_2. rewrite elem_of_list_to_set. by apply Hout. }
    cbn [negb _deny].
    by destruct (deny_callback u (_extract_user_id u)) as [[[]| |e] effects].
  - intros Hne i Hi Hin. destruct auth_ids as [|i0 ids] eqn:Hauth; [done|].
    rewrite _wrap_handler_callable_cons. unfold TelegramAuthorizationMiddleware.
    cbv zeta. rewrite Hi. unfold _is_authorized.
    rewrite bool_decide_eq_true_2 by (by rewrite elem_of_list_to_set).
    done.
  - intros extra m. rewrite registered_chain_wrap.
    unfold registered_middlewares. cbn [app].
    by rewrite _wrap_handler_callable_cons.
Qed.

End AuthFacts.

(** ** The reply to a confirmation command *)

Section DecisionFacts.
Import PyStr Parsing ConversationState Nodes Builder Flow Telegram.
Context `{Fuzz}.



Lemma parse_expense_message_open (today : date)
    (message default_currency : string) (source_message_id : option string)
    (state : t) (parsed : ParsedExpense.t) :
  parse_expense_text message (Some default_currency) source_message_id = Ok parsed →
  open_fields parsed ≠ [] →
  Drafting.parse_expense_message today message default_currency source_message_id
    state
  = (Ok parsed,
     set_expense_draft None
       (set_clarifications_needed (open_fields parsed)
          (set_erpnext_submission None (set_account_candidates [] state)))).
Proof.
  intros Hp Hopen. unfold Drafting.parse_expense_message. rewrite Hp.
  destruct (sorted_missing_fields _ _ _ _ Hp) as [-> ->].
  by rewrite bool_decide_eq_false_2 by done.
Qed.

(** X26. An incomplete message and the status of the thread. For a turn
    the entry node lets through, on a state that is not awaiting
    confirmation, with a message whose parse leaves fields open: the run
    returns without calling a tool, the draft is removed, the open fields
    are asked for in [clarifications_needed], and the status stays what it
    was. The reply then follows the status: on a pending thread it is the
    question for the open fields; on a thread still marked approved it is
    the confirmation again, and on a thread still marked rejected the
    cancellation again, the question not being asked. *)
Theorem incomplete_message_reply
    (today : date) (settings : Settings.t) (invoke : result chart_payload)
    (state : t) (parsed : ParsedExpense.t) :
  admitted settings state →
  ¬ awaiting_confirmation state →
  parse_expense_text (pending_text state)
    (Some (Settings.default_currency settings)) (pending_message_id state)
  = Ok parsed →
  open_fields parsed ≠ [] →
  ∃ state',
    turn today settings invoke state = (Ok tt, state', [])
    ∧ expense_draft state' = None
    ∧ clarifications_needed state' = open_fields parsed
    ∧ confirmation_status state' = confirmation_status state
    ∧ error_log state' = error_log state
    ∧ match confirmation_status state with
      | pending =>
          snd (fst (_render_telegram_response state')) = None
          ∧ snd (_render_telegram_response state')
            = [("summary", PyStr (_format_clarification (open_fields parsed)))]
      | approved =>
          snd (fst (_render_telegram_response state')) = Some confirmation
      | rejected =>
          snd (fst (_render_telegram_response state')) = Some cancellation
      end.
Proof.
  intros Hadm Hnot Hp Hopen. unfold turn.
  destruct (entry_node_cases settings state) as [[_ ->] | [Hno _]]; [|done].
  set (entered := set_messages _ state).
  assert (_route_from_entry entered = route_parse) as ->.
  { unfold _route_from_entry, entered. cbn.
    destruct (expense_draft state) eqn:Hd; [|done].
    destruct (clarifications_needed state) eqn:Hc; [|done].
    destruct (confirmation_status state) eqn:Hs; try done.
    destruct Hnot. by repeat split. }
  unfold _create_parse_node. cbv zeta.
  change (pending_text entered) with (pending_text state).
  change (pending_message_id entered) with (pending_message_id state).
  destruct Hadm as [Htext _]. rewrite (proj2 (truthy_true_iff _) Htext).
  cbn [negb]. rewrite (parse_expense_message_open _ _ _ _ _ _ Hp Hopen).
  unfold _create_resolve_node.
  cbn [expense_draft set_pending_message_id set_pending_message set_expense_draft].
  eexists. split; [reflexivity|].
  split; [done|]. split; [done|]. split; [done|]. split; [done|].
  unfold _render_telegram_response, entered.
  cbn [confirmation_status clarifications_needed expense_draft error_log
       set_messages set_expense_draft set_clarifications_needed
       set_erpnext_submission set_account_candidates set_pending_message
       set_pending_message_id].
  destruct (open_fields parsed) as [|field fields] eqn:Hfields; [done|].
  by destruct (confirmation_status state).
Qed.

End DecisionFacts.


Lemma incomplete_message_reply_witness :
  let state :=
    ConversationState.set_pending_message (Some "Lunch") Samples.approved_state in
  ∃ state',
    Flow.turn (H:=Samples.exact_fuzz) Turns.today Samples.settings_open
      Turns.chart_down state = (Ok tt, state', [])
    ∧ ConversationState.clarifications_needed state'
      = ["amount"; "credit_account"; "debit_account"]
    ∧ snd (fst (Telegram._render_telegram_response state'))
      = Some Telegram.confirmation.
Proof.
  intros state.
  destruct (incomplete_message_reply (H:=Samples.exact_fuzz) Turns.today
              Samples.settings_open Turns.chart_down state
              (ParsedExpense.mk None (Some "USD") "Lunch" None None ["lunch"]
                 ({[ "amount" ]} ∪ {[ "debit_account" ]} ∪ {[ "credit_account" ]})
                 None))
    as (state' & Hturn & _ & Hfields & _ & _ & Hreply).
  - split; [done|by left].
  - intros (_ & _ & Hstatus). discriminate Hstatus.
  - vm_compute. reflexivity.
  - discriminate.
  - exists state'. split; [exact Hturn|]. split; [exact Hfields|exact Hreply].
Defined.
